(** * Planello reminder scheduler: a shallow embedding of [server.js]

    The development follows the unified server file of the repository: the
    per-minute reminder job (the third [cron.schedule] callback), the time
    formatter [extractTime] and the duplicate filter of [/api/tasks/list],
    and the legacy row processing of [/api/schedule/tasks].

    Conventions of the embedding.
    - A JavaScript string is a [string]; the model is exact on ASCII text
      (white space is TAB, LF, VT, FF, CR and SPACE; case mapping acts on the
      letters a-z and A-Z only).  Text outside ASCII is outside the model:
      the host also takes U+00A0, U+FEFF and the other Unicode spaces as
      white space, and maps the case of letters beyond a-z.
    - A JavaScript number is the integer [Z] it holds (exact below 2^53,
      where the host prints every digit); where the source can produce
      [NaN] the model uses [option Z] with [None] for [NaN].
    - Stored documents are trees of type [jsval]; the file runs in sloppy
      mode, so writing a property of a primitive is ignored.
    - An expression that can throw is a computation in [result], a
      statement that can also call the sender one in [job]. *)

From Stdlib Require Import ZArith List String Ascii Bool Lia DecimalString Sorted.
Import ListNotations.
Open Scope string_scope.
Open Scope Z_scope.

(* ===================================================================== *)
(** * Part I. Definitions                                                 *)
(* ===================================================================== *)

(** ** String primitives of the host language *)

Module JsString.

Definition isDigit (c : ascii) : bool :=
  let n := nat_of_ascii c in (Nat.leb 48 n && Nat.leb n 57)%bool.

(** [\s] of a regular expression and the characters removed by [trim]. *)
Definition isWhiteSpace (c : ascii) : bool :=
  let n := nat_of_ascii c in
  ((Nat.leb 9 n && Nat.leb n 13) || Nat.eqb n 32)%bool.

Definition digitValue (c : ascii) : Z := Z.of_nat (nat_of_ascii c) - 48.

Fixpoint trimStart (s : string) : string :=
  match s with
  | EmptyString => EmptyString
  | String c s' => if isWhiteSpace c then trimStart s' else s
  end.

Fixpoint trimEnd (s : string) : string :=
  match s with
  | EmptyString => EmptyString
  | String c s' =>
      match trimEnd s' with
      | EmptyString => if isWhiteSpace c then EmptyString else String c EmptyString
      | t => String c t
      end
  end.

(** [String.prototype.trim]. *)
Definition trim (s : string) : string := trimEnd (trimStart s).

(** [s.split(sep)] for a one-character separator; never the empty list. *)
Fixpoint split (sep : ascii) (s : string) : list string :=
  match s with
  | EmptyString => [EmptyString]
  | String c s' =>
      if Ascii.eqb c sep then EmptyString :: split sep s'
      else match split sep s' with
           | h :: t => String c h :: t
           | [] => [String c EmptyString]
           end
  end.

(** Longest prefix of [s] whose characters satisfy [p], and the rest. *)
Fixpoint span (p : ascii -> bool) (s : string) : string * string :=
  match s with
  | EmptyString => (EmptyString, EmptyString)
  | String c s' =>
      if p c then let (a, b) := span p s' in (String c a, b)
      else (EmptyString, s)
  end.

(** Value of the longest prefix of decimal digits, with [acc] the value
    read so far; [None] when no digit has been read. *)
Fixpoint digitsFrom (acc : option Z) (s : string) : option Z :=
  match s with
  | EmptyString => acc
  | String c s' =>
      if isDigit c
      then digitsFrom (Some (10 * match acc with Some a => a | None => 0 end
                             + digitValue c)) s'
      else acc
  end.

(** [parseInt(s, 10)]: leading white space, an optional sign, then the
    longest run of digits; [None] is [NaN]. *)
Definition parseInt (s : string) : option Z :=
  match trimStart s with
  | String "-" r => option_map Z.opp (digitsFrom None r)
  | String "+" r => digitsFrom None r
  | r => digitsFrom None r
  end.

Definition upperChar (c : ascii) : ascii :=
  let n := nat_of_ascii c in
  if (Nat.leb 97 n && Nat.leb n 122)%bool then ascii_of_nat (n - 32) else c.

Definition lowerChar (c : ascii) : ascii :=
  let n := nat_of_ascii c in
  if (Nat.leb 65 n && Nat.leb n 90)%bool then ascii_of_nat (n + 32) else c.

Fixpoint mapString (f : ascii -> ascii) (s : string) : string :=
  match s with
  | EmptyString => EmptyString
  | String c s' => String (f c) (mapString f s')
  end.

Definition toUpperCase : string -> string := mapString upperChar.
Definition toLowerCase : string -> string := mapString lowerChar.

(** [s.charAt(0)] and [s.slice(1)]. *)
Definition charAt0 (s : string) : string :=
  match s with EmptyString => EmptyString | String c _ => String c EmptyString end.
Definition slice1 (s : string) : string :=
  match s with EmptyString => EmptyString | String _ s' => s' end.

(** [Number.prototype.toString] on an integer. *)
Definition numToString (n : Z) : string := NilZero.string_of_int (Z.to_int n).

(** [s.padStart(2, '0')]. *)
Definition padStart2 (s : string) : string :=
  match s with
  | EmptyString => "00"
  | String c EmptyString => String "0" (String c EmptyString)
  | _ => s
  end.

Definition nonEmpty (s : string) : bool :=
  match s with EmptyString => false | _ => true end.

End JsString.
Import JsString.

(** ** The time-string parser of the per-minute job

    The loop over [schedule.headers] parses each header with the code below
    (the new-format branch carries a copy of the same steps). *)

Module TimeParser.

Definition isTimeChar (c : ascii) : bool := (isDigit c || Ascii.eqb c ":")%bool.
Definition isAP (c : ascii) : bool :=
  (Ascii.eqb c "A" || Ascii.eqb c "a" || Ascii.eqb c "P" || Ascii.eqb c "p")%bool.
Definition isM (c : ascii) : bool := (Ascii.eqb c "M" || Ascii.eqb c "m")%bool.

(** One attempt of [/([0-9:]+)\s*([AP]M?)/i] at the start of [s]: both
    groups on success.  The run of time characters and the white space are
    taken greedily; giving characters back can not help, since the next
    character would then have to be both a time character (or white space)
    and one of A, P. *)
Definition matchPeriodAt (s : string) : option (string * string) :=
  let (run, rest) := span isTimeChar s in
  match run with
  | EmptyString => None
  | _ =>
      match trimStart rest with
      | String c r =>
          if isAP c
          then Some (run, String c (match r with
                                    | String m _ => if isM m then String m EmptyString
                                                    else EmptyString
                                    | EmptyString => EmptyString
                                    end))
          else None
      | EmptyString => None
      end
  end.

(** [timePart.match(/([0-9:]+)\s*([AP]M?)/i)]: the leftmost start position
    at which the expression matches. *)
Fixpoint periodMatch (s : string) : option (string * string) :=
  match matchPeriodAt s with
  | Some g => Some g
  | None =>
      match s with
      | EmptyString => None
      | String _ s' => periodMatch s'
      end
  end.

(** [period = periodMatch[2].toUpperCase()], then P becomes PM and A
    becomes AM. *)
Definition normalizePeriod (g2 : string) : string :=
  let period := toUpperCase g2 in
  let period := if String.eqb period "P" then "PM" else period in
  if String.eqb period "A" then "AM" else period.

(** The 12-hour to 24-hour step; [hours] may be [NaN]. *)
Definition to24 (period : string) (hours : option Z) : option Z :=
  if nonEmpty period then
    let hours :=
      match hours with
      | Some h => if (String.eqb period "PM" && (h <? 12))%bool then Some (h + 12) else hours
      | None => None
      end in
    match hours with
    | Some h => if (String.eqb period "AM" && (h =? 12))%bool then Some 0 else hours
    | None => None
    end
  else hours.

(** Hours and minutes read from [timePart], the header after [trim()],
    before validation. *)
Definition rawTimeOfPart (timePart : string) : option Z * option Z :=
  let '(timePart, period) :=
    match periodMatch timePart with
    | Some (g1, g2) => (trim g1, normalizePeriod g2)
    | None => (timePart, EmptyString)
    end in
  let parts := split ":" timePart in
  let hoursStr := hd EmptyString parts in
  let minutesStr := match tl parts with
                    | m :: _ => if nonEmpty m then m else "0"
                    | [] => "0"
                    end in
  (to24 period (parseInt hoursStr), parseInt minutesStr).

Definition rawTime (timeString : string) : option Z * option Z :=
  rawTimeOfPart (trim timeString).

(** The range check: [isNaN(hours) || isNaN(minutes) || hours < 0 ||
    hours > 23 || minutes < 0 || minutes > 59] skips the header. *)
Definition validTime (t : option Z * option Z) : option (Z * Z) :=
  match t with
  | (Some h, Some m) =>
      if ((h <? 0) || (23 <? h) || (m <? 0) || (59 <? m))%bool then None
      else Some (h, m)
  | _ => None
  end.

(** A header that yields a time slot, with its hour and minute. *)
Definition parseTime (timeString : string) : option (Z * Z) :=
  validTime (rawTime timeString).

End TimeParser.
Import TimeParser.

(** ** [extractTime]: the 12-hour formatter of [/api/tasks/list] *)

Module Formatter.

Definition take2digits (s : string) : option (string * string) :=
  match s with
  | String a (String b r) =>
      if (isDigit a && isDigit b)%bool
      then Some (String a (String b EmptyString), r) else None
  | _ => None
  end.

(** [(am|pm)?$] under the [i] flag: the period if present, and the end of
    the input. *)
Definition periodAtEnd (s : string) : option (option string) :=
  match s with
  | EmptyString => Some None
  | String a (String m EmptyString) =>
      if ((Ascii.eqb a "a" || Ascii.eqb a "A" || Ascii.eqb a "p" || Ascii.eqb a "P")
          && isM m)%bool
      then Some (Some s) else None
  | _ => None
  end.

(** [String(timeStr).match(/^(\d{1,2}):(\d{2})(?::\d{2})?\s*(am|pm)?$/i)]:
    the groups hours, minutes and period. *)
Definition timeMatch (s : string) : option (string * string * option string) :=
  let (hs, rest) := span isDigit s in
  match String.length hs, rest with
  | 1%nat, String ":" r | 2%nat, String ":" r =>
      match take2digits r with
      | Some (ms, r1) =>
          let r2 := match r1 with
                    | String ":" r' =>
                        match take2digits r' with
                        | Some (_, r'') => r''
                        | None => r1
                        end
                    | _ => r1
                    end in
          match periodAtEnd (trimStart r2) with
          | Some p => Some (hs, ms, p)
          | None => None
          end
      | None => None
      end
  | _, _ => None
  end.

Definition extractTime (timeStr : string) : string :=
  if negb (nonEmpty timeStr) then EmptyString
  else
    match timeMatch timeStr with
    | Some (hours, minutes, period) =>
        match parseInt hours with
        | Some hours =>
            let '(hours, period) :=
              match period with
              | Some p => (hours, p)
              | None => (if (hours mod 12) =? 0 then 12 else hours mod 12,
                         if 12 <=? hours then "PM" else "AM")
              end in
            trim (numToString hours ++ ":" ++ minutes ++ " " ++ toUpperCase period)
        | None => timeStr
        end
    | None => timeStr
    end.

(** The two ways the server writes an hour and a minute as a 24-hour
    string: [`${h}:${mm}`] and [`${hh}:${mm}`]. *)
Definition hmString (h m : Z) : string :=
  numToString h ++ ":" ++ padStart2 (numToString m).
Definition hhmmString (h m : Z) : string :=
  padStart2 (numToString h) ++ ":" ++ padStart2 (numToString m).

End Formatter.
Import Formatter.

(** ** Vocabulary of the statements about strings *)

Fixpoint allChars (p : ascii -> bool) (s : string) : bool :=
  match s with
  | EmptyString => true
  | String c s' => (p c && allChars p s')%bool
  end.

(** Decimal value of a string of digits, read independently of [parseInt]. *)
Fixpoint decimalAcc (acc : Z) (s : string) : Z :=
  match s with
  | EmptyString => acc
  | String c s' => decimalAcc (10 * acc + digitValue c) s'
  end.
Definition decimalValue (s : string) : Z := decimalAcc 0 s.


(** A period suffix: one of A, P in either case, then an optional M. *)
Definition isPeriodSuffix (suf : string) : bool :=
  match suf with
  | String c EmptyString => isAP c
  | String c (String m EmptyString) => (isAP c && isM m)%bool
  | _ => false
  end.

Definition isPMSuffix (suf : string) : bool :=
  match suf with
  | String c _ => (Ascii.eqb c "P" || Ascii.eqb c "p")%bool
  | EmptyString => false
  end.

(** The 12-hour to 24-hour rule as the specification words it: 12 AM is 0,
    12 PM is 12, PM adds 12 to an hour below 12. *)
Definition convert12 (pm : bool) (h : Z) : Z :=
  if pm then (if h <? 12 then h + 12 else h)
  else (if h =? 12 then 0 else h).

(** [H], [HH], [H:MM], ...: an hour in digits and an optional [:MM]. *)
Definition timeText (hs : string) (mm : option string) : string :=
  hs ++ match mm with Some ms => ":" ++ ms | None => EmptyString end.

Definition minuteValue (mm : option string) : Z :=
  match mm with Some ms => decimalValue ms | None => 0 end.

Definition digitText (hs : string) (mm : option string) : Prop :=
  hs <> EmptyString /\ allChars isDigit hs = true /\
  match mm with Some ms => allChars isDigit ms = true | None => True end.

(** The integers [0 .. n-1]. *)
Definition zrange (n : nat) : list Z := map Z.of_nat (seq 0 n).

Definition sameTime (a b : option (Z * Z)) : bool :=
  match a, b with
  | Some (h, m), Some (h', m') => ((h =? h') && (m =? m'))%bool
  | None, None => true
  | _, _ => false
  end.

(** The 12-hour text the formatter is expected to give for [h]:[m]. *)
Definition twelveHourText (h m : Z) : string :=
  numToString (if h mod 12 =? 0 then 12 else h mod 12) ++ ":" ++
  padStart2 (numToString m) ++ (if 12 <=? h then " PM" else " AM").

Definition roundTripAt (h m : Z) : bool :=
  (String.eqb (extractTime (hmString h m)) (twelveHourText h m)
   && String.eqb (extractTime (hhmmString h m)) (twelveHourText h m)
   && sameTime (parseTime (twelveHourText h m)) (Some (h, m))
   && sameTime (parseTime (hhmmString h m)) (Some (h, m))
   && sameTime (parseTime (hmString h m)) (Some (h, m)))%bool.

(** ** Stored values and the operations the server applies to them *)

Module Js.

#[local] Set Warnings "-register-all".

(** A value read from a stored document: [undefined] for an absent field,
    [null], a boolean, an integer, a string, an array or a plain object
    with its own properties in order. *)
Inductive jsval : Type :=
| JUndef
| JNull
| JBool (b : bool)
| JNum (n : Z)
| JStr (s : string)
| JArr (items : list jsval)
| JObj (fields : list (string * jsval)).

Inductive exn : Type := TypeError | ReferenceError.

(** Outcome of evaluating an expression: a value, a thrown error, or
    [Beyond] when the evaluation would need a conversion to number of a
    string, array or object, which the embedding does not cover (it can
    only arise from a plain object that stores a [length] property). *)
Inductive result (A : Type) : Type :=
| Ok (a : A)
| Throw (e : exn)
| Beyond.
Arguments Ok {A} a.
Arguments Throw {A} e.
Arguments Beyond {A}.

Definition bind {A B} (c : result A) (k : A -> result B) : result B :=
  match c with
  | Ok a => k a
  | Throw e => Throw e
  | Beyond => Beyond
  end.

(** [ToBoolean]. *)
Definition truthy (v : jsval) : bool :=
  match v with
  | JUndef | JNull => false
  | JBool b => b
  | JNum n => negb (n =? 0)
  | JStr s => nonEmpty s
  | JArr _ | JObj _ => true
  end.

(** [a || b] and [a && b] on values. *)
Definition orElse (a b : jsval) : jsval := if truthy a then a else b.
Definition andAlso (a b : jsval) : jsval := if truthy a then b else a.

Fixpoint lookup (k : string) (fields : list (string * jsval)) : jsval :=
  match fields with
  | [] => JUndef
  | (k', v) :: rest => if String.eqb k k' then v else lookup k rest
  end.

Definition hasKey (k : string) (fields : list (string * jsval)) : bool :=
  existsb (fun kv => String.eqb k (fst kv)) fields.

(** [v.k] for a data key [k] (one of rows, headers, day, Day, time, Time,
    task, Task, text, Text): reading a property of [undefined] or [null]
    throws; primitives and arrays have no such property. *)
Definition getField (v : jsval) (k : string) : result jsval :=
  match v with
  | JUndef | JNull => Throw TypeError
  | JObj fields => Ok (lookup k fields)
  | _ => Ok JUndef
  end.

Fixpoint charAt (s : string) (i : nat) : jsval :=
  match s, i with
  | EmptyString, _ => JUndef
  | String c _, O => JStr (String c EmptyString)
  | String _ s', S i' => charAt s' i'
  end.

(** [v[i]] for an index [i]. *)
Definition getIndex (v : jsval) (i : nat) : result jsval :=
  match v with
  | JUndef | JNull => Throw TypeError
  | JArr items => Ok (nth i items JUndef)
  | JStr s => Ok (charAt s i)
  | JObj fields => Ok (lookup (numToString (Z.of_nat i)) fields)
  | _ => Ok JUndef
  end.

(** [v.length]. *)
Definition getLength (v : jsval) : result jsval :=
  match v with
  | JUndef | JNull => Throw TypeError
  | JArr items => Ok (JNum (Z.of_nat (List.length items)))
  | JStr s => Ok (JNum (Z.of_nat (String.length s)))
  | JObj fields => Ok (lookup "length" fields)
  | _ => Ok JUndef
  end.

(** [v > 0] for a value read as a length. *)
Definition greaterThanZero (v : jsval) : result bool :=
  match v with
  | JUndef | JNull => Ok false
  | JBool b => Ok b
  | JNum n => Ok (0 <? n)
  | _ => Beyond
  end.

(** The number of rounds of [for (col = 0; col < len; col++)].  The host
    converts a length that is a string, an array or an object to a
    number; the embedding does not, and answers [Beyond]. *)
Definition loopBound (len : jsval) : result nat :=
  match len with
  | JUndef | JNull => Ok O
  | JBool b => Ok (if b then 1%nat else O)
  | JNum n => Ok (Z.to_nat n)
  | _ => Beyond
  end.

Definition isArray (v : jsval) : bool :=
  match v with JArr _ => true | _ => false end.

(** [typeof v === 'object']. *)
Definition typeofObject (v : jsval) : bool :=
  match v with JNull | JArr _ | JObj _ => true | _ => false end.

(** [k in v] for [k] one of day, Day: an error on a primitive. *)
Definition hasIn (k : string) (v : jsval) : result bool :=
  match v with
  | JArr _ => Ok false
  | JObj fields => Ok (hasKey k fields)
  | _ => Throw TypeError
  end.

(** [ToString]: template literals, property keys and [join].  A stored
    object whose own [toString] property shadows the inherited method can
    not be converted. *)
Fixpoint toStr (v : jsval) : result string :=
  match v with
  | JUndef => Ok "undefined"
  | JNull => Ok "null"
  | JBool b => Ok (if b then "true" else "false")
  | JNum n => Ok (numToString n)
  | JStr s => Ok s
  | JArr items =>
      (fix join (l : list jsval) : result string :=
         match l with
         | [] => Ok EmptyString
         | x :: rest =>
             bind (match x with JUndef | JNull => Ok EmptyString | _ => toStr x end)
                  (fun sx =>
                     match rest with
                     | [] => Ok sx
                     | _ => bind (join rest) (fun sr => Ok (sx ++ "," ++ sr))
                     end)
         end) items
  | JObj fields =>
      if hasKey "toString" fields then Throw TypeError else Ok "[object Object]"
  end.

(** [v.toString()]. *)
Definition callToString (v : jsval) : result string :=
  match v with
  | JUndef | JNull => Throw TypeError
  | _ => toStr v
  end.

(** [v.trim()], [v.padEnd(10)], [v.charAt(0)], [v.toLowerCase()]: methods
    of strings only. *)
Definition asString (v : jsval) : result string :=
  match v with
  | JStr s => Ok s
  | _ => Throw TypeError
  end.
Definition callTrim (v : jsval) : result string :=
  bind (asString v) (fun s => Ok (trim s)).

(** [Object.keys(v)] evaluated for a log line. *)
Definition objectKeys (v : jsval) : result unit :=
  match v with
  | JUndef | JNull => Throw TypeError
  | _ => Ok tt
  end.

(** Names every plain object inherits from [Object.prototype]. *)
Definition objectPrototypeNames : list string :=
  ["constructor"; "__defineGetter__"; "__defineSetter__"; "hasOwnProperty";
   "__lookupGetter__"; "__lookupSetter__"; "isPrototypeOf";
   "propertyIsEnumerable"; "toString"; "valueOf"; "__proto__"; "toLocaleString"].

Definition inherited (k : string) : bool :=
  existsb (String.eqb k) objectPrototypeNames.

(** [l.forEach(f)] where [f] may throw. *)
Fixpoint forEach {A} (f : A -> result unit) (l : list A) : result unit :=
  match l with
  | [] => Ok tt
  | x :: rest => bind (f x) (fun _ => forEach f rest)
  end.

(** [l.filter(f)] where [f] may throw. *)
Fixpoint filterM {A} (f : A -> result bool) (l : list A) : result (list A) :=
  match l with
  | [] => Ok []
  | x :: rest =>
      bind (f x) (fun keep =>
      bind (filterM f rest) (fun rest' => Ok (if keep then x :: rest' else rest')))
  end.

(** [l.find(f)] where [f] may throw. *)
Fixpoint findM {A} (f : A -> result bool) (l : list A) : result (option A) :=
  match l with
  | [] => Ok None
  | x :: rest => bind (f x) (fun hit => if hit then Ok (Some x) else findM f rest)
  end.

End Js.
Import Js.

Notation "x <- c ;; k" := (Js.bind c (fun x => k))
  (at level 61, c at next level, right associativity).
Notation "c ;;; k" := (Js.bind c (fun _ => k))
  (at level 61, right associativity).

(** ** Documents, clock and trace of the per-minute job *)

Inductive weekday : Type :=
  Sunday | Monday | Tuesday | Wednesday | Thursday | Friday | Saturday.

(** [daysOfWeek[d.getDay()]]. *)
Definition dayName (d : weekday) : string :=
  match d with
  | Sunday => "Sunday" | Monday => "Monday" | Tuesday => "Tuesday"
  | Wednesday => "Wednesday" | Thursday => "Thursday" | Friday => "Friday"
  | Saturday => "Saturday"
  end.

(** [Date.prototype.getDay]: Sunday is 0. *)
Definition getDay (d : weekday) : nat :=
  match d with
  | Sunday => 0 | Monday => 1 | Tuesday => 2 | Wednesday => 3
  | Thursday => 4 | Friday => 5 | Saturday => 6
  end%nat.

(** The table [dayToRowIndex]: Monday is row 0 and Sunday row 6. *)
Definition dayToRowIndex (d : weekday) : nat :=
  match d with
  | Monday => 0 | Tuesday => 1 | Wednesday => 2 | Thursday => 3
  | Friday => 4 | Saturday => 5 | Sunday => 6
  end%nat.

(** What the job reads from the clock: the day of [now], and the day, hour
    and minute of [nextMinute = now + 60000]. *)
Record Clock : Type := mkClock {
  currentDay : weekday;
  targetDay : weekday;
  targetHour : Z;
  targetMinute : Z
}.

Record NotificationSettings : Type := mkSettings {
  whatsapp : option bool
}.

(** A [User] document.  [phone], [name] and [isVerified] have the types of
    the schema; the schedule fields hold whatever was stored. *)
Record User : Type := mkUser {
  userId : nat;
  phone : option string;
  name : option string;
  isVerified : bool;
  notificationSettings : option NotificationSettings;
  schedule : jsval;
  weeklySchedule : jsval
}.

(** A [Task] document. *)
Record Task : Type := mkTask {
  taskUserId : nat;
  text : string;
  dueDate : Z;
  completed : bool;
  reminderSent : bool;
  oneMinuteReminderSent : bool
}.

(** What a run of the job leaves behind: the calls of
    [sendWhatsAppReminder] with their answer, and the [console.error] lines
    of the handlers. *)
Inductive event : Type :=
| Reminder (to : option string) (taskText : string) (success : bool)
| HeaderError (to : option string) (col : nat)
| TimeSlotError (to : option string) (e : exn)
| UserError (to : option string) (e : exn)
| JobError (e : exn).

(** A statement: the events it emits and how it ends. *)
Definition job (A : Type) : Type := list event * result A.

Definition ret {A} (a : A) : job A := ([], Ok a).
Definition emit (ev : event) : job unit := ([ev], Ok tt).
Definition lift {A} (c : result A) : job A := ([], c).

Definition andThen {A B} (c : job A) (k : A -> job B) : job B :=
  match c with
  | (tr, Ok a) => let (tr', r) := k a in ((tr ++ tr')%list, r)
  | (tr, Throw e) => (tr, Throw e)
  | (tr, Beyond) => (tr, Beyond)
  end.

(** [try { c } catch (e) { handler e }]. *)
Definition tryCatch {A} (c : job A) (handler : exn -> job A) : job A :=
  match c with
  | (tr, Throw e) => let (tr', r) := handler e in ((tr ++ tr')%list, r)
  | other => other
  end.

(** [for (const x of l) { body x }]. *)
Fixpoint forOf {A} (body : A -> job unit) (l : list A) : job unit :=
  match l with
  | [] => ret tt
  | x :: rest => andThen (body x) (fun _ => forOf body rest)
  end.

Notation "x <~ c ;; k" := (andThen c (fun x => k))
  (at level 61, c at next level, right associativity).

(** ** The per-minute reminder job

    [cron.schedule('* * * * *', async () => { ... })], the third scheduled
    callback of the server.  Log output is not modelled, but every
    expression evaluated for a log line is, since it may throw. *)

Section ReminderJob.

(** The answer of [sendWhatsAppReminder(phone, taskText, _)]; the function
    catches its own errors and returns a boolean.  Its third argument is a
    wall-clock text. *)
Variable sendWhatsAppReminder : option string -> string -> bool.

Variable clock : Clock.

(** *** First pass: the description of every user *)

Definition describeRow (row : jsval) : result unit :=
  d <- getField row "day" ;;
  _ <- toStr (orElse d (JStr "N/A")) ;;
  t <- getField row "time" ;;
  _ <- toStr (orElse t (JStr "N/A")) ;;
  k <- getField row "task" ;;
  _ <- toStr (orElse k (JStr "N/A")) ;;
  Ok tt.

(** [rows.slice(0, 2)] followed by [.forEach]: arrays only. *)
Definition firstTwo (rows : jsval) : result (list jsval) :=
  match rows with
  | JArr items => Ok (firstn 2 items)
  | _ => Throw TypeError
  end.

(** [rows?.length]. *)
Definition optionalLength (rows : jsval) : result jsval :=
  match rows with
  | JUndef | JNull => Ok JUndef
  | _ => getLength rows
  end.

Definition describeUser (user : User) : result unit :=
  if truthy (schedule user) then
    rows <- getField (schedule user) "rows" ;;
    len <- optionalLength rows ;;
    _ <- toStr (orElse len (JNum 0)) ;;
    positive <- greaterThanZero len ;;
    if positive then
      shown <- firstTwo rows ;;
      forEach describeRow shown
    else Ok tt
  else Ok tt.

(** *** The filters *)

(** [user.phone && user.phone.trim() !== '']. *)
Definition hasPhone (user : User) : bool :=
  match phone user with
  | Some p => (nonEmpty p && nonEmpty (trim p))%bool
  | None => false
  end.

Definition verifiedUsers (allUsers : list User) : list User :=
  filter (fun user => (hasPhone user && isVerified user)%bool) allUsers.

(** [user.notificationSettings?.whatsapp !== false]. *)
Definition whatsappEnabled (user : User) : bool :=
  match notificationSettings user with
  | Some settings =>
      match whatsapp settings with
      | Some false => false
      | _ => true
      end
  | None => true
  end.

(** [rows && rows.length > 0 && typeof rows[0] === 'object' &&
    'day' in rows[0]], read as a condition. *)
Definition isNewFormat (rows : jsval) : result bool :=
  if truthy rows then
    len <- getLength rows ;;
    positive <- greaterThanZero len ;;
    if positive then
      first <- getIndex rows 0 ;;
      if typeofObject first then hasIn "day" first else Ok false
    else Ok false
  else Ok false.

(** [row.day && row.time && row.task], read as a condition. *)
Definition isCompleteRow (row : jsval) : result bool :=
  d <- getField row "day" ;;
  if truthy d then
    t <- getField row "time" ;;
    if truthy t then
      k <- getField row "task" ;;
      Ok (truthy k)
    else Ok false
  else Ok false.

Definition hasValidSchedule (user : User) : result bool :=
  if negb (truthy (schedule user)) then Ok false
  else
    rows <- getField (schedule user) "rows" ;;
    newFormat <- isNewFormat rows ;;
    if newFormat then
      validRows <- match rows with
                   | JArr items => filterM isCompleteRow items
                   | _ => Throw TypeError
                   end ;;
      Ok (negb (Nat.eqb (List.length validRows) 0))
    else
      Ok match rows with
         | JArr (_ :: _) => true
         | _ => false
         end.

(** The list [users] the later passes and the dispatch loop run over. *)
Definition eligibleUsers (verified : list User) : result (list User) :=
  filterM (fun user =>
             valid <- hasValidSchedule user ;;
             Ok (whatsappEnabled user && valid)%bool) verified.

(** *** Second pass: the tasks of the current day, for the log *)

(** [l.forEach] collecting what the callback pushes. *)
Fixpoint collect {A B} (f : A -> result (option B)) (l : list A) : result (list B) :=
  match l with
  | [] => Ok []
  | x :: rest =>
      pushed <- f x ;;
      more <- collect f rest ;;
      Ok match pushed with
         | Some b => b :: more
         | None => more
         end
  end.

Definition indexed {A} (l : list A) : list (nat * A) :=
  combine (seq 0 (List.length l)) l.

(** [s.charAt(0).toUpperCase() + s.slice(1).toLowerCase()]. *)
Definition capitalize (s : string) : string :=
  toUpperCase (charAt0 s) ++ toLowerCase (slice1 s).

(** [(row[0] || '').toString().trim()]. *)
Definition rowDay (row : jsval) : result string :=
  first <- getIndex row 0 ;;
  s <- callToString (orElse first (JStr EmptyString)) ;;
  Ok (trim s).

Definition isRowOfCurrentDay (row : jsval) : result bool :=
  d <- rowDay row ;;
  Ok (nonEmpty d &&
      String.eqb (toLowerCase d) (toLowerCase (dayName (currentDay clock))))%bool.

(** New format: one record of [schedule.rows]. *)
Definition recordOfCurrentDay (row : jsval) : result (option (jsval * jsval)) :=
  d <- getField row "day" ;;
  s <- asString (orElse d (JStr EmptyString)) ;;
  t <- getField row "time" ;;
  k <- getField row "task" ;;
  Ok (if (String.eqb (capitalize s) (dayName (currentDay clock))
          && truthy t && truthy k)%bool
      then Some (t, k) else None).

(** Legacy format: one header with its column index, on the day's row. *)
Definition cellOfCurrentDay (dayRow : jsval) (entry : nat * jsval)
  : result (option (jsval * jsval)) :=
  let (colIndex, time) := entry in
  if Nat.ltb 0 colIndex then
    cell <- getIndex dayRow colIndex ;;
    if truthy cell then
      _ <- toStr time ;;
      _ <- toStr cell ;;
      Ok (Some (time, cell))
    else Ok None
  else Ok None.

(** [`${time.padEnd(10)} | ${task}`] for column [i + 1] of the grid. *)
Definition printGridLine (headers dayRow : jsval) (i : nat) : result unit :=
  h <- getIndex headers (i + 1) ;;
  c <- getIndex dayRow (i + 1) ;;
  _ <- asString (orElse h (JStr EmptyString)) ;;
  _ <- toStr (orElse c (JStr EmptyString)) ;;
  Ok tt.

(** [`${task.time.padEnd(10)} | ${task.task}`]. *)
Definition printTask (entry : jsval * jsval) : result unit :=
  _ <- asString (fst entry) ;;
  _ <- toStr (snd entry) ;;
  Ok tt.

(** The comparator of [currentDayTasks.sort] calls [toLowerCase] on both
    times; it runs on every element as soon as there are two. *)
Definition sortByTime (tasks : list (jsval * jsval)) : result unit :=
  match tasks with
  | _ :: _ :: _ => forEach (fun entry => _ <- asString (fst entry) ;; Ok tt) tasks
  | _ => Ok tt
  end.

Definition logCurrentDayTasks (user : User) : result unit :=
  let sched := orElse (schedule user) (JObj []) in
  rows <- getField sched "rows" ;;
  headers <- getField sched "headers" ;;
  match rows with
  | JArr items =>
      newFormat <- isNewFormat rows ;;
      currentDayTasks <-
        (if newFormat then collect recordOfCurrentDay items
         else
           match headers, items with
           | JArr hs, _ :: _ =>
               _ <- forEach (fun row => _ <- rowDay row ;; Ok tt) items ;;
               dayRow <- findM isRowOfCurrentDay items ;;
               match dayRow with
               | Some dayRow => collect (cellOfCurrentDay dayRow) (indexed hs)
               | None => Ok []
               end
           | _, _ => Ok []
           end) ;;
      match currentDayTasks with
      | [] => Ok tt
      | _ :: _ =>
          match headers with
          | JArr hs =>
              dayRow <- findM isRowOfCurrentDay items ;;
              match dayRow with
              | Some dayRow =>
                  forEach (printGridLine headers dayRow) (seq 0 (List.length hs - 1))
              | None => Ok tt
              end
          | _ =>
              _ <- sortByTime currentDayTasks ;;
              forEach printTask currentDayTasks
          end
      end
  | _ => Ok tt
  end.

(** *** Third pass: the schedule of the week, for the log *)

(** [daysMap[row.day]] is read, and [push] called on it, for a complete
    record; an inherited property is not an array. *)
Definition groupByDay (row : jsval) : result unit :=
  complete <- isCompleteRow row ;;
  if complete then
    d <- getField row "day" ;;
    key <- toStr d ;;
    if inherited key then Throw TypeError else Ok tt
  else Ok tt.

Definition describeCell (headers : jsval) (entry : nat * jsval) : result unit :=
  let (taskIndex, task) := entry in
  if truthy task then
    h <- (if truthy headers then getIndex headers taskIndex else Ok headers) ;;
    let time := if truthy h then h
                else JStr (if Nat.eqb taskIndex 0 then "00:00"
                           else "Task " ++ numToString (Z.of_nat taskIndex)) in
    _ <- toStr time ;;
    _ <- toStr task ;;
    Ok tt
  else Ok tt.

Definition describeWeekRow (headers row : jsval) : result unit :=
  if negb (truthy row) then Ok tt
  else
    t <- getField row "time" ;;
    k <- getField row "task" ;;
    if (truthy t && truthy k)%bool then
      _ <- toStr t ;;
      _ <- toStr k ;;
      Ok tt
    else
      match row with
      | JArr cells => forEach (describeCell headers) (indexed cells)
      | _ => Ok tt
      end.

Definition logWeek (user : User) : result unit :=
  let sched := schedule user in
  if truthy sched then
    rows <- getField sched "rows" ;;
    match rows with
    | JArr items =>
        _ <- forEach groupByDay items ;;
        headers <- getField sched "headers" ;;
        forEach (describeWeekRow headers) items
    | _ => Ok tt
    end
  else Ok tt.

(** *** The dispatch loop: [for (const currentUser of users)] *)

Record TimeSlot : Type := mkSlot {
  col : nat;
  hours : Z;
  minutes : Z;
  timeString : string;
  hasTask : bool;
  taskText : string
}.

(** The rows and headers the loop works on after the shape coercion of
    [currentUser.weeklySchedule || currentUser.schedule]; [None] stands
    for [continue].  An object without rows becomes its own only row, and
    [JSON.stringify] of that row then fails on the cycle. *)
Definition coerceSchedule (currentUser : User)
  : result (option (list jsval * jsval)) :=
  let sched := orElse (weeklySchedule currentUser) (schedule currentUser) in
  if negb (truthy sched) then Ok None
  else
    match sched with
    | JArr [] => Ok None
    | JArr items => Ok (Some (items, JArr []))
    | JObj fields =>
        let rows := lookup "rows" fields in
        let headers := lookup "headers" fields in
        match rows with
        | JArr [] => Ok None
        | JArr items => Ok (Some (items, headers))
        | _ => if truthy rows then Ok (Some ([rows], headers))
               else Throw TypeError
        end
    | _ => Ok None
    end.

(** [typeof currentDayRow === 'object' && ('day' in currentDayRow ||
    'Day' in currentDayRow || (currentDayRow.Time && currentDayRow.Task))],
    read as a condition. *)
Definition isRecordRow (currentDayRow : jsval) : result bool :=
  if typeofObject currentDayRow then
    lower <- hasIn "day" currentDayRow ;;
    if lower then Ok true
    else
      upper <- hasIn "Day" currentDayRow ;;
      if upper then Ok true
      else
        t <- getField currentDayRow "Time" ;;
        k <- getField currentDayRow "Task" ;;
        Ok (truthy t && truthy k)%bool
  else Ok false.

(** One round of the [forEach] that fills [daysMap] from all rows. *)
Definition collectRow (row : jsval) : result unit :=
  task <- getField row "task" ;;
  Task <- getField row "Task" ;;
  text <- getField row "text" ;;
  Text <- getField row "Text" ;;
  third <- getIndex row 2 ;;
  day <- getField row "day" ;;
  Day <- getField row "Day" ;;
  first <- getIndex row 0 ;;
  time <- getField row "time" ;;
  Time <- getField row "Time" ;;
  second <- getIndex row 1 ;;
  let taskText :=
    orElse task (orElse Task (orElse text (orElse Text (orElse third (JStr EmptyString))))) in
  let dayValue := orElse day (orElse Day (orElse first (JStr EmptyString))) in
  let timeValue := orElse time (orElse Time (orElse second (JStr EmptyString))) in
  if (truthy dayValue && truthy timeValue && truthy taskText)%bool then
    d <- callToString dayValue ;;
    _ <- callToString timeValue ;;
    _ <- callToString taskText ;;
    if inherited (capitalize d) then Throw TypeError else Ok tt
  else Ok tt.

(** [(daySchedule[col] || '').toString().trim()]. *)
Definition cellText (daySchedule : list jsval) (col : nat) : result string :=
  s <- callToString (orElse (nth col daySchedule JUndef) (JStr EmptyString)) ;;
  Ok (trim s).

(** The body of the loop over the columns of [schedule.headers], from the
    test of [timeString] on, with its own [try]/[catch].  The handler
    writes [timeString] into the line it logs: a header that can not be
    converted to a string makes the handler throw in its turn, and that
    error leaves the loop over the columns. *)
Definition slotOf (to : option string) (daySchedule : list jsval)
           (col : nat) (timeString : jsval) : job (option TimeSlot) :=
  if negb (truthy timeString) then ret None
  else
    tryCatch
      (lift (timePart <- callTrim timeString ;;
             match validTime (rawTimeOfPart timePart) with
             | None => Ok None
             | Some (hours, minutes) =>
                 taskText <- cellText daySchedule col ;;
                 Ok (Some (mkSlot col hours minutes timePart (nonEmpty taskText)
                             (if nonEmpty taskText then taskText else "NO TASK")))
             end))
      (fun _ =>
         _ <~ lift (toStr timeString) ;;
         _ <~ emit (HeaderError to col) ;;
         ret None).

Fixpoint collectSlots (to : option string) (daySchedule : list jsval)
         (headers : jsval) (cols : list nat) : job (list TimeSlot) :=
  match cols with
  | [] => ret []
  | col :: rest =>
      timeString <~ lift (getIndex headers col) ;;
      slot <~ slotOf to daySchedule col timeString ;;
      slots <~ collectSlots to daySchedule headers rest ;;
      ret match slot with
          | Some s => s :: slots
          | None => slots
          end
  end.

(** The comparator of [timeSlots.sort] is negative on [a], [b]. *)
Definition slotBefore (a b : TimeSlot) : bool :=
  if hours a =? hours b then minutes a <? minutes b else hours a <? hours b.

Fixpoint insertSlot (x : TimeSlot) (l : list TimeSlot) : list TimeSlot :=
  match l with
  | [] => [x]
  | y :: rest => if slotBefore x y then x :: y :: rest else y :: insertSlot x rest
  end.

(** [timeSlots.sort(...)]: the sort of the host is stable, so it agrees
    with insertion in input order. *)
Definition sortSlots (l : list TimeSlot) : list TimeSlot :=
  fold_left (fun sorted x => insertSlot x sorted) l [].

Definition isDue (slot : TimeSlot) : bool :=
  ((hours slot =? targetHour clock) && (minutes slot =? targetMinute clock))%bool.

(** [for (const slot of timeSlots)]: one call of the sender for each slot
    at the target time with a non-empty cell. *)
Fixpoint sendDue (to : option string) (daySchedule : list jsval)
         (slots : list TimeSlot) : job unit :=
  match slots with
  | [] => ret tt
  | slot :: rest =>
      if isDue slot then
        taskText <~ lift (cellText daySchedule (col slot)) ;;
        if nonEmpty taskText then
          _ <~ emit (Reminder to taskText (sendWhatsAppReminder to taskText)) ;;
          sendDue to daySchedule rest
        else sendDue to daySchedule rest
      else sendDue to daySchedule rest
  end.

(** The statements inside the [try] of one round of the loop that come
    before the loop over the headers; none of them calls the sender.  The
    result is the row of the target day, the headers and the number of
    columns to visit; [None] stands for [continue]. *)
Definition beforeSlots (currentUser : User)
  : result (option (list jsval * jsval * nat)) :=
  prepared <- coerceSchedule currentUser ;;
  match prepared with
  | None => Ok None
  | Some (rows, headers) =>
      let targetRowIndex := getDay (targetDay clock) in
      let currentDayRow := orElse (nth targetRowIndex rows JUndef) (nth 0 rows JUndef) in
      newFormat <- isRecordRow currentDayRow ;;
      if newFormat then
        (* new-format branch: [row] and [index] are not declared *)
        Throw ReferenceError
      else
        _ <- forEach objectKeys rows ;;
        _ <- forEach collectRow rows ;;
        let rowIndex := dayToRowIndex (targetDay clock) in
        if Nat.leb (List.length rows) rowIndex then Ok None
        else
          match nth rowIndex rows JUndef with
          | JArr daySchedule =>
              len <- getLength headers ;;
              bound <- loopBound len ;;
              Ok (Some (daySchedule, headers, bound))
          | _ => Ok None
          end
  end.

(** The statements inside the [try] of one round of the loop. *)
Definition userBody (currentUser : User) : job unit :=
  found <~ lift (beforeSlots currentUser) ;;
  match found with
  | None => ret tt
  | Some (daySchedule, headers, bound) =>
      timeSlots <~ collectSlots (phone currentUser) daySchedule headers
                                (seq 0 bound) ;;
      tryCatch
        (sendDue (phone currentUser) daySchedule (sortSlots timeSlots))
        (fun e => emit (TimeSlotError (phone currentUser) e))
  end.

Definition processUser (currentUser : User) : job unit :=
  tryCatch (userBody currentUser)
           (fun e => emit (UserError (phone currentUser) e)).

Definition dispatchLoop (users : list User) : job unit :=
  forOf processUser users.

(** *** The whole callback *)

Definition reminderJob (allUsers : list User) : job unit :=
  tryCatch
    (_ <~ lift (forEach describeUser allUsers) ;;
     users <~ lift (eligibleUsers (verifiedUsers allUsers)) ;;
     match users with
     | [] => ret tt
     | _ :: _ =>
         _ <~ lift (forEach logCurrentDayTasks users) ;;
         _ <~ lift (forEach logWeek users) ;;
         dispatchLoop users
     end)
    (fun e => emit (JobError e)).

(** *** The task store *)

Record World : Type := mkWorld {
  users : list User;
  tasks : list Task
}.

(** [cron.schedule('* * * * *', async () => { // 1-minute reminders logic
    })]: the callback has no statement. *)
Definition oneMinuteReminders (w : World) : World * job unit := (w, ret tt).

(** One minute of the scheduler: both per-minute callbacks.  The reminder
    job reads the users and writes nothing back. *)
Definition minuteCycle (w : World) : World * list event :=
  let (w1, stub) := oneMinuteReminders w in
  let run := reminderJob (users w1) in
  (w1, (fst stub ++ fst run)%list).

End ReminderJob.

(** ** Vocabulary of the statements about the job *)

(** The calls of the sender recorded in a trace: recipient, text, answer. *)
Fixpoint reminders (tr : list event) : list (option string * string * bool) :=
  match tr with
  | [] => []
  | Reminder to taskText success :: rest => (to, taskText, success) :: reminders rest
  | _ :: rest => reminders rest
  end.

(** The value the dispatch loop reads as the schedule of a user. *)
Definition workingSchedule (u : User) : jsval :=
  orElse (weeklySchedule u) (schedule u).

(** The rows of a schedule given as a bare array or under [rows]. *)
Definition storedRows (sched : jsval) : option (list jsval) :=
  match sched with
  | JArr items => Some items
  | JObj fields =>
      match lookup "rows" fields with
      | JArr items => Some items
      | _ => None
      end
  | _ => None
  end.

(** A row in the new format: an object that has a [day] property. *)
Definition isRecord (row : jsval) : bool :=
  match row with
  | JObj fields => hasKey "day" fields
  | _ => false
  end.

(** A user whose schedule rows are records, and there is at least one. *)
Definition newFormatUser (u : User) : bool :=
  match storedRows (workingSchedule u) with
  | Some (row :: rows) => forallb isRecord (row :: rows)
  | _ => false
  end.

(** The time slot the loop over the headers builds for column [col], as a
    function of the headers and of the row of the day. *)
Definition slotSpec (daySchedule : list jsval) (headers : jsval) (col : nat)
  : option TimeSlot :=
  match getIndex headers col with
  | Ok (JStr s) =>
      match parseTime s with
      | Some (h, m) =>
          match cellText daySchedule col with
          | Ok t => Some (mkSlot col h m (trim s) (nonEmpty t)
                            (if nonEmpty t then t else "NO TASK"))
          | _ => None
          end
      | None => None
      end
  | _ => None
  end.

(** The due item of column [col], if any: the header of the column is a
    string that parses to the target hour and minute, and the cell of the
    column, trimmed, is not empty. *)
Definition dueText (clock : Clock) (daySchedule : list jsval) (headers : jsval)
           (col : nat) : option string :=
  match getIndex headers col with
  | Ok (JStr s) =>
      match parseTime s with
      | Some (h, m) =>
          if ((h =? targetHour clock) && (m =? targetMinute clock))%bool then
            match cellText daySchedule col with
            | Ok t => if nonEmpty t then Some t else None
            | _ => None
            end
          else None
      | None => None
      end
  | _ => None
  end.

Definition optionList {A} (o : option A) : list A :=
  match o with Some a => [a] | None => [] end.

(** The due items of a user, in column order. *)
Definition dueTexts (clock : Clock) (daySchedule : list jsval) (headers : jsval)
           (bound : nat) : list string :=
  flat_map (fun col => optionList (dueText clock daySchedule headers col)) (seq 0 bound).

(** The order of [timeSlots.sort]: [a] does not come after [b]. *)
Definition slotLe (a b : TimeSlot) : Prop := slotBefore b a = false.

(** The texts a time slot contributes when it is at the target time. *)
Definition dueCell (daySchedule : list jsval) (slot : TimeSlot) : list string :=
  match cellText daySchedule (col slot) with
  | Ok t => if nonEmpty t then [t] else []
  | _ => []
  end.

(** The due items of a user in one run of the dispatch loop: those of the
    row of the target day when the user reaches the loop over the headers,
    none otherwise (nor for a round the embedding does not cover). *)
Definition dueItems (clock : Clock) (u : User) : list string :=
  match beforeSlots clock u with
  | Ok (Some (daySchedule, headers, bound)) => dueTexts clock daySchedule headers bound
  | _ => []
  end.

(** A value that a template literal can write: its conversion to a string
    does not throw. *)
Definition printable (v : jsval) : bool :=
  match toStr v with
  | Ok _ => true
  | _ => false
  end.

(** The headers of the columns the loop visits can all be written.  A
    header that can not is an object with a [toString] property of its own,
    or an array that holds one: its [trim] fails, and the handler of the
    column, which writes the header into its log line, fails in its turn. *)
Definition printableHeaders (headers : jsval) (bound : nat) : bool :=
  forallb (fun col => match getIndex headers col with
                      | Ok timeString => printable timeString
                      | _ => false
                      end) (seq 0 bound).

(** The round of a user gets as far as the loop that sends: it reaches
    the loop over the headers, and every header can be written. *)
Definition reachesSend (clock : Clock) (u : User) : bool :=
  match beforeSlots clock u with
  | Ok (Some (_, headers, bound)) => printableHeaders headers bound
  | _ => false
  end.

(** On a grid of texts: what the job finds due in column [col] of the row
    [row] under the headers [hs].  The cell at index [col] goes with the
    header at the same index. *)
Definition dueAt (clock : Clock) (hs row : list string) (col : nat) : list string :=
  match nth_error hs col with
  | Some h =>
      match parseTime h with
      | Some (hours, minutes) =>
          if ((hours =? targetHour clock) && (minutes =? targetMinute clock))%bool
          then (if nonEmpty (trim (nth col row EmptyString))
                then [trim (nth col row EmptyString)] else [])
          else []
      | None => []
      end
  | None => []
  end.

(** A row of texts whose first cell, capitalised, is not a name every
    object inherits: the pass that groups the rows by day accepts it. *)
Definition plainRow (row : list string) : bool :=
  negb (inherited (capitalize (nth 0 row EmptyString))).

(** A record with a [day], a [time] and a [task] that are all truthy. *)
Definition completeRecord (row : jsval) : bool :=
  match row with
  | JObj fields =>
      (truthy (lookup "day" fields) && truthy (lookup "time" fields)
       && truthy (lookup "task" fields))%bool
  | _ => false
  end.

(** Claim C3 as the specification words it: at most one call of the sender
    for a user in a run, whatever the number of due items. *)
Definition singleDispatch (send : option string -> string -> bool)
           (clock : Clock) (u : User) : Prop :=
  (List.length (reminders (fst (processUser send clock u))) <= 1)%nat.

(** ** Sample documents *)

Definition alwaysSent : option string -> string -> bool := fun _ _ => true.

Definition mondayAt (h m : Z) : Clock := mkClock Monday Monday h m.

(** A grid in which two headers name the same minute. *)
Definition twoHeadersAtNine : User :=
  mkUser 1 (Some "919000000001") (Some "Asha") true None
    (JObj [("headers", JArr [JStr "9:00 AM"; JStr "9:00"]);
           ("rows", JArr [JArr [JStr "Gym"; JStr "Standup"]])])
    JUndef.

(** A legacy grid whose rows start with the day name, as the
    specification draws format (a). *)
Definition dayNameGrid : User :=
  mkUser 2 (Some "919000000002") (Some "Ravi") true None
    (JObj [("headers", JArr [JStr "9:00 AM"; JStr "10:00 AM"]);
           ("rows", JArr [JArr [JStr "Monday"; JStr "Standup"; JStr "Review"]])])
    JUndef.

(** A schedule in the new format, as [POST /api/schedule] stores it. *)
Definition recordSchedule : User :=
  mkUser 3 (Some "919000000003") (Some "Meera") true None
    (JObj [("headers", JArr [JStr "9:00 AM"]);
           ("rows", JArr [JObj [("day", JStr "Monday"); ("time", JStr "9:00 AM");
                                ("task", JStr "Standup")]])])
    JUndef.

(** A verified user with WhatsApp left at its default and no schedule. *)
Definition noSchedule : User :=
  mkUser 4 (Some "919000000004") (Some "Iqbal") true None JUndef JUndef.

(** A verified user with WhatsApp switched on and the schedule a new
    document starts with: no headers and no rows. *)
Definition emptySchedule : User :=
  mkUser 10 (Some "919000000010") (Some "Tara") true
    (Some (mkSettings (Some true)))
    (JObj [("headers", JArr []); ("rows", JArr [])]) JUndef.

(** A user, not even verified, one of whose rows is [null]. *)
Definition nullRow : User :=
  mkUser 5 (Some "919000000005") None false None
    (JObj [("headers", JArr []); ("rows", JArr [JNull])]) JUndef.

(** A grid without headers: the rows are there, [headers] is absent. *)
Definition noHeaders : User :=
  mkUser 7 (Some "919000000007") None true None
    (JObj [("rows", JArr [JArr [JStr "Gym"; JStr "Standup"]])]) JUndef.

(** Claim C6 as the specification words it: among the stored users, the
    ones the dispatch loop runs over are those verified and with WhatsApp
    not switched off. *)
Definition processedIffVerifiedAndEnabled (allUsers : list User) : Prop :=
  forall users, eligibleUsers (verifiedUsers allUsers) = Ok users ->
  forall u, In u allUsers ->
            (In u users <-> isVerified u = true /\ whatsappEnabled u = true).

(** A legacy grid, valid in every other respect, with a [null] row. *)
Definition nullSecondRow : User :=
  mkUser 8 (Some "919000000008") (Some "Noor") true None
    (JObj [("headers", JArr [JStr "9:00 AM"]);
           ("rows", JArr [JArr [JStr "Gym"]; JNull])])
    JUndef.

(** A grid whose first header is an object with a [toString] property of
    its own, and whose second header is due at nine. *)
Definition unprintableHeader : User :=
  mkUser 11 (Some "919000000011") (Some "Omar") true None
    (JObj [("headers", JArr [JObj [("toString", JNum 1)]; JStr "9:00"]);
           ("rows", JArr [JArr [JStr ""; JStr "b"]])])
    JUndef.

(** A grid with a row for Monday and a row for Tuesday. *)
Definition twoDayGrid : User :=
  mkUser 12 (Some "919000000012") (Some "Devi") true None
    (JObj [("headers", JArr [JStr "9:00 AM"; JStr "10:00 AM"]);
           ("rows", JArr [JArr [JStr "Gym"; JStr "Read"];
                          JArr [JStr "Swim"; JStr ""]])])
    JUndef.

(** ** The duplicate filter of [/api/tasks/list] *)

Module TasksList.

(** An element of [allTasks]. *)
Record ListedTask : Type := mkListed {
  day : string;
  time : string;
  task : string;
  source : string
}.

(** [`${task.day}-${task.time}`.toLowerCase()]. *)
Definition key (t : ListedTask) : string :=
  toLowerCase (day t ++ "-" ++ time t).

(** The [forEach] over [allTasks] with the set [seen]: a task is pushed
    when its key has not been seen. *)
Fixpoint uniqueFrom (seen : list string) (allTasks : list ListedTask)
  : list ListedTask :=
  match allTasks with
  | [] => []
  | t :: rest =>
      if existsb (String.eqb (key t)) seen then uniqueFrom seen rest
      else t :: uniqueFrom (key t :: seen) rest
  end.

(** [uniqueTasks], from [allTasks] as the sort before it left them; the
    sort is stable and compares tasks of equal day and time as equal, so
    such tasks reach the filter in their input order. *)
Definition uniqueTasks (allTasks : list ListedTask) : list ListedTask :=
  uniqueFrom [] allTasks.

(** The first task of a list with key [k]. *)
Definition firstWithKey (k : string) (l : list ListedTask) : option ListedTask :=
  find (fun t => String.eqb (key t) k) l.

(** Claim C5 as the specification words it: of the tasks of one slot the
    filter keeps the last one of the input. *)
Definition lastWriterWins (allTasks : list ListedTask) : Prop :=
  forall k, firstWithKey k (uniqueTasks allTasks) = firstWithKey k (rev allTasks).

Definition standup : ListedTask := mkListed "Monday" "9:00 AM" "Standup" "user_schedule".
Definition review : ListedTask := mkListed "Monday" "9:00 AM" "Review" "user_schedule".

End TasksList.

(** ** The legacy branch of [/api/schedule/tasks] *)

Module ScheduleTasks.

(** The keys of [tasksByDay]. *)
Definition dayOfKey (k : string) : option weekday :=
  if String.eqb k "Monday" then Some Monday
  else if String.eqb k "Tuesday" then Some Tuesday
  else if String.eqb k "Wednesday" then Some Wednesday
  else if String.eqb k "Thursday" then Some Thursday
  else if String.eqb k "Friday" then Some Friday
  else if String.eqb k "Saturday" then Some Saturday
  else if String.eqb k "Sunday" then Some Sunday
  else None.

(** One round of [for (let col = 1; col < row.length; col++)]: the pair
    [(timeSlot, taskText)] pushed, if any. *)
Definition legacyCell (timeSlots : jsval) (row : list jsval) (col : nat)
  : result (option (jsval * string)) :=
  let taskText := nth col row JUndef in
  timeSlot <- getIndex timeSlots (col - 1) ;;
  if truthy taskText then
    s <- asString taskText ;;
    Ok (if (nonEmpty (trim s) && truthy timeSlot)%bool
        then Some (timeSlot, s) else None)
  else Ok None.

(** One round of [scheduleData.rows.forEach]: what it pushes, with the
    day it pushes to.  A first cell that names an inherited property of
    [tasksByDay] passes the test of the day, and [push] then fails. *)
Definition legacyRow (timeSlots : jsval) (row : jsval)
  : result (list (weekday * (jsval * string))) :=
  match row with
  | JArr ((day :: _ :: _) as cells) =>
      if truthy day then
        k <- toStr day ;;
        match dayOfKey k with
        | Some d =>
            pushed <- collect (legacyCell timeSlots cells)
                              (seq 1 (List.length cells - 1)) ;;
            Ok (map (pair d) pushed)
        | None =>
            if inherited k then
              pushed <- collect (legacyCell timeSlots cells)
                                (seq 1 (List.length cells - 1)) ;;
              match pushed with
              | [] => Ok []
              | _ :: _ => Throw TypeError
              end
            else Ok []
        end
      else Ok []
  | _ => Ok []
  end.

(** The legacy branch on [scheduleData]: all pushes in order;
    [tasksByDay[d]] holds those of day [d], before the sort by time text. *)
Definition legacyTasks (scheduleData : jsval)
  : result (list (weekday * (jsval * string))) :=
  headers <- getField scheduleData "headers" ;;
  rows <- getField scheduleData "rows" ;;
  let timeSlots := orElse headers (JArr []) in
  match rows with
  | JArr items =>
      (fix each (l : list jsval) : result (list (weekday * (jsval * string))) :=
         match l with
         | [] => Ok []
         | row :: rest =>
             pushed <- legacyRow timeSlots row ;;
             more <- each rest ;;
             Ok (pushed ++ more)%list
         end) items
  | _ => Throw TypeError
  end.

(** What round [i] of the column loop pairs on a row of texts: the cell
    at index [i] of the row with the header at index [i - 1]. *)
Definition pairedAt (d : weekday) (hs : list string) (row : list string) (i : nat)
  : list (weekday * (jsval * string)) :=
  match nth_error hs (i - 1) with
  | Some h =>
      if (nonEmpty (trim (nth i row EmptyString)) && nonEmpty h)%bool
      then [(d, (JStr h, nth i row EmptyString))] else []
  | None => []
  end.

End ScheduleTasks.

(** Claim C1 as the specification words it, on the sample grid: the items
    found due on Monday at [h]:[m] are exactly the given texts. *)
Definition dueOnMonday (h m : Z) (texts : list string) : Prop :=
  map (fun r => snd (fst r))
      (reminders (fst (reminderJob alwaysSent (mondayAt h m) [dayNameGrid])))
  = texts.

Definition formatAScenario : Prop :=
  dueOnMonday 9 0 ["Standup"] /\ dueOnMonday 10 0 ["Review"] /\ dueOnMonday 11 0 [].

(** A grid with nothing at nine o'clock. *)
Definition eveningGrid : User :=
  mkUser 9 (Some "919000000009") (Some "Lena") true None
    (JObj [("headers", JArr [JStr "5:00 PM"]);
           ("rows", JArr [JArr [JStr "Gym"]])])
    JUndef.

(** A task of that user, not completed, not yet reminded, due within the
    minute that follows a run at 08:59 ([dueDate] in milliseconds). *)
Definition rentTask : Task :=
  mkTask 9 "Pay rent" 1800000030000 false false false.

(* ===================================================================== *)
(** * Part I, continued. Utilities and routes around the reminder job

    The phone number utilities and the normalisations of the routes, the
    schedule [POST /api/schedule] stores, the routes that read a stored
    schedule ([/api/schedule/tasks], [/api/tasks/list],
    [/api/schedule/view]) and [validateAndFixSchedule]. *)
(* ===================================================================== *)

(** ** Phone numbers

    [isValidPhoneNumber], [formatPhoneNumber], and the normalisations that
    [sendWhatsAppReminder] and the routes apply to a phone number given as
    a string. *)

Module Phone.

(** [s.replace(/\D/g, '')]. *)
Fixpoint digitsOnly (s : string) : string :=
  match s with
  | EmptyString => EmptyString
  | String c s' => if isDigit c then String c (digitsOnly s') else digitsOnly s'
  end.

(** [s.replace(/^0+/, '')]. *)
Fixpoint dropLeadingZeros (s : string) : string :=
  match s with
  | String "0" s' => dropLeadingZeros s'
  | _ => s
  end.

(** [s.substring(n)]. *)
Fixpoint substringFrom (n : nat) (s : string) : string :=
  match n, s with
  | S n', String _ s' => substringFrom n' s'
  | _, _ => s
  end.

(** [s.slice(-n)]. *)
Definition sliceLast (n : nat) (s : string) : string :=
  substringFrom (String.length s - n) s.

(** [/^\d{10}$/.test(s)]. *)
Definition tenDigits (s : string) : bool :=
  (Nat.eqb (String.length s) 10 && allChars isDigit s)%bool.

(** [s.replace(/^91/, '')] and [s.replace(/^\+?91/, '')]. *)
Definition strip91 (s : string) : string :=
  match s with
  | String "9" (String "1" r) => r
  | _ => s
  end.
Definition stripPlus91 (s : string) : string :=
  match s with
  | String "+" (String "9" (String "1" r)) => r
  | _ => strip91 s
  end.

(** [/^91\d{10}$/.test(phone.replace(/\D/g, ''))]. *)
Definition isValidPhoneNumber (phone : string) : bool :=
  let digits := digitsOnly phone in
  (prefix "91" digits && tenDigits (substringFrom 2 digits))%bool.

(** The two errors [formatPhoneNumber] can throw. *)
Inductive FormatError : Type :=
| MustBeTenDigits
| MustContainOnlyDigits.

Definition formatPhoneNumber (phone : string) : FormatError + string :=
  let digits := digitsOnly phone in
  let digits :=
    if (prefix "91" digits && Nat.ltb 10 (String.length digits))%bool
    then substringFrom 2 digits else digits in
  if negb (Nat.eqb (String.length digits) 10) then inl MustBeTenDigits
  else if negb (tenDigits digits) then inl MustContainOnlyDigits
  else inr ("+91" ++ digits).

(** [sendWhatsAppReminder]: [cleanPhone] after the country code has been
    added, and [formattedPhone], the destination of the request; [None]
    when the function returns [false] before it builds the request
    because of the phone number. *)
Definition cleanPhone (phone : string) : string :=
  let cleanPhone := dropLeadingZeros (digitsOnly phone) in
  if prefix "91" cleanPhone then cleanPhone else "91" ++ cleanPhone.

Definition formattedPhone (phone : string) : option string :=
  if negb (nonEmpty phone) then None
  else
    let cleanPhone := cleanPhone phone in
    if negb (Nat.eqb (String.length cleanPhone) 12) then None
    else Some cleanPhone.

(** [POST /api/send-whatsapp-otp]: the phone number a new user is stored
    with; [None] is the answer 400. *)
Definition otpFormattedPhone (phone : string) : option string :=
  if negb (nonEmpty phone) then None
  else
    let normalizedPhone := dropLeadingZeros (digitsOnly phone) in
    if Nat.ltb (String.length normalizedPhone) 10 then None
    else Some ("91" ++ sliceLast 10 normalizedPhone).

(** [POST /api/verify-whatsapp-otp]: the phone numbers of the [$or]
    query that looks the user up. *)
Definition verifyNormalizedPhone (phone : string) : string :=
  let normalizedPhone := digitsOnly phone in
  if Nat.eqb (String.length normalizedPhone) 10 then "91" ++ normalizedPhone
  else if prefix "0" normalizedPhone then "91" ++ substringFrom 1 normalizedPhone
  else normalizedPhone.

Definition verifyCandidates (phone : string) : list string :=
  let normalizedPhone := verifyNormalizedPhone phone in
  [normalizedPhone; "+" ++ normalizedPhone; "91" ++ normalizedPhone;
   "+91" ++ normalizedPhone; strip91 normalizedPhone; stripPlus91 normalizedPhone].

(** [POST /api/find-user-by-phone]: the phone number looked up. *)
Definition findUserPhone (phone : string) : string :=
  "91" ++ stripPlus91 phone.

(** [POST /api/schedule] and [GET /api/schedule/clear]: the two checks of
    the phone number, each answered with 400, and the number the route
    goes on with. *)
Inductive PhoneCheck : Type :=
| NotTenDigits
| NotInFormat
| PhoneAccepted (phone : string).

Definition schedulePhone (phone : string) : PhoneCheck :=
  let normalizedPhone := dropLeadingZeros (digitsOnly phone) in
  if negb (Nat.eqb (String.length normalizedPhone) 10) then NotTenDigits
  else
    let phone := "91" ++ normalizedPhone in
    if negb (isValidPhoneNumber phone) then NotInFormat
    else PhoneAccepted phone.

End Phone.

(** ** [POST /api/schedule]: the schedule that is stored

    The route turns the grid of the request into [transformedSchedule]:
    the headers as trimmed strings, and one record with [day], [time] and
    [task] for every cell that is not empty. *)

Module SaveSchedule.

Definition days : list string :=
  ["Monday"; "Tuesday"; "Wednesday"; "Thursday"; "Friday"; "Saturday"; "Sunday"].

(** [String(v || '').trim()]. *)
Definition cleanText (v : jsval) : result string :=
  s <- toStr (orElse v (JStr EmptyString)) ;;
  Ok (trim s).

(** [l.map(f)] and [l.flatMap(f)] where [f] may throw. *)
Fixpoint mapM {A B} (f : A -> result B) (l : list A) : result (list B) :=
  match l with
  | [] => Ok []
  | x :: rest =>
      y <- f x ;;
      more <- mapM f rest ;;
      Ok (y :: more)
  end.

Fixpoint flatMapM {A B} (f : A -> result (list B)) (l : list A) : result (list B) :=
  match l with
  | [] => Ok []
  | x :: rest =>
      ys <- f x ;;
      more <- flatMapM f rest ;;
      Ok (ys ++ more)%list
  end.

(** An element of [transformedSchedule.rows]. *)
Record Entry : Type := mkEntry {
  day : string;
  time : string;
  task : string
}.

Definition entryValue (e : Entry) : jsval :=
  JObj [("day", JStr (day e)); ("time", JStr (time e)); ("task", JStr (task e))].

(** The callback of [row.map]: [time] is
    [transformedSchedule.headers[colIndex] || '']. *)
Definition cellEntry (headers : list string) (day : string) (cell : nat * jsval)
  : result Entry :=
  let (colIndex, task) := cell in
  let time := nth colIndex headers EmptyString in
  task <- cleanText task ;;
  Ok (mkEntry day time task).

(** The callback of [schedule.rows.flatMap]; [row.map] exists on arrays
    only. *)
Definition rowEntries (headers : list string) (entry : nat * jsval)
  : result (list Entry) :=
  let (rowIndex, row) := entry in
  match nth_error days rowIndex with
  | None => Ok []
  | Some day =>
      match row with
      | JArr cells =>
          items <- mapM (cellEntry headers day) (indexed cells) ;;
          Ok (filter (fun item => nonEmpty (task item)) items)
      | _ => Throw TypeError
      end
  end.

Definition transformedHeaders (schedule : jsval) : result (list string) :=
  headers <- getField schedule "headers" ;;
  match headers with
  | JArr items => mapM cleanText items
  | _ => Ok []
  end.

Definition transformedRows (headers : list string) (schedule : jsval)
  : result (list Entry) :=
  rows <- getField schedule "rows" ;;
  match rows with
  | JArr items => flatMapM (rowEntries headers) (indexed items)
  | _ => Ok []
  end.

Definition scheduleValue (headers : list string) (rows : list Entry) : jsval :=
  JObj [("headers", JArr (map JStr headers)); ("rows", JArr (map entryValue rows))].

(** [transformedSchedule] for the [schedule] of the request; [None] is
    the answer 400 to a request without schedule. *)
Definition transformedSchedule (schedule : jsval) : result (option jsval) :=
  if negb (truthy schedule) then Ok None
  else
    headers <- transformedHeaders schedule ;;
    rows <- transformedRows headers schedule ;;
    Ok (Some (scheduleValue headers rows)).

(** A value that is neither an array nor an object. *)
Definition isScalar (v : jsval) : bool :=
  match v with
  | JArr _ | JObj _ => false
  | _ => true
  end.

(** A row of the request that [row.map] accepts and whose cells are
    scalars. *)
Definition isScalarRow (row : jsval) : bool :=
  match row with
  | JArr cells => forallb isScalar cells
  | _ => false
  end.

End SaveSchedule.

(** ** [GET /api/schedule/tasks]: both branches

    The result is what the route pushes to [tasksByDay], in the order of the
    pushes: the day, the time and the task.  The route then sorts the tasks
    of each day by their time text and sends them day by day. *)

Module ListSchedule.

(** One round of the [forEach] of the new-format branch. *)
Definition newFormatRow (row : jsval) : result (option (weekday * (jsval * jsval))) :=
  complete <- isCompleteRow row ;;
  if complete then
    d <- getField row "day" ;;
    s <- asString d ;;
    t <- getField row "time" ;;
    k <- getField row "task" ;;
    let day := capitalize s in
    match ScheduleTasks.dayOfKey day with
    | Some w =>
        _ <- toStr t ;;
        _ <- toStr k ;;
        Ok (Some (w, (t, k)))
    | None => if inherited day then Throw TypeError else Ok None
    end
  else Ok None.

(** [v === 0] for a value read as a length. *)
Definition isZero (v : jsval) : bool :=
  match v with
  | JNum n => n =? 0
  | _ => false
  end.

Definition scheduleTasks (user : User) : result (list (weekday * (jsval * jsval))) :=
  let scheduleData := orElse (weeklySchedule user) (schedule user) in
  if negb (truthy scheduleData) then Ok []
  else
    rows <- getField scheduleData "rows" ;;
    if negb (truthy rows) then Ok []
    else
      len <- getLength rows ;;
      if isZero len then Ok []
      else
        newFormat <- isNewFormat rows ;;
        if newFormat then
          match rows with
          | JArr items => collect newFormatRow items
          | _ => Throw TypeError
          end
        else
          pushed <- ScheduleTasks.legacyTasks scheduleData ;;
          Ok (map (fun p => (fst p, (fst (snd p), JStr (snd (snd p))))) pushed).

End ListSchedule.

(** ** [GET /api/tasks/list]: the tasks read from the schedule *)

Module ListTasks.

(** An element of [scheduleTasks]. *)
Record Found : Type := mkFound {
  day : jsval;
  time : jsval;
  task : jsval;
  id : string;
  source : string
}.

(** [s.replace(/\s+/g, '-')]. *)
Fixpoint dashes (s : string) : string :=
  match s with
  | EmptyString => EmptyString
  | String c s' =>
      if isWhiteSpace c then
        match s' with
        | String c' _ => if isWhiteSpace c' then dashes s' else String "-" (dashes s')
        | EmptyString => String "-" EmptyString
        end
      else String c (dashes s')
  end.

(** [`${day}-${time}`.toLowerCase().replace(/\s+/g, '-')]. *)
Definition idOf (day time : jsval) : result string :=
  d <- toStr day ;;
  t <- toStr time ;;
  Ok (dashes (toLowerCase (d ++ "-" ++ t))).

(** [typeof row === 'object' && row !== null && 'day' in row &&
    'time' in row]. *)
Definition isRecordRow (row : jsval) : bool :=
  match row with
  | JObj fields => (hasKey "day" fields && hasKey "time" fields)%bool
  | _ => false
  end.

(** One round of the [forEach] of the new-format branch. *)
Definition newFormatRow (row : jsval) : result (option Found) :=
  d <- getField row "day" ;;
  if truthy d then
    t <- getField row "time" ;;
    if truthy t then
      k <- getField row "task" ;;
      text <- (if truthy k then Ok k
               else s <- toStr t ;; Ok (JStr ("Scheduled at " ++ s))) ;;
      i <- idOf d t ;;
      Ok (Some (mkFound d t text i "user_schedule"))
    else Ok None
  else Ok None.

Definition days : list string :=
  ["Sunday"; "Monday"; "Tuesday"; "Wednesday"; "Thursday"; "Friday"; "Saturday"].

(** [days[rowIndex % 7]]. *)
Definition dayOfRow (rowIndex : nat) : string :=
  nth (rowIndex mod 7) days EmptyString.

(** One round of [row.forEach] of the legacy branch. *)
Definition legacyCell (headers : jsval) (rowIndex : nat) (cell : nat * jsval)
  : result (option Found) :=
  let (colIndex, task) := cell in
  if (truthy task && truthy headers)%bool then
    time <- getIndex headers colIndex ;;
    if truthy time then
      let day := JStr (dayOfRow rowIndex) in
      inner <- (if typeofObject task then
                  a <- getField task "task" ;;
                  b <- getField task "text" ;;
                  Ok (orElse a b)
                else Ok task) ;;
      text <- (if truthy inner then Ok inner
               else s <- toStr time ;; Ok (JStr ("Scheduled at " ++ s))) ;;
      i <- idOf day time ;;
      Ok (Some (mkFound day time text i "user_schedule_legacy"))
    else Ok None
  else Ok None.

Definition legacyRow (headers : jsval) (entry : nat * jsval) : result (list Found) :=
  let (rowIndex, row) := entry in
  match row with
  | JArr cells => collect (legacyCell headers rowIndex) (indexed cells)
  | _ => Ok []
  end.

(** [scheduleTasks] when the request has been answered from the
    schedule of the user. *)
Definition scheduleTasks (userSchedule : jsval) : result (list Found) :=
  if negb (truthy userSchedule) then Ok []
  else
    rows <- getField userSchedule "rows" ;;
    if negb (truthy rows) then Ok []
    else
      len <- getLength rows ;;
      positive <- greaterThanZero len ;;
      if negb positive then Ok []
      else
        match rows with
        | JArr items =>
            if forallb isRecordRow items then collect newFormatRow items
            else
              headers <- getField userSchedule "headers" ;;
              SaveSchedule.flatMapM (legacyRow headers) (indexed items)
        | _ => Throw TypeError
        end.

(** The day before [d]. *)
Definition dayBefore (d : weekday) : weekday :=
  match d with
  | Sunday => Saturday | Monday => Sunday | Tuesday => Monday
  | Wednesday => Tuesday | Thursday => Wednesday | Friday => Thursday
  | Saturday => Friday
  end.

(** What the legacy branch finds in a cell of text under a header of
    text. *)
Definition foundAt (hs : list string) (rowIndex : nat) (cell : nat * string)
  : list Found :=
  let (colIndex, text) := cell in
  let time := nth colIndex hs EmptyString in
  if (nonEmpty text && nonEmpty time)%bool
  then [mkFound (JStr (dayOfRow rowIndex)) (JStr time) (JStr text)
          (dashes (toLowerCase (dayOfRow rowIndex ++ "-" ++ time)))
          "user_schedule_legacy"]
  else [].

(** A grid of texts as a stored schedule. *)
Definition gridValue (hs : list string) (grid : list (list string)) : jsval :=
  JObj [("headers", JArr (map JStr hs));
        ("rows", JArr (map (fun row => JArr (map JStr row)) grid))].

End ListTasks.

(** ** [GET /api/schedule/view]: the tasks of the page

    The result is what the route pushes to [scheduleByDay], in the order of
    the pushes; the page then shows the tasks of each day sorted by their
    time text. *)

Module ViewSchedule.

(** One round of [rows.forEach]. *)
Definition viewRow (row : jsval) : result (option (weekday * (string * string))) :=
  d <- getField row "day" ;;
  D <- getField row "Day" ;;
  day <- callToString (orElse d (orElse D (JStr EmptyString))) ;;
  t <- getField row "time" ;;
  T <- getField row "Time" ;;
  time <- callToString (orElse t (orElse T (JStr EmptyString))) ;;
  k <- getField row "task" ;;
  K <- getField row "Task" ;;
  x <- getField row "text" ;;
  X <- getField row "Text" ;;
  task <- callToString (orElse k (orElse K (orElse x (orElse X (JStr EmptyString))))) ;;
  let day := trim day in
  let time := trim time in
  let task := trim task in
  if (nonEmpty day && nonEmpty time && nonEmpty task)%bool then
    match ScheduleTasks.dayOfKey (capitalize day) with
    | Some w => Ok (Some (w, (time, task)))
    | None => Ok None
    end
  else Ok None.

Inductive Page : Type :=
| NoScheduleData
| UnsupportedFormat
| Tables (tasks : list (weekday * (string * string))).

Definition scheduleView (user : User) : result Page :=
  let schedule := orElse (weeklySchedule user) (schedule user) in
  if negb (truthy schedule) then Ok NoScheduleData
  else
    match schedule with
    | JArr rows =>
        tasks <- collect viewRow rows ;;
        Ok (Tables tasks)
    | _ =>
        rows <- getField schedule "rows" ;;
        match rows with
        | JArr rows =>
            tasks <- collect viewRow rows ;;
            Ok (Tables tasks)
        | _ => Ok UnsupportedFormat
        end
    end.

End ViewSchedule.

(** ** [validateAndFixSchedule] *)

Module FixSchedule.

(** [object.k = v] on a plain object. *)
Fixpoint setField (k : string) (v : jsval) (fields : list (string * jsval))
  : list (string * jsval) :=
  match fields with
  | [] => [(k, v)]
  | (k', v') :: rest =>
      if String.eqb k k' then (k, v) :: rest else (k', v') :: setField k v rest
  end.

Definition defaultHeaders : list string :=
  ["9:00 AM"; "10:00 AM"; "11:00 AM"; "12:00 PM"; "1:00 PM"; "2:00 PM";
   "3:00 PM"; "4:00 PM"; "5:00 PM"].

(** [!v || !Array.isArray(v) || v.length === 0]. *)
Definition missingOrEmpty (v : jsval) : bool :=
  match v with
  | JArr (_ :: _) => false
  | _ => true
  end.

(** [Array(7).fill().map(() => Array(n).fill(''))]. *)
Definition emptyRows (n : nat) : jsval :=
  JArr (repeat (JArr (repeat (JStr EmptyString) n)) 7).

(** [user.notificationSettings.whatsapp !== true], or no settings. *)
Definition whatsappNotOn (user : User) : bool :=
  match notificationSettings user with
  | Some settings =>
      match whatsapp settings with
      | Some true => false
      | _ => true
      end
  | None => true
  end.

(** The function on a user whose schedule is absent, a primitive or a
    plain object: the boolean it returns and the user as it leaves it;
    [saved] tells whether [user.save()] succeeds.  On a primitive the two
    writes are ignored and the rows are then built from the length of
    headers that are not there.  A schedule that is an array would get
    named properties, which the embedding does not hold: [Beyond]. *)
Definition validateAndFixSchedule (saved : bool) (user : User) : result (bool * User) :=
  if negb (truthy (schedule user)) then Ok (false, user)
  else
    match schedule user with
    | JObj fields =>
        let noHeaders := missingOrEmpty (lookup "headers" fields) in
        let fields :=
          if noHeaders then setField "headers" (JArr (map JStr defaultHeaders)) fields
          else fields in
        let noRows := missingOrEmpty (lookup "rows" fields) in
        fields <- (if noRows then
                     len <- getLength (lookup "headers" fields) ;;
                     width <- loopBound len ;;
                     Ok (setField "rows" (emptyRows width) fields)
                   else Ok fields) ;;
        let needsUpdate := (noHeaders || noRows || whatsappNotOn user)%bool in
        Ok (if needsUpdate then saved else true,
            mkUser (userId user) (phone user) (name user) (isVerified user)
                   (Some (mkSettings (Some true))) (JObj fields) (weeklySchedule user))
    | JArr _ => Beyond
    | _ => Throw TypeError
    end.

(** A schedule with headers and rows that are arrays and not empty. *)
Definition hasGrid (sched : jsval) : bool :=
  match sched with
  | JObj fields =>
      (negb (missingOrEmpty (lookup "headers" fields))
       && negb (missingOrEmpty (lookup "rows" fields)))%bool
  | _ => false
  end.

End FixSchedule.

(** ** Vocabulary of the further statements *)

(** A string that does not start with white space. *)
Definition startsBlack (s : string) : bool :=
  match s with
  | EmptyString => true
  | String c _ => negb (isWhiteSpace c)
  end.

(** What [POST /api/schedule] leaves in an entry of the stored rows: a day
    of the week, a task that is not empty and is trimmed, and as time the
    empty string or one of the stored headers. *)
Definition wellFormedEntry (headers : list string) (e : SaveSchedule.Entry) : Prop :=
  In (SaveSchedule.day e) SaveSchedule.days
  /\ nonEmpty (SaveSchedule.task e) = true
  /\ trim (SaveSchedule.task e) = SaveSchedule.task e
  /\ (SaveSchedule.time e = EmptyString \/ In (SaveSchedule.time e) headers).

(** A user document that holds, unchanged, a schedule [POST /api/schedule]
    computed, and has no [weeklySchedule]. *)
Definition savedByRoute (u : User) : Prop :=
  truthy (weeklySchedule u) = false
  /\ exists request, SaveSchedule.transformedSchedule request = Ok (Some (schedule u)).

(** What [GET /api/schedule/tasks] pushes for an entry of the stored rows. *)
Definition listedEntry (e : SaveSchedule.Entry) : list (weekday * (jsval * jsval)) :=
  match ScheduleTasks.dayOfKey (SaveSchedule.day e) with
  | Some w =>
      if nonEmpty (SaveSchedule.time e)
      then [(w, (JStr (SaveSchedule.time e), JStr (SaveSchedule.task e)))]
      else []
  | None => []
  end.

(** What [GET /api/schedule/view] shows for an entry of the stored rows. *)
Definition viewedEntry (e : SaveSchedule.Entry) : list (weekday * (string * string)) :=
  match ScheduleTasks.dayOfKey (SaveSchedule.day e) with
  | Some w =>
      if nonEmpty (SaveSchedule.time e)
      then [(w, (SaveSchedule.time e, SaveSchedule.task e))]
      else []
  | None => []
  end.

(** The ten digits. *)
Definition digitChars : list ascii :=
  ["0"; "1"; "2"; "3"; "4"; "5"; "6"; "7"; "8"; "9"]%char.

(** The text [extractTime] builds from an hour, the two digits of the
    minutes and a period: [H:MM AM] or [H:MM PM]. *)
Definition formattedTime (h : Z) (a b : ascii) (pm : bool) : string :=
  trim (numToString h ++ ":" ++ String a (String b EmptyString) ++ " "
        ++ (if pm then "PM" else "AM")).

Definition formattedFixed (h : Z) (a b : ascii) (pm : bool) : bool :=
  String.eqb (extractTime (formattedTime h a b pm)) (formattedTime h a b pm).

(** A row of texts whose first cell is not the name of a day (nor a name
    every object inherits): a row of the layout the per-minute job reads,
    in which the cell at index 0 is the task of the first header. *)
Definition startsWithTask (row : list string) : bool :=
  match row with
  | first :: _ =>
      match ScheduleTasks.dayOfKey first with
      | Some _ => false
      | None => negb (inherited first)
      end
  | [] => true
  end.

(** A stored user without [weeklySchedule] whose schedule is absent (or
    falsy) or a grid of texts: headers that are strings, rows that are
    arrays of strings. *)
Definition gridUser (u : User) : Prop :=
  truthy (weeklySchedule u) = false
  /\ (truthy (schedule u) = false
      \/ exists hs grid, schedule u = ListTasks.gridValue hs grid).

(** The calls of the sender for the due items of a list of users, in
    order. *)
Definition dueCalls (send : option string -> string -> bool) (clock : Clock)
           (users : list User) : list (option string * string * bool) :=
  flat_map (fun u => map (fun t => (phone u, t, send (phone u) t)) (dueItems clock u))
           users.

(* ===================================================================== *)
(** * Part II. Properties                                                 *)
(* ===================================================================== *)

Example parse_9am : parseTime "9:00 AM" = Some (9, 0).
Proof. reflexivity. Qed.
Example parse_12am : parseTime "12:30am" = Some (0, 30).
Proof. reflexivity. Qed.
Example parse_1pm : parseTime " 1:05 p " = Some (13, 5).
Proof. reflexivity. Qed.
Example parse_24 : parseTime "24:00" = None.
Proof. reflexivity. Qed.
Example fmt_13 : extractTime "13:05" = "1:05 PM".
Proof. reflexivity. Qed.
Example fmt_0 : extractTime "0:07" = "12:07 AM".
Proof. reflexivity. Qed.
Example fmt_am : extractTime "09:30 am" = "9:30 AM".
Proof. reflexivity. Qed.

(** ** Facts about the string primitives *)

Lemma digit_classes c :
  isDigit c = true ->
  isWhiteSpace c = false /\ isTimeChar c = true /\ isAP c = false
  /\ Ascii.eqb c ":" = false /\ Ascii.eqb c "-" = false /\ Ascii.eqb c "+" = false.
Proof.
  destruct c as [[] [] [] [] [] [] [] []]; cbn; intros H;
    try discriminate H; repeat split; reflexivity.
Qed.

Lemma isAP_cases c :
  isAP c = true -> c = "A"%char \/ c = "a"%char \/ c = "P"%char \/ c = "p"%char.
Proof.
  destruct c as [[] [] [] [] [] [] [] []]; cbn; intros H;
    try discriminate H; auto.
Qed.

Lemma isM_cases c : isM c = true -> c = "M"%char \/ c = "m"%char.
Proof.
  destruct c as [[] [] [] [] [] [] [] []]; cbn; intros H;
    try discriminate H; auto.
Qed.

Lemma allChars_app p a b :
  allChars p (a ++ b) = (allChars p a && allChars p b)%bool.
Proof.
  induction a as [|c a IH]; simpl; [reflexivity|].
  rewrite IH. now rewrite andb_assoc.
Qed.

Lemma allChars_impl (p q : ascii -> bool) s :
  (forall c, p c = true -> q c = true) -> allChars p s = true -> allChars q s = true.
Proof.
  intros Hpq. induction s as [|c s IH]; simpl; [reflexivity|].
  intros H. apply andb_true_iff in H as [Hc Hs].
  now rewrite (Hpq _ Hc), IH.
Qed.

Lemma trimStart_white ws s :
  allChars isWhiteSpace ws = true -> trimStart (ws ++ s) = trimStart s.
Proof.
  induction ws as [|c ws IH]; simpl; [reflexivity|].
  intros H. apply andb_true_iff in H as [Hc Hs]. now rewrite Hc, IH.
Qed.

Lemma trimEnd_app a b :
  trimEnd b <> EmptyString -> trimEnd (a ++ b) = a ++ trimEnd b.
Proof.
  intros Hb. induction a as [|c a IH]; simpl; [reflexivity|].
  rewrite IH. destruct (a ++ trimEnd b) eqn:E; [|reflexivity].
  destruct a; simpl in E; [contradiction|discriminate].
Qed.

Lemma trimEnd_black s :
  allChars (fun c => negb (isWhiteSpace c)) s = true -> trimEnd s = s.
Proof.
  induction s as [|c s IH]; simpl; [reflexivity|].
  intros H. apply andb_true_iff in H as [Hc Hs]. rewrite (IH Hs).
  destruct s; [|reflexivity].
  apply negb_true_iff in Hc. now rewrite Hc.
Qed.

Lemma span_app p a b :
  allChars p a = true ->
  match b with String c _ => p c = false | EmptyString => True end ->
  span p (a ++ b) = (a, b).
Proof.
  intros Ha Hb. induction a as [|c a IH]; simpl.
  - destruct b as [|c b]; [reflexivity|]. simpl. now rewrite Hb.
  - simpl in Ha. apply andb_true_iff in Ha as [Hc Ha].
    now rewrite Hc, (IH Ha).
Qed.

Lemma split_plain sep s :
  allChars (fun c => negb (Ascii.eqb c sep)) s = true -> split sep s = [s].
Proof.
  induction s as [|c s IH]; simpl; [reflexivity|].
  intros H. apply andb_true_iff in H as [Hc Hs].
  apply negb_true_iff in Hc. now rewrite Hc, (IH Hs).
Qed.

Lemma split_app sep a b :
  allChars (fun c => negb (Ascii.eqb c sep)) a = true ->
  split sep (a ++ String sep b) = a :: split sep b.
Proof.
  induction a as [|c a IH]; simpl.
  - now rewrite Ascii.eqb_refl.
  - intros H. apply andb_true_iff in H as [Hc Hs].
    apply negb_true_iff in Hc. now rewrite Hc, (IH Hs).
Qed.

Lemma digitsFrom_digits acc s :
  allChars isDigit s = true ->
  digitsFrom (Some acc) s = Some (decimalAcc acc s).
Proof.
  revert acc. induction s as [|c s IH]; simpl; intros acc H; [reflexivity|].
  apply andb_true_iff in H as [Hc Hs]. now rewrite Hc, (IH _ Hs).
Qed.

Lemma parseInt_digits s :
  s <> EmptyString -> allChars isDigit s = true ->
  parseInt s = Some (decimalValue s).
Proof.
  intros Hne H. destruct s as [|c s]; [contradiction|].
  simpl in H. apply andb_true_iff in H as [Hc Hs].
  destruct (digit_classes c Hc) as (Hw & _ & _ & _ & Hm & Hp).
  unfold parseInt. simpl trimStart. rewrite Hw.
  assert (E : digitsFrom None (String c s) = Some (decimalValue (String c s))).
  { simpl. rewrite Hc. unfold decimalValue. simpl. now apply digitsFrom_digits. }
  destruct c as [[] [] [] [] [] [] [] []]; try exact E; discriminate.
Qed.

(** ** The time-string parser *)

Lemma timeText_chars hs mm :
  digitText hs mm ->
  allChars isTimeChar (timeText hs mm) = true /\
  allChars (fun c => negb (isWhiteSpace c)) (timeText hs mm) = true /\
  exists c r, timeText hs mm = String c r /\ isDigit c = true.
Proof.
  intros (Hne & Hh & Hm).
  assert (Dt : forall s, allChars isDigit s = true -> allChars isTimeChar s = true).
  { intros s. apply allChars_impl. intros c Hc. apply (digit_classes c Hc). }
  assert (Db : forall s, allChars isDigit s = true ->
                         allChars (fun c => negb (isWhiteSpace c)) s = true).
  { intros s. apply allChars_impl. intros c Hc.
    destruct (digit_classes c Hc) as (Hw & _). now rewrite Hw. }
  unfold timeText. repeat split.
  - rewrite allChars_app, (Dt _ Hh). destruct mm as [ms|]; [|reflexivity].
    simpl. now apply Dt.
  - rewrite allChars_app, (Db _ Hh). destruct mm as [ms|]; [|reflexivity].
    simpl. now apply Db.
  - destruct hs as [|c hs]; [contradiction|]. exists c. eexists. split; [reflexivity|].
    simpl in Hh. now apply andb_true_iff in Hh as [Hc _].
Qed.

Lemma timeText_split hs mm :
  digitText hs mm ->
  split ":" (timeText hs mm) = hs :: match mm with Some ms => [ms] | None => [] end.
Proof.
  intros (Hne & Hh & Hm).
  assert (Dc : forall s, allChars isDigit s = true ->
                         allChars (fun c => negb (Ascii.eqb c ":")) s = true).
  { intros s. apply allChars_impl. intros c Hc.
    destruct (digit_classes c Hc) as (_ & _ & _ & Hcol & _). now rewrite Hcol. }
  unfold timeText. destruct mm as [ms|].
  - simpl append. rewrite split_app by now apply Dc. now rewrite split_plain by now apply Dc.
  - assert (E : hs ++ EmptyString = hs) by (clear; induction hs; simpl; congruence).
    rewrite E. now apply split_plain, Dc.
Qed.

Lemma append_empty s : s ++ EmptyString = s.
Proof. induction s; simpl; congruence. Qed.

Lemma span_all p s : allChars p s = true -> span p s = (s, EmptyString).
Proof.
  intros H. rewrite <- (append_empty s) at 1. now apply span_app.
Qed.

Lemma periodMatch_first s g : matchPeriodAt s = Some g -> periodMatch s = Some g.
Proof. intros H. destruct s; cbn [periodMatch]; now rewrite H. Qed.

Lemma periodMatch_none s : allChars isTimeChar s = true -> periodMatch s = None.
Proof.
  induction s as [|c s IH]; intros H; [reflexivity|].
  assert (E : matchPeriodAt (String c s) = None).
  { unfold matchPeriodAt. now rewrite (span_all _ _ H). }
  simpl in H. apply andb_true_iff in H as [_ Hs].
  cbn [periodMatch]. rewrite E. now apply IH.
Qed.

Lemma suffix_shape suf :
  isPeriodSuffix suf = true ->
  exists c r, suf = String c r /\ isAP c = true /\
    (r = EmptyString \/ r = "M" \/ r = "m") /\
    normalizePeriod suf = (if isPMSuffix suf then "PM" else "AM").
Proof.
  destruct suf as [|c [|m [|x r]]]; simpl; try discriminate.
  - intros H. exists c, EmptyString. repeat split; auto.
    destruct (isAP_cases c H) as [-> | [-> | [-> | ->]]]; reflexivity.
  - intros H. apply andb_true_iff in H as [Hc Hm].
    exists c, (String m EmptyString). repeat split; auto.
    + destruct (isM_cases m Hm) as [-> | ->]; auto.
    + destruct (isAP_cases c Hc) as [-> | [-> | [-> | ->]]];
        destruct (isM_cases m Hm) as [-> | ->]; reflexivity.
Qed.

Lemma periodMatch_suffix hs mm ws suf :
  digitText hs mm -> allChars isWhiteSpace ws = true -> isPeriodSuffix suf = true ->
  periodMatch (timeText hs mm ++ ws ++ suf) = Some (timeText hs mm, suf).
Proof.
  intros Hd Hws Hsuf.
  destruct (timeText_chars hs mm Hd) as (Ht & _ & c & r & E & Hc).
  destruct (suffix_shape suf Hsuf) as (a & m & -> & Ha & Hm & _).
  apply periodMatch_first. unfold matchPeriodAt.
  rewrite span_app; [| exact Ht |].
  - rewrite E. rewrite trimStart_white by exact Hws.
    cbn [trimStart].
    assert (Hw : isWhiteSpace a = false).
    { destruct (isAP_cases a Ha) as [-> | [-> | [-> | ->]]]; reflexivity. }
    rewrite Hw, Ha.
    destruct Hm as [-> | [-> | ->]]; reflexivity.
  - destruct ws as [|w ws]; simpl.
    + destruct (isAP_cases a Ha) as [-> | [-> | [-> | ->]]]; reflexivity.
    + simpl in Hws. apply andb_true_iff in Hws as [Hw _].
      destruct w as [[] [] [] [] [] [] [] []]; try discriminate Hw; reflexivity.
Qed.

Lemma trim_timeText hs mm : digitText hs mm -> trim (timeText hs mm) = timeText hs mm.
Proof.
  intros Hd. destruct (timeText_chars hs mm Hd) as (_ & Hb & c & r & E & Hc).
  unfold trim. rewrite E at 1. cbn [trimStart].
  destruct (digit_classes c Hc) as (Hw & _). rewrite Hw, <- E.
  now apply trimEnd_black.
Qed.

Lemma trim_suffixed hs mm ws suf :
  digitText hs mm -> allChars isWhiteSpace ws = true -> isPeriodSuffix suf = true ->
  trim (timeText hs mm ++ ws ++ suf) = timeText hs mm ++ ws ++ suf.
Proof.
  intros Hd Hws Hsuf.
  destruct (timeText_chars hs mm Hd) as (_ & _ & c & r & E & Hc).
  destruct (suffix_shape suf Hsuf) as (a & m & -> & Ha & Hm & _).
  unfold trim. rewrite E at 1. cbn [append trimStart].
  destruct (digit_classes c Hc) as (Hw & _). rewrite Hw.
  change (String c (r ++ ws ++ String a m)) with (String c r ++ ws ++ String a m).
  rewrite <- E.
  assert (Hs : trimEnd (String a m) = String a m).
  { destruct (isAP_cases a Ha) as [-> | [-> | [-> | ->]]];
      destruct Hm as [-> | [-> | ->]]; reflexivity. }
  assert (A : forall x y z : string, x ++ y ++ z = (x ++ y) ++ z).
  { intros x y z. induction x; simpl; congruence. }
  rewrite A, trimEnd_app; rewrite Hs; [reflexivity | discriminate].
Qed.

Lemma minutes_of_parts mm :
  match mm with Some ms => allChars isDigit ms = true | None => True end ->
  parseInt (match (match mm with Some ms => [ms] | None => [] end) with
            | m :: _ => if nonEmpty m then m else "0"
            | [] => "0"
            end) = Some (minuteValue mm).
Proof.
  destruct mm as [[|c ms]|]; intros H; try reflexivity.
  cbn [nonEmpty minuteValue]. now apply parseInt_digits.
Qed.

Lemma to24_convert suf h :
  isPeriodSuffix suf = true ->
  to24 (normalizePeriod suf) (Some h) = Some (convert12 (isPMSuffix suf) h).
Proof.
  intros Hsuf. destruct (suffix_shape suf Hsuf) as (_ & _ & _ & _ & _ & ->).
  unfold to24, convert12. destruct (isPMSuffix suf); cbn.
  - destruct (h <? 12); reflexivity.
  - destruct (h =? 12); reflexivity.
Qed.

Lemma rawTime_suffixed hs mm ws suf :
  digitText hs mm -> allChars isWhiteSpace ws = true -> isPeriodSuffix suf = true ->
  rawTime (timeText hs mm ++ ws ++ suf)
  = (Some (convert12 (isPMSuffix suf) (decimalValue hs)), Some (minuteValue mm)).
Proof.
  intros Hd Hws Hsuf. unfold rawTime, rawTimeOfPart.
  rewrite (trim_suffixed _ _ _ _ Hd Hws Hsuf), (periodMatch_suffix _ _ _ _ Hd Hws Hsuf).
  rewrite (trim_timeText _ _ Hd), (timeText_split _ _ Hd).
  destruct Hd as (Hne & Hh & Hm).
  cbn [hd tl]. rewrite (parseInt_digits hs Hne Hh), (minutes_of_parts mm Hm).
  now rewrite to24_convert.
Qed.

Lemma rawTime_plain hs mm :
  digitText hs mm ->
  rawTime (timeText hs mm) = (Some (decimalValue hs), Some (minuteValue mm)).
Proof.
  intros Hd. unfold rawTime, rawTimeOfPart.
  rewrite (trim_timeText _ _ Hd).
  destruct (timeText_chars hs mm Hd) as (Ht & _).
  rewrite (periodMatch_none _ Ht), (timeText_split _ _ Hd).
  destruct Hd as (Hne & Hh & Hm).
  cbn [hd tl]. now rewrite (parseInt_digits hs Hne Hh), (minutes_of_parts mm Hm).
Qed.

Lemma validTime_range t h m :
  validTime t = Some (h, m) <-> t = (Some h, Some m) /\ 0 <= h <= 23 /\ 0 <= m <= 59.
Proof.
  unfold validTime. destruct t as [[h'|] [m'|]]; try (split; [discriminate | intros [E _]; discriminate]).
  destruct (h' <? 0) eqn:E1, (23 <? h') eqn:E2, (m' <? 0) eqn:E3, (59 <? m') eqn:E4;
    cbn; (split; [intros H | intros (H & Hh & Hm)]); try discriminate;
    try (injection H as <- <-);
    rewrite ?Z.ltb_lt, ?Z.ltb_ge in *; try lia; try (repeat split; (reflexivity || lia)).
Qed.

Lemma decimalAcc_nonneg acc s :
  0 <= acc -> allChars isDigit s = true -> 0 <= decimalAcc acc s.
Proof.
  revert acc. induction s as [|c s IH]; cbn [decimalAcc allChars];
    intros acc Hacc H; [exact Hacc|].
  apply andb_true_iff in H as [Hc Hs]. apply IH; [|exact Hs].
  assert (0 <= digitValue c).
  { destruct c as [[] [] [] [] [] [] [] []]; try discriminate Hc; cbv; discriminate. }
  lia.
Qed.

Lemma validTime_nonneg h m :
  0 <= h -> 0 <= m ->
  validTime (Some h, Some m) = if ((h <=? 23) && (m <=? 59))%bool then Some (h, m) else None.
Proof.
  intros Hh Hm. unfold validTime.
  destruct (h <? 0) eqn:E1; [apply Z.ltb_lt in E1; lia|].
  destruct (m <? 0) eqn:E3; [apply Z.ltb_lt in E3; lia|].
  rewrite (Z.ltb_antisym h 23), (Z.ltb_antisym m 59).
  destruct (h <=? 23), (m <=? 59); reflexivity.
Qed.

Lemma convert12_nonneg pm h : 0 <= h -> 0 <= convert12 pm h.
Proof.
  unfold convert12. destruct pm; [destruct (h <? 12) | destruct (h =? 12)]; lia.
Qed.

Lemma minuteValue_nonneg mm :
  match mm with Some ms => allChars isDigit ms = true | None => True end ->
  0 <= minuteValue mm.
Proof.
  destruct mm as [ms|]; simpl; [|lia]. now apply decimalAcc_nonneg.
Qed.

(** C4. Time-string parsing.  A header made of an hour in digits, an
    optional [:MM], optional white space and a period suffix (AM, PM, A or P
    in any case) parses to the hour converted from 12-hour to 24-hour form
    (12 AM is 0, 12 PM is 12, PM with an hour below 12 adds 12) and the
    minute (0 when absent); without a suffix the hour is taken as it stands;
    in both cases the header yields a time only when the hour is at most 23
    and the minute at most 59.  For every input whatsoever, a raw hour above
    23 or a raw minute above 59 makes the parse fail, and a successful parse
    lies in 0..23 and 0..59; a header whose parse fails yields no time slot
    and no due item: the entry is dropped, not matched. *)
Theorem C4_time_string_parsing :
  (forall hs mm ws suf,
      digitText hs mm -> allChars isWhiteSpace ws = true -> isPeriodSuffix suf = true ->
      let h := convert12 (isPMSuffix suf) (decimalValue hs) in
      let m := minuteValue mm in
      parseTime (timeText hs mm ++ ws ++ suf)
      = if ((h <=? 23) && (m <=? 59))%bool then Some (h, m) else None)
  /\ (forall hs mm,
         digitText hs mm ->
         let h := decimalValue hs in
         let m := minuteValue mm in
         parseTime (timeText hs mm)
         = if ((h <=? 23) && (m <=? 59))%bool then Some (h, m) else None)
  /\ (convert12 false 12 = 0 /\ convert12 true 12 = 12 /\
      (forall h, h < 12 -> convert12 true h = h + 12) /\
      (forall h, 12 <= h -> convert12 true h = h) /\
      (forall h, h <> 12 -> convert12 false h = h))
  /\ (forall s h m, rawTime s = (Some h, Some m) -> 23 < h \/ 59 < m -> parseTime s = None)
  /\ (forall s h m, parseTime s = Some (h, m) -> 0 <= h <= 23 /\ 0 <= m <= 59)
  /\ (forall clock daySchedule hs col s,
         nth col hs JUndef = JStr s -> parseTime s = None ->
         slotSpec daySchedule (JArr hs) col = None /\
         dueText clock daySchedule (JArr hs) col = None).
Proof.
  split; [|split; [|split; [|split; [|split]]]].
  - intros hs mm ws suf Hd Hws Hsuf h m. unfold parseTime.
    rewrite (rawTime_suffixed _ _ _ _ Hd Hws Hsuf).
    destruct Hd as (Hne & Hh & Hm).
    apply validTime_nonneg.
    + apply convert12_nonneg. now apply decimalAcc_nonneg.
    + now apply minuteValue_nonneg.
  - intros hs mm Hd h m. unfold parseTime.
    rewrite (rawTime_plain _ _ Hd).
    destruct Hd as (Hne & Hh & Hm).
    apply validTime_nonneg.
    + now apply decimalAcc_nonneg.
    + now apply minuteValue_nonneg.
  - repeat split; try reflexivity; intros h Hh; unfold convert12.
    + destruct (Z.ltb_spec h 12); lia.
    + destruct (Z.ltb_spec h 12); lia.
    + destruct (Z.eqb_spec h 12); lia.
  - intros s h m E Hout. unfold parseTime. rewrite E.
    destruct (validTime (Some h, Some m)) as [[h' m']|] eqn:V; [|reflexivity].
    apply validTime_range in V as (V & Hh & Hm). injection V as -> ->. lia.
  - intros s h m E. unfold parseTime in E.
    apply validTime_range in E as (_ & Hh & Hm). split; assumption.
  - intros clock daySchedule hs col s E N. unfold slotSpec, dueText.
    cbn [getIndex]. rewrite E, N. split; reflexivity.
Qed.

Lemma C4_time_string_parsing_witness :
  parseTime "12:30 AM" = Some (0, 30) /\ parseTime "12PM" = Some (12, 0) /\
  parseTime "7:05 p" = Some (19, 5) /\ parseTime "17:45" = Some (17, 45) /\
  parseTime "24:00" = None /\ parseTime "9:60 AM" = None.
Proof.
  destruct C4_time_string_parsing as (Hsuf & Hplain & _ & Hout & _ & _).
  assert (D : forall hs mm, hs <> EmptyString -> allChars isDigit hs = true ->
              match mm with Some ms => allChars isDigit ms = true | None => True end ->
              digitText hs mm) by (intros; split; [|split]; assumption).
  split; [|split; [|split; [|split; [|split]]]].
  - apply (Hsuf "12" (Some "30") " " "AM");
      [apply D; [discriminate | reflexivity | reflexivity] | reflexivity | reflexivity].
  - apply (Hsuf "12" None "" "PM");
      [apply D; [discriminate | reflexivity | exact I] | reflexivity | reflexivity].
  - apply (Hsuf "7" (Some "05") " " "p");
      [apply D; [discriminate | reflexivity | reflexivity] | reflexivity | reflexivity].
  - apply (Hplain "17" (Some "45")); apply D; [discriminate | reflexivity | reflexivity].
  - apply (Hout "24:00" 24 0); [reflexivity | lia].
  - apply (Hout "9:60 AM" 9 60); [reflexivity | lia].
Defined.

(** ** Formatting and parsing a time of day *)

Lemma zrange_complete (P : Z -> bool) n :
  forallb P (zrange n) = true -> forall z, 0 <= z < Z.of_nat n -> P z = true.
Proof.
  intros H z Hz. rewrite forallb_forall in H. apply H.
  unfold zrange. rewrite <- (Z2Nat.id z) by lia.
  apply in_map, in_seq. lia.
Qed.

Lemma sameTime_eq a b : sameTime a b = true -> a = b.
Proof.
  destruct a as [[h m]|], b as [[h' m']|]; simpl; try discriminate; [|reflexivity].
  intros H. apply andb_true_iff in H as [Hh Hm].
  apply Z.eqb_eq in Hh, Hm. congruence.
Qed.

Lemma roundTrip_all_day :
  forallb (fun h => forallb (roundTripAt h) (zrange 60)) (zrange 24) = true.
Proof. vm_compute. reflexivity. Qed.

(** C7. Parse/format round trip.  For every hour in 0..23 and minute in
    0..59, [extractTime] turns the 24-hour text of the pair (written [H:MM]
    or [HH:MM]) into the 12-hour text [H:MM AM/PM], and the job's parser
    reads that text back as the same hour and minute; a suffix-free [HH:MM]
    (or [H:MM]) text is read with its hour unchanged, as a 24-hour hour. *)
Theorem C7_format_parse_round_trip (h m : Z) :
  0 <= h <= 23 -> 0 <= m <= 59 ->
  extractTime (hmString h m) = twelveHourText h m
  /\ extractTime (hhmmString h m) = twelveHourText h m
  /\ parseTime (extractTime (hmString h m)) = Some (h, m)
  /\ parseTime (extractTime (hhmmString h m)) = Some (h, m)
  /\ parseTime (hhmmString h m) = Some (h, m)
  /\ parseTime (hmString h m) = Some (h, m).
Proof.
  intros Hh Hm.
  pose proof (zrange_complete _ _ roundTrip_all_day h ltac:(simpl; lia)) as Hrow.
  pose proof (zrange_complete _ _ Hrow m ltac:(simpl; lia)) as Hcell.
  unfold roundTripAt in Hcell.
  apply andb_true_iff in Hcell as [Hcell H5].
  apply andb_true_iff in Hcell as [Hcell H4].
  apply andb_true_iff in Hcell as [Hcell H3].
  apply andb_true_iff in Hcell as [H1 H2].
  apply String.eqb_eq in H1, H2. apply sameTime_eq in H3, H4, H5.
  rewrite H1, H2. repeat split; assumption.
Qed.

Lemma C7_format_parse_round_trip_witness :
  extractTime (hmString 13 5) = twelveHourText 13 5
  /\ extractTime (hhmmString 13 5) = twelveHourText 13 5
  /\ parseTime (extractTime (hmString 13 5)) = Some (13, 5)
  /\ parseTime (extractTime (hhmmString 13 5)) = Some (13, 5)
  /\ parseTime (hhmmString 13 5) = Some (13, 5)
  /\ parseTime (hmString 13 5) = Some (13, 5).
Proof. apply (C7_format_parse_round_trip 13 5); lia. Defined.

(** ** The job monad and the dispatch loop *)

Lemma andThen_lift_Ok {A B} (a : A) (k : A -> job B) : andThen (lift (Ok a)) k = k a.
Proof. unfold andThen, lift. now destruct (k a). Qed.

Lemma andThen_Ok {A B} tr (a : A) (k : A -> job B) :
  andThen (tr, Ok a) k = ((tr ++ fst (k a))%list, snd (k a)).
Proof. unfold andThen. now destruct (k a). Qed.

Section JobFacts.

Variable send : option string -> string -> bool.
Variable clock : Clock.

Lemma processUser_catches u e : snd (processUser send clock u) <> Throw e.
Proof.
  unfold processUser, tryCatch.
  destruct (userBody send clock u) as [tr [a | e' | ]]; simpl; discriminate.
Qed.

Lemma processUser_cases u :
  (exists tr, processUser send clock u = (tr, Ok tt)) \/
  (exists tr, processUser send clock u = (tr, Beyond)).
Proof.
  destruct (processUser send clock u) as [tr [[] | e | ]] eqn:E.
  - left. now exists tr.
  - exfalso. apply (processUser_catches u e). now rewrite E.
  - right. now exists tr.
Qed.

Lemma dispatchLoop_cons u us tr :
  processUser send clock u = (tr, Ok tt) ->
  dispatchLoop send clock (u :: us)
  = ((tr ++ fst (dispatchLoop send clock us))%list, snd (dispatchLoop send clock us)).
Proof.
  intros E. unfold dispatchLoop. cbn [forOf]. unfold andThen. rewrite E.
  now destruct (forOf (processUser send clock) us).
Qed.

Lemma dispatchLoop_never_throws us e : snd (dispatchLoop send clock us) <> Throw e.
Proof.
  induction us as [|u us IH]; [discriminate|].
  destruct (processUser_cases u) as [[tr E] | [tr E]].
  - rewrite (dispatchLoop_cons _ _ _ E). exact IH.
  - unfold dispatchLoop. cbn [forOf]. unfold andThen. rewrite E. discriminate.
Qed.

(** When no user leaves the embedding, the trace of the loop is the
    traces of its users one after the other. *)
Lemma dispatchLoop_trace us :
  (forall u, In u us -> snd (processUser send clock u) = Ok tt) ->
  dispatchLoop send clock us
  = (flat_map (fun u => fst (processUser send clock u)) us, Ok tt).
Proof.
  induction us as [|u us IH]; intros H; [reflexivity|].
  assert (E : processUser send clock u = (fst (processUser send clock u), Ok tt)).
  { rewrite <- (H u (or_introl eq_refl)). now destruct (processUser send clock u). }
  rewrite (dispatchLoop_cons _ _ _ E), IH by (intros v Hv; apply H; now right).
  reflexivity.
Qed.

End JobFacts.

(** ** Conversions to string never need a number *)

Lemma toStr_defined : forall v, toStr v <> Beyond.
Proof.
  fix IH 1. intros v. destruct v as [ | | b | n | s | items | fields]; cbn [toStr];
    try discriminate.
  - induction items as [|x rest IHrest]; [discriminate|].
    assert (Hx : (match x with JUndef | JNull => Ok EmptyString | _ => toStr x end) <> Beyond).
    { pose proof (IH x) as Hx. destruct x; try discriminate; exact Hx. }
    destruct (match x with JUndef | JNull => Ok EmptyString | _ => toStr x end)
      as [sx | e | ]; [| discriminate | contradiction].
    cbn [bind]. destruct rest as [|y rest']; [discriminate|].
    match goal with |- bind ?j _ <> _ => destruct j as [sr | e | ] end;
      cbn [bind]; [discriminate | discriminate | exact IHrest].
  - destruct (hasKey "toString" fields); discriminate.
Qed.

Lemma cellText_defined daySchedule col : cellText daySchedule col <> Beyond.
Proof.
  unfold cellText, callToString.
  pose proof (toStr_defined (orElse (nth col daySchedule JUndef) (JStr EmptyString))) as H.
  destruct (orElse (nth col daySchedule JUndef) (JStr EmptyString));
    try discriminate;
    match goal with
    | |- bind ?c _ <> _ => destruct c as [s | e | ]; cbn [bind];
                           [discriminate | discriminate | contradiction]
    end.
Qed.

(** ** The loop over the headers *)

Lemma getIndex_defined headers col : getIndex headers col <> Beyond.
Proof. destruct headers; discriminate. Qed.

(** For a header that can be written, the body of the loop builds the slot
    of the column, or logs the error of the column and goes on. *)
Lemma slotOf_spec to daySchedule headers col ts :
  getIndex headers col = Ok ts -> printable ts = true ->
  exists tr, slotOf to daySchedule col ts = (tr, Ok (slotSpec daySchedule headers col))
             /\ reminders tr = [].
Proof.
  intros E P. unfold slotOf, slotSpec. rewrite E. unfold printable in P.
  destruct ts as [ | | b | n | s | items | fields]; cbn [truthy negb].
  - exists []. split; reflexivity.
  - exists []. split; reflexivity.
  - destruct b; cbn [negb]; eexists; split; reflexivity.
  - destruct (n =? 0); cbn [negb]; eexists; split; reflexivity.
  - destruct s as [|c s]; cbn [nonEmpty negb]; [exists []; split; reflexivity|].
    unfold parseTime, rawTime, callTrim, asString. cbn [bind lift].
    destruct (validTime (rawTimeOfPart (trim (String c s)))) as [[h m]|].
    + pose proof (cellText_defined daySchedule col) as D.
      destruct (cellText daySchedule col) as [t | e | ]; cbn [bind tryCatch];
        [ | | contradiction]; eexists; split; reflexivity.
    + eexists; split; reflexivity.
  - destruct (toStr (JArr items)) as [s | e | ]; try discriminate P.
    eexists; split; reflexivity.
  - destruct (toStr (JObj fields)) as [s | e | ]; try discriminate P.
    eexists; split; reflexivity.
Qed.

(** For a header that can not be written, the handler of the loop throws
    in its turn. *)
Lemma slotOf_throws to daySchedule col ts :
  printable ts = false -> exists e, slotOf to daySchedule col ts = ([], Throw e).
Proof.
  unfold printable, slotOf. intros P. pose proof (toStr_defined ts) as D.
  destruct ts as [ | | b | n | s | items | fields]; try discriminate P.
  - destruct (toStr (JArr items)) as [s | e | ]; try discriminate P; [|contradiction].
    exists e. reflexivity.
  - destruct (toStr (JObj fields)) as [s | e | ]; try discriminate P; [|contradiction].
    exists e. reflexivity.
Qed.

Lemma reminders_app tr1 tr2 : reminders (tr1 ++ tr2)%list = (reminders tr1 ++ reminders tr2)%list.
Proof.
  induction tr1 as [|ev tr1 IH]; [reflexivity|].
  destruct ev; cbn [reminders app]; rewrite IH; reflexivity.
Qed.

Lemma collectSlots_spec to daySchedule headers cols :
  forallb (fun col => match getIndex headers col with
                      | Ok ts => printable ts
                      | _ => false
                      end) cols = true ->
  exists tr,
    collectSlots to daySchedule headers cols
    = (tr, Ok (flat_map (fun col => optionList (slotSpec daySchedule headers col)) cols))
    /\ reminders tr = [].
Proof.
  induction cols as [|col cols IH]; intros P.
  - exists []. split; reflexivity.
  - cbn [forallb] in P. apply andb_true_iff in P as [Pc Pr].
    destruct (IH Pr) as (tr' & IH' & Hr').
    destruct (getIndex headers col) as [ts | e | ] eqn:Hts; try discriminate Pc.
    destruct (slotOf_spec to daySchedule headers col ts Hts Pc) as (tr1 & H1 & Hr1).
    exists (tr1 ++ tr')%list. split.
    + cbn [collectSlots flat_map]. rewrite Hts. unfold lift, andThen at 1.
      cbn [app]. rewrite H1. unfold andThen at 1. rewrite IH'.
      unfold andThen, ret. rewrite !app_nil_r. cbn [app].
      destruct (slotSpec daySchedule headers col); reflexivity.
    + now rewrite reminders_app, Hr1, Hr'.
Qed.

(** One header that can not be written ends the loop over the columns with
    an error, before any call of the sender. *)
Lemma collectSlots_throws to daySchedule headers cols :
  forallb (fun col => match getIndex headers col with
                      | Ok ts => printable ts
                      | _ => false
                      end) cols = false ->
  exists tr e,
    collectSlots to daySchedule headers cols = (tr, Throw e) /\ reminders tr = [].
Proof.
  induction cols as [|col cols IH]; intros P; [discriminate P|].
  cbn [forallb] in P. cbn [collectSlots].
  pose proof (getIndex_defined headers col) as D.
  destruct (getIndex headers col) as [ts | e | ] eqn:Hts; [| | contradiction].
  - destruct (printable ts) eqn:Pc.
    + cbn [andb] in P. destruct (IH P) as (tr' & e & IH' & Hr').
      destruct (slotOf_spec to daySchedule headers col ts Hts Pc) as (tr1 & H1 & Hr1).
      exists (tr1 ++ tr')%list, e. split.
      * unfold lift, andThen at 1. cbn [app]. rewrite H1. unfold andThen at 1.
        rewrite IH'. reflexivity.
      * now rewrite reminders_app, Hr1, Hr'.
    + destruct (slotOf_throws to daySchedule col ts Pc) as (e & H1).
      exists [], e. split; [|reflexivity].
      unfold lift, andThen at 1. cbn [app]. now rewrite H1.
  - exists [], e. split; reflexivity.
Qed.

(** ** Sorting the time slots keeps the due ones in column order *)

Lemma slotBefore_spec a b :
  slotBefore a b = true <->
  hours a < hours b \/ (hours a = hours b /\ minutes a < minutes b).
Proof.
  unfold slotBefore. destruct (Z.eqb_spec (hours a) (hours b)) as [E|N].
  - rewrite Z.ltb_lt. lia.
  - rewrite Z.ltb_lt. lia.
Qed.

Lemma slotLe_spec a b :
  slotLe a b <->
  hours a < hours b \/ (hours a = hours b /\ minutes a <= minutes b).
Proof.
  unfold slotLe. destruct (slotBefore b a) eqn:B.
  - split; [discriminate|]. intros G. apply slotBefore_spec in B. lia.
  - split; [intros _ | reflexivity].
    assert (N : ~ (hours b < hours a \/ (hours b = hours a /\ minutes b < minutes a))).
    { intros C. apply slotBefore_spec in C. congruence. }
    lia.
Qed.

Lemma insertSlot_sorted x l :
  StronglySorted slotLe l -> StronglySorted slotLe (insertSlot x l).
Proof.
  induction 1 as [|y l Hs IH Hall]; cbn [insertSlot].
  - constructor; constructor.
  - destruct (slotBefore x y) eqn:B.
    + constructor; [constructor; assumption|].
      assert (Lxy : slotLe x y).
      { apply slotLe_spec. apply slotBefore_spec in B. lia. }
      constructor; [exact Lxy|].
      rewrite Forall_forall in *. intros z Hz. specialize (Hall z Hz).
      apply slotLe_spec in Lxy, Hall. apply slotLe_spec. lia.
    + constructor; [exact IH|].
      assert (In_ins : forall z, In z (insertSlot x l) -> z = x \/ In z l).
      { clear. induction l as [|w l IHl]; cbn [insertSlot]; intros z Hz.
        - destruct Hz as [<- | []]. now left.
        - destruct (slotBefore x w).
          + destruct Hz as [<- | Hz]; [now left | now right].
          + destruct Hz as [<- | Hz]; [right; now left|].
            destruct (IHl z Hz); [now left | right; now right]. }
      rewrite Forall_forall in *. intros z Hz.
      destruct (In_ins z Hz) as [-> | Hz']; [exact B | now apply Hall].
Qed.

Section DueSlots.

Variable send : option string -> string -> bool.
Variable clock : Clock.

Lemma due_not_before x z :
  isDue clock x = true -> slotBefore x z = true -> isDue clock z = false.
Proof.
  unfold isDue. intros Hx B. apply andb_true_iff in Hx as [Hh Hm].
  apply Z.eqb_eq in Hh, Hm. apply slotBefore_spec in B.
  destruct (Z.eqb_spec (hours z) (targetHour clock));
    destruct (Z.eqb_spec (minutes z) (targetMinute clock)); try reflexivity; lia.
Qed.

Lemma filter_due_insert x l :
  StronglySorted slotLe l ->
  filter (isDue clock) (insertSlot x l)
  = (filter (isDue clock) l ++ (if isDue clock x then [x] else []))%list.
Proof.
  induction 1 as [|y l Hs IH Hall]; cbn [insertSlot filter].
  - destruct (isDue clock x); reflexivity.
  - destruct (slotBefore x y) eqn:B.
    + cbn [filter]. destruct (isDue clock x) eqn:Dx.
      * rewrite (due_not_before x y Dx B).
        assert (E : filter (isDue clock) l = []).
        { clear IH. induction l as [|z l IHl]; [reflexivity|].
          cbn [filter]. apply Forall_cons_iff in Hall as [Hz Hall].
          apply StronglySorted_inv in Hs as [Hs Hzl].
          assert (Bz : slotBefore x z = true).
          { apply slotBefore_spec. apply slotBefore_spec in B.
            apply slotLe_spec in Hz. lia. }
          rewrite (due_not_before x z Dx Bz). now apply IHl. }
        rewrite E. reflexivity.
      * now rewrite app_nil_r.
    + cbn [filter]. rewrite IH. now destruct (isDue clock y).
Qed.

Lemma filter_due_fold l acc :
  StronglySorted slotLe acc ->
  filter (isDue clock) (fold_left (fun sorted x => insertSlot x sorted) l acc)
  = (filter (isDue clock) acc ++ filter (isDue clock) l)%list.
Proof.
  revert acc. induction l as [|x l IH]; intros acc Hs; cbn [fold_left filter].
  - now rewrite app_nil_r.
  - rewrite IH by now apply insertSlot_sorted.
    rewrite filter_due_insert by exact Hs.
    rewrite <- app_assoc. now destruct (isDue clock x).
Qed.

(** The sort does not reorder the slots of the target time. *)
Lemma filter_due_sorted l :
  filter (isDue clock) (sortSlots l) = filter (isDue clock) l.
Proof. unfold sortSlots. now rewrite filter_due_fold by constructor. Qed.

End DueSlots.

Lemma In_insertSlot x l z : In z (insertSlot x l) -> z = x \/ In z l.
Proof.
  induction l as [|w l IHl]; cbn [insertSlot]; intros Hz.
  - destruct Hz as [<- | []]. now left.
  - destruct (slotBefore x w).
    + destruct Hz as [<- | Hz]; [now left | now right].
    + destruct Hz as [<- | Hz]; [right; now left|].
      destruct (IHl Hz); [now left | right; now right].
Qed.

Lemma In_sortSlots l z : In z (sortSlots l) -> In z l.
Proof.
  unfold sortSlots.
  assert (G : forall acc, In z (fold_left (fun sorted x => insertSlot x sorted) l acc) ->
                          In z acc \/ In z l).
  { induction l as [|x l IH]; intros acc H; cbn [fold_left] in H; [now left|].
    destruct (IH _ H) as [H1 | H1]; [|right; now right].
    destruct (In_insertSlot _ _ _ H1) as [-> | H2]; [right; now left | now left]. }
  intros H. destruct (G [] H) as [[] | H']; exact H'.
Qed.

Section SendDue.

Variable send : option string -> string -> bool.
Variable clock : Clock.

Lemma sendDue_spec to daySchedule slots :
  (forall s, In s slots -> exists t, cellText daySchedule (col s) = Ok t) ->
  sendDue send clock to daySchedule slots
  = (map (fun t => Reminder to t (send to t))
         (flat_map (dueCell daySchedule) (filter (isDue clock) slots)), Ok tt).
Proof.
  induction slots as [|s slots IH]; intros Hcells; [reflexivity|].
  cbn [sendDue filter].
  specialize (IH (fun s' Hs' => Hcells s' (or_intror Hs'))).
  destruct (isDue clock s); [|exact IH].
  destruct (Hcells s (or_introl eq_refl)) as (t & Ht).
  cbn [flat_map]. unfold dueCell at 1. rewrite Ht.
  unfold lift, andThen at 1. cbn [app].
  destruct (nonEmpty t).
  - unfold emit, andThen. rewrite IH. reflexivity.
  - rewrite IH. reflexivity.
Qed.

Lemma slotSpec_cell daySchedule headers c s :
  slotSpec daySchedule headers c = Some s ->
  col s = c /\ exists t, cellText daySchedule c = Ok t.
Proof.
  unfold slotSpec. destruct (getIndex headers c) as [[ | | | | str | | ] | | ];
    try discriminate.
  destruct (parseTime str) as [[h m]|]; [|discriminate].
  destruct (cellText daySchedule c) as [t | | ]; try discriminate.
  intros H. injection H as <-. split; [reflexivity | now exists t].
Qed.

Lemma due_of_slots daySchedule headers cols :
  flat_map (dueCell daySchedule)
    (filter (isDue clock)
       (flat_map (fun c => optionList (slotSpec daySchedule headers c)) cols))
  = flat_map (fun c => optionList (dueText clock daySchedule headers c)) cols.
Proof.
  induction cols as [|c cols IH]; [reflexivity|].
  cbn [flat_map]. rewrite filter_app, flat_map_app, IH. f_equal.
  unfold slotSpec, dueText.
  destruct (getIndex headers c) as [[ | | | | str | | ] | | ]; try reflexivity.
  destruct (parseTime str) as [[h m]|]; [|reflexivity].
  destruct (cellText daySchedule c) as [t | e | ] eqn:Ht; cbn [optionList filter].
  - unfold isDue. cbn [hours minutes].
    destruct ((h =? targetHour clock) && (m =? targetMinute clock))%bool;
      [|reflexivity].
    cbn [flat_map]. unfold dueCell. cbn [col]. rewrite Ht.
    destruct (nonEmpty t); reflexivity.
  - destruct ((h =? targetHour clock) && (m =? targetMinute clock))%bool; reflexivity.
  - destruct ((h =? targetHour clock) && (m =? targetMinute clock))%bool; reflexivity.
Qed.

(** The calls of the sender for one user: one per due item, in column
    order, each with the text of that item. *)
Lemma processUser_reminders u daySchedule headers bound :
  beforeSlots clock u = Ok (Some (daySchedule, headers, bound)) ->
  printableHeaders headers bound = true ->
  snd (processUser send clock u) = Ok tt /\
  reminders (fst (processUser send clock u))
  = map (fun t => (phone u, t, send (phone u) t))
        (dueTexts clock daySchedule headers bound).
Proof.
  intros H P.
  destruct (collectSlots_spec (phone u) daySchedule headers (seq 0 bound) P)
    as (tr & Hslots & Hr).
  assert (E : processUser send clock u
              = ((tr ++ map (fun t => Reminder (phone u) t (send (phone u) t))
                            (dueTexts clock daySchedule headers bound))%list, Ok tt)).
  { unfold processUser, userBody. rewrite H, andThen_lift_Ok, Hslots, andThen_Ok.
    rewrite sendDue_spec.
    - cbn [tryCatch fst snd]. now rewrite filter_due_sorted, due_of_slots.
    - intros s Hs. apply In_sortSlots in Hs. apply in_flat_map in Hs as (c & _ & Hc).
      destruct (slotSpec daySchedule headers c) as [s'|] eqn:Es; [|destruct Hc].
      destruct Hc as [<- | []].
      destruct (slotSpec_cell _ _ _ _ Es) as (-> & Ht). exact Ht. }
  rewrite E. cbn [fst snd]. split; [reflexivity|].
  rewrite reminders_app, Hr. cbn [app].
  generalize (dueTexts clock daySchedule headers bound).
  intros l. induction l as [|t l IHl]; [reflexivity|].
  cbn [map reminders]. now rewrite IHl.
Qed.

(** A header that can not be written ends the round in the handler of
    the user, before any call of the sender. *)
Lemma processUser_unprintable u daySchedule headers bound :
  beforeSlots clock u = Ok (Some (daySchedule, headers, bound)) ->
  printableHeaders headers bound = false ->
  snd (processUser send clock u) = Ok tt /\
  reminders (fst (processUser send clock u)) = [].
Proof.
  intros H P.
  destruct (collectSlots_throws (phone u) daySchedule headers (seq 0 bound) P)
    as (tr & e & Hslots & Hr).
  unfold processUser, userBody. rewrite H, andThen_lift_Ok, Hslots.
  cbn [andThen tryCatch emit fst snd]. split; [reflexivity|].
  now rewrite reminders_app, Hr.
Qed.

(** A user that does not reach the loop over the headers gets no call. *)
Lemma processUser_no_slots u :
  (forall found, beforeSlots clock u <> Ok (Some found)) ->
  reminders (fst (processUser send clock u)) = [].
Proof.
  intros H. unfold processUser, userBody.
  destruct (beforeSlots clock u) as [[found|] | e | ]; cbn.
  - now elim (H found).
  - reflexivity.
  - reflexivity.
  - reflexivity.
Qed.

(** A round leaves the embedding only before the loop over the headers. *)
Lemma processUser_ok u :
  beforeSlots clock u <> Beyond <-> snd (processUser send clock u) = Ok tt.
Proof.
  destruct (beforeSlots clock u) as [[[[ds headers] bound]|] | e | ] eqn:B.
  - split; [intros _ | discriminate].
    destruct (printableHeaders headers bound) eqn:P.
    + now apply (processUser_reminders u ds headers bound).
    + now apply (processUser_unprintable u ds headers bound).
  - unfold processUser, userBody. rewrite B. split; [reflexivity | discriminate].
  - unfold processUser, userBody. rewrite B. split; [reflexivity | discriminate].
  - unfold processUser, userBody. rewrite B. split; [contradiction | discriminate].
Qed.

End SendDue.

(** ** One call of the sender per due item *)

Lemma reminders_of_user send clock u :
  reminders (fst (processUser send clock u))
  = map (fun t => (phone u, t, send (phone u) t))
        (if reachesSend clock u then dueItems clock u else []).
Proof.
  unfold dueItems, reachesSend.
  destruct (beforeSlots clock u) as [[[[ds headers] bound]|] | e | ] eqn:E.
  - destruct (printableHeaders headers bound) eqn:P.
    + now apply processUser_reminders.
    + now apply (processUser_unprintable send clock u ds headers bound).
  - apply processUser_no_slots. rewrite E. discriminate.
  - apply processUser_no_slots. rewrite E. discriminate.
  - apply processUser_no_slots. rewrite E. discriminate.
Qed.

(** Every call of the sender in a round is the call for a due item. *)
Lemma reminders_in_due send clock u r :
  In r (reminders (fst (processUser send clock u))) ->
  exists t, r = (phone u, t, send (phone u) t) /\ In t (dueItems clock u).
Proof.
  rewrite reminders_of_user. intros H. apply in_map_iff in H as (t & <- & Ht).
  exists t. split; [reflexivity|]. now destruct (reachesSend clock u).
Qed.

(** ** The users of the dispatch loop *)

Lemma filterM_In {A} (f : A -> result bool) l l' :
  filterM f l = Ok l' ->
  forall x, In x l' <-> In x l /\ f x = Ok true.
Proof.
  revert l'. induction l as [|y l IH]; intros l' H x.
  - injection H as <-. split; [intros [] | intros [[] _]].
  - cbn [filterM] in H.
    destruct (f y) as [keep | e | ] eqn:Ey; cbn [bind] in H; try discriminate.
    destruct (filterM f l) as [rest | e | ] eqn:El; cbn [bind] in H; try discriminate.
    injection H as <-. specialize (IH rest eq_refl x).
    destruct keep; cbn [In]; split.
    + intros [<- | Hx]; [split; [now left | exact Ey]|].
      apply IH in Hx as [Hx Hf]. split; [now right | exact Hf].
    + intros [[<- | Hx] Hf]; [now left | right; apply IH; now split].
    + intros Hx. apply IH in Hx as [Hx Hf]. split; [now right | exact Hf].
    + intros [[<- | Hx] Hf]; [congruence | apply IH; now split].
Qed.

Lemma eligibleUsers_In allUsers users :
  eligibleUsers (verifiedUsers allUsers) = Ok users ->
  forall u, In u users <->
            In u allUsers /\ hasPhone u = true /\ isVerified u = true /\
            whatsappEnabled u = true /\ hasValidSchedule u = Ok true.
Proof.
  intros H u. unfold eligibleUsers in H. rewrite (filterM_In _ _ _ H u).
  unfold verifiedUsers. rewrite filter_In, andb_true_iff.
  destruct (hasValidSchedule u) as [valid | e | ]; cbn [bind].
  - destruct (whatsappEnabled u), valid; cbn [andb];
      split; intros G; try (destruct G as [_ G]; discriminate G);
      try (destruct G as (_ & _ & _ & G1 & G2); congruence);
      now repeat split.
  - split; [intros [_ G]; discriminate G | intros (_ & _ & _ & _ & G); discriminate G].
  - split; [intros [_ G]; discriminate G | intros (_ & _ & _ & _ & G); discriminate G].
Qed.

(** ** Schedules in the new format *)

Lemma record_row_chosen i row rows :
  forallb isRecord (row :: rows) = true ->
  isRecord (orElse (nth i (row :: rows) JUndef) (nth 0 (row :: rows) JUndef)) = true.
Proof.
  intros H. rewrite forallb_forall in H.
  destruct (nth_in_or_default i (row :: rows) JUndef) as [Hin | Hd].
  - pose proof (H _ Hin) as R. unfold orElse.
    destruct (nth i (row :: rows) JUndef); try discriminate R. exact R.
  - rewrite Hd. cbn [orElse truthy nth]. apply H. now left.
Qed.

Lemma isRecordRow_record row : isRecord row = true -> isRecordRow row = Ok true.
Proof.
  destruct row; try discriminate. cbn. intros ->. reflexivity.
Qed.

Section NewFormat.

Variable send : option string -> string -> bool.
Variable clock : Clock.

Lemma beforeSlots_newFormat u :
  newFormatUser u = true -> beforeSlots clock u = Throw ReferenceError.
Proof.
  unfold newFormatUser, storedRows, workingSchedule, beforeSlots, coerceSchedule.
  destruct (orElse (weeklySchedule u) (schedule u)) as [ | | b | n | s | items | fields];
    try discriminate.
  - destruct items as [|row rows]; [discriminate|]. intros H.
    cbn [truthy negb bind].
    now rewrite (isRecordRow_record _ (record_row_chosen _ _ _ H)).
  - destruct (lookup "rows" fields) as [ | | b | n | s | items | fs]; try discriminate.
    destruct items as [|row rows]; [discriminate|]. intros H.
    cbn [truthy negb bind].
    now rewrite (isRecordRow_record _ (record_row_chosen _ _ _ H)).
Qed.

Lemma processUser_newFormat u :
  newFormatUser u = true ->
  processUser send clock u = ([UserError (phone u) ReferenceError], Ok tt).
Proof.
  intros H. unfold processUser, userBody. now rewrite (beforeSlots_newFormat u H).
Qed.

(** Every run of the whole callback is the dispatch loop over the users
    it found, or ends with no event, or with the line of the outer
    handler. *)
Lemma reminderJob_cases allUsers :
  (exists users, eligibleUsers (verifiedUsers allUsers) = Ok users /\
                 reminderJob send clock allUsers = dispatchLoop send clock users)
  \/ fst (reminderJob send clock allUsers) = []
  \/ exists e, reminderJob send clock allUsers = ([JobError e], Ok tt).
Proof.
  unfold reminderJob.
  destruct (forEach describeUser allUsers) as [[] | e | ];
    [ | right; right; now exists e | right; now left ].
  rewrite andThen_lift_Ok.
  destruct (eligibleUsers (verifiedUsers allUsers)) as [users | e | ];
    [ | right; right; now exists e | right; now left ].
  rewrite andThen_lift_Ok.
  destruct users as [|u users]; [left; exists []; split; reflexivity|].
  destruct (forEach (logCurrentDayTasks clock) (u :: users)) as [[] | e | ];
    [ | right; right; now exists e | right; now left ].
  rewrite andThen_lift_Ok.
  destruct (forEach logWeek (u :: users)) as [[] | e | ];
    [ | right; right; now exists e | right; now left ].
  rewrite andThen_lift_Ok.
  left. exists (u :: users). split; [reflexivity|].
  pose proof (dispatchLoop_never_throws send clock (u :: users)) as N.
  destruct (dispatchLoop send clock (u :: users)) as [tr [[] | e | ]]; cbn [tryCatch];
    [reflexivity | now elim (N e) | reflexivity].
Qed.

End NewFormat.

(** C10.  For every user whose schedule rows are record objects with a
    [day] property (and there is at least one row), one round of the
    dispatch loop takes the new-format branch, stops at the undeclared
    identifier with a ReferenceError, and the per-user handler swallows it:
    the round leaves that one error line and no call of the sender.  So a
    run of the job over users with new-format schedules sends no reminder,
    whatever the rows hold and whatever the target time. *)
Theorem C10_new_format_never_reminded send clock :
  (forall u, newFormatUser u = true ->
             processUser send clock u = ([UserError (phone u) ReferenceError], Ok tt))
  /\ (forall allUsers,
         (forall u, In u allUsers -> newFormatUser u = true) ->
         reminders (fst (reminderJob send clock allUsers)) = []).
Proof.
  split; [apply processUser_newFormat|].
  intros allUsers H.
  destruct (reminderJob_cases send clock allUsers) as [(users & E & ->) | [-> | (e & ->)]];
    try reflexivity.
  assert (Hu : forall u, In u users -> newFormatUser u = true).
  { intros u Hin. apply H. now apply (eligibleUsers_In _ _ E) in Hin as (Hin & _). }
  rewrite dispatchLoop_trace.
  - cbn [fst]. clear E. induction users as [|u users IH]; [reflexivity|].
    cbn [flat_map]. rewrite reminders_app, IH by (intros v Hv; apply Hu; now right).
    now rewrite (processUser_newFormat send clock u (Hu u (or_introl eq_refl))).
  - intros u Hin. now rewrite (processUser_newFormat send clock u (Hu u Hin)).
Qed.

Lemma C10_new_format_never_reminded_witness :
  processUser alwaysSent (mondayAt 9 0) recordSchedule
  = ([UserError (Some "919000000003") ReferenceError], Ok tt)
  /\ reminders (fst (reminderJob alwaysSent (mondayAt 9 0) [recordSchedule])) = [].
Proof.
  destruct (C10_new_format_never_reminded alwaysSent (mondayAt 9 0)) as [H1 H2].
  split.
  - apply (H1 recordSchedule). reflexivity.
  - apply (H2 [recordSchedule]). intros u [<- | []]. reflexivity.
Defined.

(** ** The duplicate filter keeps the first task of a slot *)

Module TasksListFacts.
Import TasksList.

Lemma existsb_key k seen :
  existsb (String.eqb k) seen = true <-> In k seen.
Proof.
  rewrite existsb_exists. split.
  - intros (x & Hx & E). apply String.eqb_eq in E. now subst.
  - intros H. exists k. split; [exact H | apply String.eqb_refl].
Qed.

Lemma firstWithKey_cons k t l :
  firstWithKey k (t :: l)
  = if String.eqb (key t) k then Some t else firstWithKey k l.
Proof. reflexivity. Qed.

Lemma uniqueFrom_first seen l k :
  firstWithKey k (uniqueFrom seen l)
  = if existsb (String.eqb k) seen then None else firstWithKey k l.
Proof.
  revert seen. induction l as [|t rest IH]; intros seen.
  - cbn. now destruct (existsb (String.eqb k) seen).
  - cbn [uniqueFrom]. rewrite firstWithKey_cons.
    destruct (existsb (String.eqb (key t)) seen) eqn:Et.
    + rewrite IH. destruct (existsb (String.eqb k) seen) eqn:Ek; [reflexivity|].
      destruct (String.eqb_spec (key t) k) as [E | N]; [|reflexivity].
      rewrite E in Et. congruence.
    + rewrite firstWithKey_cons, IH. cbn [existsb].
      destruct (String.eqb_spec (key t) k) as [E | N].
      * rewrite <- E, Et. reflexivity.
      * destruct (String.eqb_spec k (key t)) as [E' | _]; [congruence|].
        reflexivity.
Qed.

Lemma uniqueFrom_fresh seen l x :
  In x (uniqueFrom seen l) -> ~ In (key x) seen.
Proof.
  revert seen. induction l as [|t rest IH]; intros seen H; [destruct H|].
  cbn [uniqueFrom] in H. destruct (existsb (String.eqb (key t)) seen) eqn:Et.
  - now apply IH.
  - destruct H as [<- | H].
    + intros Hin. apply existsb_key in Hin. congruence.
    + intros Hin. apply (IH _ H). now right.
Qed.

Lemma uniqueFrom_NoDup seen l : NoDup (map key (uniqueFrom seen l)).
Proof.
  revert seen. induction l as [|t rest IH]; intros seen; [constructor|].
  cbn [uniqueFrom]. destruct (existsb (String.eqb (key t)) seen); [apply IH|].
  cbn [map]. constructor; [|apply IH].
  intros Hin. apply in_map_iff in Hin as (x & Ex & Hx).
  apply uniqueFrom_fresh in Hx. apply Hx. left. now symmetry.
Qed.

End TasksListFacts.

Lemma C5_counterexample :
  ~ TasksList.lastWriterWins [TasksList.standup; TasksList.review].
Proof.
  intros H. specialize (H "monday-9:00 am"). vm_compute in H. discriminate H.
Qed.

(** C5 (amended).  The duplicate filter of the task listing is
    first-writer-wins: for every list of tasks and every slot key (the day
    and the time text, joined and lower-cased), the task the filter keeps
    for that key is the first task of the list with that key, and it keeps
    one task per key; so of two tasks of the same slot with different text
    only the one occurring earlier survives, and the later one is dropped. *)
Theorem C5_first_writer_wins (allTasks : list TasksList.ListedTask) :
  (forall k, TasksList.firstWithKey k (TasksList.uniqueTasks allTasks)
             = TasksList.firstWithKey k allTasks)
  /\ NoDup (map TasksList.key (TasksList.uniqueTasks allTasks))
  /\ (forall a b, TasksList.key a = TasksList.key b ->
                  TasksList.uniqueTasks [a; b] = [a]).
Proof.
  split; [|split].
  - intros k. unfold TasksList.uniqueTasks.
    now rewrite TasksListFacts.uniqueFrom_first.
  - apply TasksListFacts.uniqueFrom_NoDup.
  - intros a b E. unfold TasksList.uniqueTasks. cbn.
    rewrite <- E, String.eqb_refl. reflexivity.
Qed.

Lemma C5_first_writer_wins_witness :
  TasksList.uniqueTasks [TasksList.standup; TasksList.review] = [TasksList.standup].
Proof.
  destruct (C5_first_writer_wins []) as (_ & _ & H).
  apply (H TasksList.standup TasksList.review). reflexivity.
Defined.

(** ** The legacy branch of the schedule listing pairs cell [i] with
       header [i - 1] *)

Lemma collect_pure {A B} (f : A -> result (option B)) (h : A -> option B) l :
  (forall x, In x l -> f x = Ok (h x)) ->
  collect f l = Ok (flat_map (fun x => optionList (h x)) l).
Proof.
  induction l as [|x l IH]; intros H; [reflexivity|].
  cbn [collect flat_map]. rewrite (H x (or_introl eq_refl)). cbn [bind].
  rewrite IH by (intros y Hy; apply H; now right). cbn [bind].
  now destruct (h x).
Qed.

Module ScheduleTasksFacts.
Import ScheduleTasks.

Lemma dayOfKey_dayName d : dayOfKey (dayName d) = Some d.
Proof. destruct d; reflexivity. Qed.

Lemma nth_texts (l : list string) i :
  (i < List.length l)%nat -> nth i (map JStr l) JUndef = JStr (nth i l EmptyString).
Proof.
  intros H. rewrite (nth_indep _ JUndef (JStr EmptyString)) by now rewrite length_map.
  apply (map_nth JStr).
Qed.

Lemma header_at (hs : list string) j :
  getIndex (JArr (map JStr hs)) j
  = Ok match nth_error hs j with Some h => JStr h | None => JUndef end.
Proof.
  cbn [getIndex]. f_equal. revert j. induction hs as [|h hs IH]; intros [|j];
    cbn; try reflexivity. apply IH.
Qed.

Lemma legacyCell_texts hs (row : list string) i :
  (i < List.length row)%nat ->
  legacyCell (JArr (map JStr hs)) (map JStr row) i
  = Ok match nth_error hs (i - 1) with
       | Some h =>
           if (nonEmpty (trim (nth i row EmptyString)) && nonEmpty h)%bool
           then Some (JStr h, nth i row EmptyString) else None
       | None => None
       end.
Proof.
  intros Hi. unfold legacyCell. rewrite header_at, (nth_texts row i Hi). cbn [bind].
  cbn [truthy]. destruct (nth i row EmptyString) as [|c s] eqn:E.
  - cbn. now destruct (nth_error hs (i - 1)).
  - cbn [nonEmpty asString bind]. destruct (nth_error hs (i - 1)) as [h|].
    + reflexivity.
    + cbn [truthy]. now rewrite andb_false_r.
Qed.

Lemma legacyRow_texts d hs (cells : list string) :
  cells <> [] ->
  legacyRow (JArr (map JStr hs)) (JArr (map JStr (dayName d :: cells)))
  = Ok (flat_map (pairedAt d hs (dayName d :: cells)) (seq 1 (List.length cells))).
Proof.
  intros Hne. destruct cells as [|c cells]; [contradiction|].
  cbn [map legacyRow truthy].
  replace (nonEmpty (dayName d)) with true by now destruct d.
  cbn [toStr bind]. rewrite dayOfKey_dayName.
  change (JStr (dayName d) :: JStr c :: map JStr cells)
    with (map JStr (dayName d :: c :: cells)).
  rewrite length_map. cbn [List.length Nat.sub].
  rewrite ?Nat.sub_0_r.
  rewrite (collect_pure _
             (fun i => match nth_error hs (i - 1) with
                       | Some h =>
                           if (nonEmpty (trim (nth i (dayName d :: c :: cells) EmptyString))
                               && nonEmpty h)%bool
                           then Some (JStr h, nth i (dayName d :: c :: cells) EmptyString)
                           else None
                       | None => None
                       end)).
  - cbn [bind]. f_equal.
    generalize (seq 1 (S (List.length cells))). intros l.
    induction l as [|i l IH]; [reflexivity|].
    cbn [flat_map map]. rewrite map_app, IH. f_equal.
    unfold pairedAt. destruct (nth_error hs (i - 1)); [|reflexivity].
    now destruct (nonEmpty (trim (nth i (dayName d :: c :: cells) EmptyString))
                  && nonEmpty s)%bool.
  - intros i Hi. apply in_seq in Hi. apply legacyCell_texts. cbn [List.length]. lia.
Qed.

End ScheduleTasksFacts.

(** ** Errors inside and outside the dispatch loop *)

Lemma forEach_throws {A} (f : A -> result unit) before bad after e :
  forEach f before = Ok tt -> f bad = Throw e ->
  forEach f (before ++ bad :: after) = Throw e.
Proof.
  induction before as [|x before IH]; cbn [forEach app]; intros H1 H2.
  - now rewrite H2.
  - destruct (f x) as [[] | e' | ]; cbn [bind] in *; try discriminate. now apply IH.
Qed.

(** C8.  Inside the dispatch loop the isolation holds: no error of a user
    leaves the loop, and when no user leaves the embedding the trace of the
    loop is the traces of its users one after the other, each the same as if
    the user were processed alone, whatever the sender answers; a grid
    without headers, whose round ends in a caught TypeError, leaves the two
    reminders of the next user in place.  The passes that describe the users
    for the log run before the loop and outside the per-user handler: when
    the description of one stored user throws, the outer handler ends the
    run and no user at all is processed; a [null] row of one user does
    that, and the next user, who gets two reminders when alone, gets none. *)
Theorem C8_isolation_in_loop_not_before :
  (forall send clock us e, snd (dispatchLoop send clock us) <> Throw e)
  /\ (forall send clock us,
         (forall u, In u us -> snd (processUser send clock u) = Ok tt) ->
         dispatchLoop send clock us
         = (flat_map (fun u => fst (processUser send clock u)) us, Ok tt))
  /\ (forall send clock before bad after e,
         forEach describeUser before = Ok tt -> describeUser bad = Throw e ->
         reminderJob send clock (before ++ bad :: after) = ([JobError e], Ok tt))
  /\ reminderJob alwaysSent (mondayAt 9 0) [noHeaders; twoHeadersAtNine]
     = ([UserError (Some "919000000007") TypeError;
         Reminder (Some "919000000001") "Gym" true;
         Reminder (Some "919000000001") "Standup" true], Ok tt)
  /\ reminderJob alwaysSent (mondayAt 9 0) [twoHeadersAtNine]
     = ([Reminder (Some "919000000001") "Gym" true;
         Reminder (Some "919000000001") "Standup" true], Ok tt)
  /\ reminderJob alwaysSent (mondayAt 9 0) [nullSecondRow; twoHeadersAtNine]
     = ([JobError TypeError], Ok tt).
Proof.
  split; [exact dispatchLoop_never_throws|].
  split; [exact dispatchLoop_trace|].
  split.
  { intros send clock before bad after e H1 H2. unfold reminderJob.
    now rewrite (forEach_throws _ _ _ after _ H1 H2). }
  split; [reflexivity|]. split; reflexivity.
Qed.

Lemma C8_isolation_in_loop_not_before_witness :
  dispatchLoop alwaysSent (mondayAt 9 0) [noHeaders; twoHeadersAtNine]
  = (flat_map (fun u => fst (processUser alwaysSent (mondayAt 9 0) u))
              [noHeaders; twoHeadersAtNine], Ok tt).
Proof.
  destruct C8_isolation_in_loop_not_before as (_ & H & _).
  apply (H alwaysSent (mondayAt 9 0) [noHeaders; twoHeadersAtNine]).
  intros u [<- | [<- | []]]; reflexivity.
Defined.

Section Malformed.

Variable send : option string -> string -> bool.
Variable clock : Clock.

Lemma processUser_absent u :
  truthy (workingSchedule u) = false -> processUser send clock u = ([], Ok tt).
Proof.
  unfold workingSchedule. intros H.
  unfold processUser, userBody, beforeSlots, coerceSchedule. now rewrite H.
Qed.

End Malformed.

(** C9.  Inside the dispatch loop a schedule of any shape is harmless: no
    round of the loop ends in an uncaught error; an absent schedule is
    skipped without a trace; a user that does not reach the loop over the
    headers gets no reminder; a grid without headers ends in a TypeError
    that the per-user handler logs.  Before the loop it is not: a schedule
    whose only row is [null], even of a user who is not verified, makes the
    pass that describes the users throw, the outer handler ends the run, and
    the next user, who gets two reminders when alone, gets none. *)
Theorem C9_malformed_schedule_in_loop_not_before :
  (forall send clock u e, snd (processUser send clock u) <> Throw e)
  /\ (forall send clock u,
         truthy (workingSchedule u) = false -> processUser send clock u = ([], Ok tt))
  /\ (forall send clock u,
         (forall found, beforeSlots clock u <> Ok (Some found)) ->
         reminders (fst (processUser send clock u)) = [])
  /\ processUser alwaysSent (mondayAt 9 0) noHeaders
     = ([UserError (Some "919000000007") TypeError], Ok tt)
  /\ reminderJob alwaysSent (mondayAt 9 0) [noSchedule; twoHeadersAtNine]
     = ([Reminder (Some "919000000001") "Gym" true;
         Reminder (Some "919000000001") "Standup" true], Ok tt)
  /\ reminderJob alwaysSent (mondayAt 9 0) [nullRow; twoHeadersAtNine]
     = ([JobError TypeError], Ok tt).
Proof.
  split; [exact processUser_catches|].
  split; [exact processUser_absent|].
  split; [exact processUser_no_slots|].
  split; [reflexivity|]. split; reflexivity.
Qed.

Lemma C9_malformed_schedule_in_loop_not_before_witness :
  processUser alwaysSent (mondayAt 9 0) noSchedule = ([], Ok tt)
  /\ reminders (fst (processUser alwaysSent (mondayAt 9 0) noHeaders)) = [].
Proof.
  destruct C9_malformed_schedule_in_loop_not_before as (_ & H1 & H2 & _).
  split.
  - apply (H1 alwaysSent (mondayAt 9 0) noSchedule). reflexivity.
  - apply (H2 alwaysSent (mondayAt 9 0) noHeaders). intros found. discriminate.
Defined.

(** ** The task store *)

(** C2.  The per-minute callbacks never read or write the task store: a
    minute of the scheduler leaves the world as it was, every
    [oneMinuteReminderSent] flag included, and its trace is the same
    whatever tasks are stored; so with a task due within the minute, not
    completed and not yet reminded, no reminder for it is sent and its flag
    stays false. *)
Theorem C2_task_store_untouched send clock w :
  fst (minuteCycle send clock w) = w
  /\ (forall stored,
         snd (minuteCycle send clock (mkWorld (users w) stored))
         = snd (minuteCycle send clock w))
  /\ minuteCycle alwaysSent (mondayAt 9 0) (mkWorld [eveningGrid] [rentTask])
     = (mkWorld [eveningGrid] [rentTask], []).
Proof.
  split; [reflexivity|]. split; [reflexivity|]. reflexivity.
Qed.

(* ===================================================================== *)
(** * Part III. Further properties of the server                          *)
(* ===================================================================== *)

(** ** Phone numbers *)

Module PhoneFacts.
Import Phone.

Lemma length_append a b :
  String.length (a ++ b) = (String.length a + String.length b)%nat.
Proof. induction a as [|c a IH]; cbn; [reflexivity | now rewrite IH]. Qed.

Lemma digitsOnly_digits s : allChars isDigit (digitsOnly s) = true.
Proof.
  induction s as [|c s IH]; [reflexivity|].
  cbn [digitsOnly]. destruct (isDigit c) eqn:D; [|exact IH].
  cbn [allChars]. now rewrite D, IH.
Qed.

Lemma digitsOnly_fixed s : allChars isDigit s = true -> digitsOnly s = s.
Proof.
  induction s as [|c s IH]; [reflexivity|].
  cbn [allChars digitsOnly]. intros H. apply andb_true_iff in H as [D H].
  now rewrite D, IH.
Qed.

Lemma dropLeadingZeros_cons c s :
  dropLeadingZeros (String c s)
  = if Ascii.eqb c "0" then dropLeadingZeros s else String c s.
Proof.
  destruct c as [[] [] [] [] [] [] [] []]; reflexivity.
Qed.

Lemma dropLeadingZeros_digits s :
  allChars isDigit s = true -> allChars isDigit (dropLeadingZeros s) = true.
Proof.
  induction s as [|c s IH]; [reflexivity|].
  rewrite dropLeadingZeros_cons. intros H.
  destruct (Ascii.eqb c "0"); [|exact H].
  apply IH. cbn [allChars] in H. now apply andb_true_iff in H as [_ H].
Qed.

Lemma dropLeadingZeros_length s :
  (String.length (dropLeadingZeros s) <= String.length s)%nat.
Proof.
  induction s as [|c s IH]; [reflexivity|].
  rewrite dropLeadingZeros_cons. destruct (Ascii.eqb c "0"); cbn [String.length]; lia.
Qed.

Lemma substringFrom_digits n s :
  allChars isDigit s = true -> allChars isDigit (substringFrom n s) = true.
Proof.
  revert s. induction n as [|n IH]; intros s H; [now destruct s|].
  destruct s as [|c s]; [reflexivity|].
  cbn [substringFrom]. apply IH. cbn [allChars] in H.
  now apply andb_true_iff in H as [_ H].
Qed.

Lemma substringFrom_length n s :
  String.length (substringFrom n s) = (String.length s - n)%nat.
Proof.
  revert s. induction n as [|n IH]; intros s; [destruct s; cbn; lia|].
  destruct s as [|c s]; [reflexivity|]. cbn [substringFrom String.length]. now rewrite IH.
Qed.

Lemma substringFrom_0 s : substringFrom 0 s = s.
Proof. now destruct s. Qed.

Lemma prefix91 s : prefix "91" s = true -> s = "91" ++ substringFrom 2 s.
Proof.
  destruct s as [|a [|b r]]; cbn [prefix]; try discriminate.
  - now destruct (ascii_dec "9" a).
  - destruct (ascii_dec "9" a) as [<-|]; [|discriminate].
    destruct (ascii_dec "1" b) as [<-|]; [|discriminate].
    intros _. cbn. now destruct r.
Qed.

Lemma prefix91_append r : prefix "91" ("91" ++ r) = true.
Proof. cbn. now destruct r. Qed.

Lemma dropLeadingZeros_91 s : prefix "91" s = true -> dropLeadingZeros s = s.
Proof. intros H. rewrite (prefix91 s H). reflexivity. Qed.

Lemma tenDigits_spec s :
  tenDigits s = true <-> String.length s = 10%nat /\ allChars isDigit s = true.
Proof.
  unfold tenDigits. rewrite andb_true_iff, Nat.eqb_eq. reflexivity.
Qed.

(** The shape of a number [isValidPhoneNumber] accepts. *)
Lemma isValidPhoneNumber_spec phone :
  isValidPhoneNumber phone = true <->
  String.length (digitsOnly phone) = 12%nat /\ prefix "91" (digitsOnly phone) = true.
Proof.
  unfold isValidPhoneNumber. rewrite andb_true_iff, tenDigits_spec, substringFrom_length.
  pose proof (digitsOnly_digits phone) as D. split.
  - intros (P & L & _). split; [|exact P].
    rewrite (prefix91 _ P) in *. rewrite length_append in *. cbn in *. lia.
  - intros (L & P). split; [exact P|]. split; [lia|]. now apply substringFrom_digits.
Qed.

End PhoneFacts.

Module PhoneFacts2.
Import Phone PhoneFacts.

Lemma formatPhoneNumber_cases phone :
  formatPhoneNumber phone
  = (if (Nat.eqb (String.length (digitsOnly phone)) 10
         || (Nat.eqb (String.length (digitsOnly phone)) 12
             && prefix "91" (digitsOnly phone)))%bool
     then inr ("+91" ++ sliceLast 10 (digitsOnly phone))
     else inl MustBeTenDigits).
Proof.
  pose proof (digitsOnly_digits phone) as D.
  unfold formatPhoneNumber, sliceLast, tenDigits.
  generalize dependent (digitsOnly phone). intros digits D.
  destruct (prefix "91" digits) eqn:P; cbn [andb].
  - destruct (Nat.ltb_spec 10 (String.length digits)) as [L | L].
    + rewrite substringFrom_length.
      rewrite (substringFrom_digits 2 digits D), andb_true_r.
      destruct (Nat.eqb_spec (String.length digits) 10) as [L10 | _]; [lia|].
      cbn [orb]. destruct (Nat.eqb_spec (String.length digits) 12) as [L12 | L12].
      * rewrite L12. reflexivity.
      * destruct (Nat.eqb_spec (String.length digits - 2) 10) as [L' | _]; [lia|].
        reflexivity.
    + rewrite D, andb_true_r.
      destruct (Nat.eqb_spec (String.length digits) 10) as [L10 | L10]; cbn [negb orb].
      * rewrite L10. cbn [Nat.sub]. now rewrite substringFrom_0.
      * destruct (Nat.eqb_spec (String.length digits) 12) as [L12 | _]; [lia|].
        reflexivity.
  - rewrite andb_false_r, orb_false_r, D, andb_true_r.
    destruct (Nat.eqb_spec (String.length digits) 10) as [L10 | L10]; cbn [negb];
      [|reflexivity].
    rewrite L10. cbn [Nat.sub]. now rewrite substringFrom_0.
Qed.

Lemma formatPhoneNumber_shape phone formatted :
  formatPhoneNumber phone = inr formatted ->
  exists ten, formatted = "+91" ++ ten /\ tenDigits ten = true.
Proof.
  rewrite formatPhoneNumber_cases.
  destruct (Nat.eqb (String.length (digitsOnly phone)) 10
            || (Nat.eqb (String.length (digitsOnly phone)) 12
                && prefix "91" (digitsOnly phone)))%bool eqn:C; [|discriminate].
  intros [= <-]. exists (sliceLast 10 (digitsOnly phone)). split; [reflexivity|].
  unfold tenDigits, sliceLast.
  rewrite substringFrom_length, (substringFrom_digits _ _ (digitsOnly_digits phone)).
  rewrite andb_true_r. apply Nat.eqb_eq.
  apply orb_true_iff in C as [C | C]; [apply Nat.eqb_eq in C; lia|].
  apply andb_true_iff in C as [C _]. apply Nat.eqb_eq in C. lia.
Qed.

(** The digits of [+] followed by digits. *)
Lemma digitsOnly_plus r :
  allChars isDigit r = true -> digitsOnly ("+" ++ r) = r.
Proof. intros H. cbn. now apply digitsOnly_fixed. Qed.

Lemma allChars_91 r : allChars isDigit r = true -> allChars isDigit ("91" ++ r) = true.
Proof. intros H. cbn. exact H. Qed.

Lemma nonEmpty_length s : (0 < String.length s)%nat -> nonEmpty s = true.
Proof. destruct s; cbn; [lia | reflexivity]. Qed.

Lemma digitsOnly_length s : (String.length (digitsOnly s) <= String.length s)%nat.
Proof.
  induction s as [|c s IH]; [reflexivity|].
  cbn [digitsOnly]. destruct (isDigit c); cbn [String.length]; lia.
Qed.

(** A number of twelve digits that starts with 91 is what every consumer
    of a stored number expects. *)
Lemma stored_shape q :
  allChars isDigit q = true -> String.length q = 12%nat -> prefix "91" q = true ->
  isValidPhoneNumber q = true /\ formattedPhone q = Some q /\
  formatPhoneNumber q = inr ("+" ++ q) /\ findUserPhone q = q.
Proof.
  intros D L P. assert (Dq : digitsOnly q = q) by now apply digitsOnly_fixed.
  split; [|split; [|split]].
  - apply isValidPhoneNumber_spec. now rewrite Dq.
  - unfold formattedPhone, cleanPhone. rewrite nonEmpty_length by lia.
    rewrite Dq, (dropLeadingZeros_91 q P), P, L. reflexivity.
  - rewrite formatPhoneNumber_cases, Dq, L, P. cbn [Nat.eqb orb andb].
    unfold sliceLast. rewrite L. cbn [Nat.sub].
    rewrite (prefix91 q P) at 2. reflexivity.
  - unfold findUserPhone. rewrite (prefix91 q P). reflexivity.
Qed.

Lemma dropLeadingZeros_same s :
  String.length (dropLeadingZeros s) = String.length s -> dropLeadingZeros s = s.
Proof.
  destruct s as [|c s]; [reflexivity|].
  rewrite dropLeadingZeros_cons. destruct (Ascii.eqb c "0"); [|reflexivity].
  pose proof (dropLeadingZeros_length s). cbn [String.length]. lia.
Qed.

Lemma prefix0 s : prefix "0" s = true -> s = "0" ++ substringFrom 1 s.
Proof.
  destruct s as [|a r]; cbn [prefix]; [discriminate|].
  destruct (ascii_dec "0" a) as [<-|]; [|discriminate].
  intros _. cbn. now destruct r.
Qed.

Lemma prefix0_91 s : prefix "91" s = true -> prefix "0" s = false.
Proof. intros P. rewrite (prefix91 s P). reflexivity. Qed.

End PhoneFacts2.

(** X1.  [formatPhoneNumber] succeeds exactly when the digits of its
    argument are ten, or twelve with the country code 91 in front; the
    result is then [+91] followed by the last ten digits.  In every other
    case it throws the error of the length check: the check that follows,
    for characters that are not digits, never fires. *)
Theorem formatPhoneNumber_outcome (phone : string) :
  Phone.formatPhoneNumber phone
  = (if (Nat.eqb (String.length (Phone.digitsOnly phone)) 10
         || (Nat.eqb (String.length (Phone.digitsOnly phone)) 12
             && prefix "91" (Phone.digitsOnly phone)))%bool
     then inr ("+91" ++ Phone.sliceLast 10 (Phone.digitsOnly phone))
     else inl Phone.MustBeTenDigits)
  /\ Phone.formatPhoneNumber phone <> inl Phone.MustContainOnlyDigits
  /\ (forall formatted,
         Phone.formatPhoneNumber phone = inr formatted ->
         exists ten, formatted = "+91" ++ ten /\ Phone.tenDigits ten = true).
Proof.
  split; [apply PhoneFacts2.formatPhoneNumber_cases|]. split.
  - rewrite PhoneFacts2.formatPhoneNumber_cases.
    now destruct (Nat.eqb (String.length (Phone.digitsOnly phone)) 10
                  || (Nat.eqb (String.length (Phone.digitsOnly phone)) 12
                      && prefix "91" (Phone.digitsOnly phone)))%bool.
  - apply PhoneFacts2.formatPhoneNumber_shape.
Qed.

Lemma formatPhoneNumber_outcome_witness :
  exists ten, "+919876543210" = "+91" ++ ten /\ Phone.tenDigits ten = true.
Proof.
  destruct (formatPhoneNumber_outcome "(+91) 98765-43210") as (_ & _ & H).
  apply H. reflexivity.
Defined.

(** X2.  [formatPhoneNumber] and [isValidPhoneNumber] agree: a number the
    validator accepts is formatted as [+] followed by its digits, and every
    result of the formatter is accepted by the validator and is formatted to
    itself again. *)
Theorem formatPhoneNumber_isValidPhoneNumber (phone : string) :
  (Phone.isValidPhoneNumber phone = true ->
   Phone.formatPhoneNumber phone = inr ("+" ++ Phone.digitsOnly phone))
  /\ (forall formatted,
         Phone.formatPhoneNumber phone = inr formatted ->
         Phone.isValidPhoneNumber formatted = true
         /\ Phone.formatPhoneNumber formatted = inr formatted).
Proof.
  split.
  - intros V. apply PhoneFacts.isValidPhoneNumber_spec in V as [L P].
    pose proof (PhoneFacts.digitsOnly_digits phone) as D.
    destruct (PhoneFacts2.stored_shape _ D L P) as (_ & _ & F & _).
    unfold Phone.formatPhoneNumber in *.
    now rewrite (PhoneFacts.digitsOnly_fixed _ D) in F.
  - intros formatted F.
    destruct (PhoneFacts2.formatPhoneNumber_shape phone formatted F) as (ten & -> & T).
    apply PhoneFacts.tenDigits_spec in T as [L D].
    assert (L' : String.length ("91" ++ ten) = 12%nat)
      by (rewrite PhoneFacts.length_append, L; reflexivity).
    destruct (PhoneFacts2.stored_shape ("91" ++ ten) (PhoneFacts2.allChars_91 _ D) L'
                (PhoneFacts.prefix91_append ten)) as (V & _ & F' & _).
    split.
    + unfold Phone.isValidPhoneNumber in *. change ("+91" ++ ten) with ("+" ++ "91" ++ ten).
      now rewrite (PhoneFacts2.digitsOnly_plus _ (PhoneFacts2.allChars_91 _ D)),
        <- (PhoneFacts.digitsOnly_fixed _ (PhoneFacts2.allChars_91 _ D)).
    + unfold Phone.formatPhoneNumber in *. change ("+91" ++ ten) with ("+" ++ "91" ++ ten).
      rewrite (PhoneFacts2.digitsOnly_plus _ (PhoneFacts2.allChars_91 _ D)).
      now rewrite (PhoneFacts.digitsOnly_fixed _ (PhoneFacts2.allChars_91 _ D)) in F'.
Qed.

Lemma formatPhoneNumber_isValidPhoneNumber_witness :
  Phone.formatPhoneNumber "91 98765 43210" = inr "+919876543210"
  /\ Phone.isValidPhoneNumber "+919876543210" = true
  /\ Phone.formatPhoneNumber "+919876543210" = inr "+919876543210".
Proof.
  destruct (formatPhoneNumber_isValidPhoneNumber "91 98765 43210") as [H1 H2].
  split; [apply H1; reflexivity|].
  apply (H2 "+919876543210"). reflexivity.
Defined.

(** X3.  The destination [sendWhatsAppReminder] builds from a phone number.
    When the function gets as far as the request, the destination is twelve
    digits that start with 91, a number [isValidPhoneNumber] accepts.  A
    number the validator accepts is its own destination, up to the
    characters that are not digits.  A number of ten digits (after the
    leading zeros are removed) gets the country code in front, unless it
    starts with 91 itself: then no code is added, the length check fails,
    and the function returns [false] without sending. *)
Theorem sendWhatsAppReminder_destination (phone : string) :
  (forall destination,
      Phone.formattedPhone phone = Some destination ->
      String.length destination = 12%nat /\ prefix "91" destination = true
      /\ allChars isDigit destination = true
      /\ Phone.isValidPhoneNumber destination = true)
  /\ (Phone.isValidPhoneNumber phone = true ->
      Phone.formattedPhone phone = Some (Phone.digitsOnly phone))
  /\ (String.length (Phone.dropLeadingZeros (Phone.digitsOnly phone)) = 10%nat ->
      Phone.formattedPhone phone
      = if prefix "91" (Phone.dropLeadingZeros (Phone.digitsOnly phone)) then None
        else Some ("91" ++ Phone.dropLeadingZeros (Phone.digitsOnly phone))).
Proof.
  pose proof (PhoneFacts.dropLeadingZeros_digits _ (PhoneFacts.digitsOnly_digits phone)) as D.
  split; [|split].
  - intros destination. unfold Phone.formattedPhone, Phone.cleanPhone.
    destruct (nonEmpty phone); cbn [negb]; [|discriminate].
    destruct (prefix "91" (Phone.dropLeadingZeros (Phone.digitsOnly phone))) eqn:P.
    + destruct (Nat.eqb_spec (String.length (Phone.dropLeadingZeros (Phone.digitsOnly phone))) 12)
        as [L | L]; cbn [negb]; [|discriminate].
      intros [= <-].
      destruct (PhoneFacts2.stored_shape _ D L P) as (V & _).
      repeat split; assumption.
    + destruct (Nat.eqb_spec
                  (String.length ("91" ++ Phone.dropLeadingZeros (Phone.digitsOnly phone))) 12)
        as [L | L]; cbn [negb]; [|discriminate].
      intros [= <-].
      destruct (PhoneFacts2.stored_shape _ (PhoneFacts2.allChars_91 _ D) L
                  (PhoneFacts.prefix91_append _)) as (V & _).
      split; [exact L|]. split; [apply PhoneFacts.prefix91_append|].
      split; [apply (PhoneFacts2.allChars_91 _ D) | exact V].
  - intros V. apply PhoneFacts.isValidPhoneNumber_spec in V as [L P].
    unfold Phone.formattedPhone, Phone.cleanPhone.
    rewrite PhoneFacts2.nonEmpty_length
      by (pose proof (PhoneFacts2.digitsOnly_length phone); lia).
    now rewrite (PhoneFacts.dropLeadingZeros_91 _ P), P, L.
  - intros L. unfold Phone.formattedPhone, Phone.cleanPhone.
    rewrite PhoneFacts2.nonEmpty_length
      by (pose proof (PhoneFacts2.digitsOnly_length phone);
          pose proof (PhoneFacts.dropLeadingZeros_length (Phone.digitsOnly phone)); lia).
    destruct (prefix "91" (Phone.dropLeadingZeros (Phone.digitsOnly phone))).
    + now rewrite L.
    + now rewrite PhoneFacts.length_append, L.
Qed.

Lemma sendWhatsAppReminder_destination_witness :
  Phone.formattedPhone "09876 543210" = Some "919876543210"
  /\ Phone.formattedPhone "9198765432" = None
  /\ Phone.isValidPhoneNumber "919876543210" = true.
Proof.
  destruct (sendWhatsAppReminder_destination "09876 543210") as (H1 & _ & H3).
  destruct (sendWhatsAppReminder_destination "9198765432") as (_ & _ & H3').
  split; [apply H3; reflexivity|]. split; [apply H3'; reflexivity|].
  apply (H1 "919876543210"). reflexivity.
Defined.

(** X4.  The phone number [POST /api/send-whatsapp-otp] stores for a new
    user is one the rest of the server takes as it is: [isValidPhoneNumber]
    accepts it, [sendWhatsAppReminder] sends to it unchanged,
    [formatPhoneNumber] gives it with a [+] in front, and
    [POST /api/find-user-by-phone] looks it up unchanged. *)
Theorem otp_stored_phone (phone stored : string) :
  Phone.otpFormattedPhone phone = Some stored ->
  Phone.isValidPhoneNumber stored = true
  /\ Phone.formattedPhone stored = Some stored
  /\ Phone.formatPhoneNumber stored = inr ("+" ++ stored)
  /\ Phone.findUserPhone stored = stored.
Proof.
  unfold Phone.otpFormattedPhone. destruct (nonEmpty phone); cbn [negb]; [|discriminate].
  pose proof (PhoneFacts.dropLeadingZeros_digits _ (PhoneFacts.digitsOnly_digits phone)) as D.
  destruct (Nat.ltb_spec (String.length (Phone.dropLeadingZeros (Phone.digitsOnly phone))) 10)
    as [L | L]; [discriminate|].
  intros [= <-]. apply PhoneFacts2.stored_shape.
  - apply PhoneFacts2.allChars_91. now apply PhoneFacts.substringFrom_digits.
  - cbn [append String.length]. unfold Phone.sliceLast.
    rewrite PhoneFacts.substringFrom_length. lia.
  - apply PhoneFacts.prefix91_append.
Qed.

Lemma otp_stored_phone_witness :
  Phone.isValidPhoneNumber "919876543210" = true
  /\ Phone.formattedPhone "919876543210" = Some "919876543210"
  /\ Phone.formatPhoneNumber "919876543210" = inr "+919876543210"
  /\ Phone.findUserPhone "919876543210" = "919876543210".
Proof.
  apply (otp_stored_phone "+91 98765-43210" "919876543210"). reflexivity.
Defined.

(** X5.  Registration and verification meet: when the phone number given
    to [POST /api/send-whatsapp-otp] has ten digits, or eleven with a
    leading zero, or twelve with the country code 91, the number stored for
    the new user is among the numbers [POST /api/verify-whatsapp-otp] looks
    up for the same input. *)
Theorem otp_verification_finds_stored_phone (phone stored : string) :
  Phone.otpFormattedPhone phone = Some stored ->
  String.length (Phone.digitsOnly phone) = 10%nat
  \/ (String.length (Phone.digitsOnly phone) = 11%nat
      /\ prefix "0" (Phone.digitsOnly phone) = true)
  \/ (String.length (Phone.digitsOnly phone) = 12%nat
      /\ prefix "91" (Phone.digitsOnly phone) = true) ->
  In stored (Phone.verifyCandidates phone).
Proof.
  unfold Phone.otpFormattedPhone. destruct (nonEmpty phone); cbn [negb]; [|discriminate].
  destruct (Nat.ltb_spec (String.length (Phone.dropLeadingZeros (Phone.digitsOnly phone))) 10)
    as [L | L]; [discriminate|].
  intros [= <-] Shape. left.
  unfold Phone.verifyNormalizedPhone, Phone.sliceLast.
  pose proof (PhoneFacts.dropLeadingZeros_length (Phone.digitsOnly phone)) as Le.
  destruct Shape as [L10 | [[L11 P0] | [L12 P91]]].
  - rewrite L10. cbn [Nat.eqb].
    rewrite (PhoneFacts2.dropLeadingZeros_same (Phone.digitsOnly phone)) by lia.
    rewrite L10. cbn [Nat.sub]. now rewrite PhoneFacts.substringFrom_0.
  - rewrite L11, P0. cbn [Nat.eqb].
    pose proof (PhoneFacts.substringFrom_length 1 (Phone.digitsOnly phone)) as L1.
    pose proof (PhoneFacts.dropLeadingZeros_length
                  (Phone.substringFrom 1 (Phone.digitsOnly phone))) as Le1.
    assert (E : Phone.dropLeadingZeros (Phone.digitsOnly phone)
                = Phone.dropLeadingZeros (Phone.substringFrom 1 (Phone.digitsOnly phone)))
      by (rewrite (PhoneFacts2.prefix0 _ P0) at 1; reflexivity).
    rewrite E in L |- *.
    rewrite (PhoneFacts2.dropLeadingZeros_same
               (Phone.substringFrom 1 (Phone.digitsOnly phone))) by lia.
    rewrite L1, L11. cbn [Nat.sub]. now rewrite PhoneFacts.substringFrom_0.
  - rewrite L12, (PhoneFacts2.prefix0_91 _ P91). cbn [Nat.eqb].
    rewrite (PhoneFacts.dropLeadingZeros_91 _ P91), L12. cbn [Nat.sub].
    exact (PhoneFacts.prefix91 _ P91).
Qed.

Lemma otp_verification_finds_stored_phone_witness :
  In "919876543210" (Phone.verifyCandidates "098765 43210").
Proof.
  apply (otp_verification_finds_stored_phone "098765 43210" "919876543210").
  - reflexivity.
  - right. left. split; reflexivity.
Defined.

(** X6.  The phone checks of [POST /api/schedule] and
    [GET /api/schedule/clear].  The second check, with [isValidPhoneNumber],
    never fails: ten digits with 91 in front are always in the format.  An
    accepted number is 91 followed by the ten digits given.  A number
    already in the stored format, twelve digits with the country code, is
    refused for not having exactly ten digits. *)
Theorem schedule_route_phone_check (phone : string) :
  Phone.schedulePhone phone <> Phone.NotInFormat
  /\ (forall accepted,
         Phone.schedulePhone phone = Phone.PhoneAccepted accepted ->
         accepted = "91" ++ Phone.dropLeadingZeros (Phone.digitsOnly phone)
         /\ Phone.isValidPhoneNumber accepted = true)
  /\ (Phone.isValidPhoneNumber phone = true ->
      Phone.schedulePhone phone = Phone.NotTenDigits).
Proof.
  pose proof (PhoneFacts.dropLeadingZeros_digits _ (PhoneFacts.digitsOnly_digits phone)) as D.
  assert (V : String.length (Phone.dropLeadingZeros (Phone.digitsOnly phone)) = 10%nat ->
              Phone.isValidPhoneNumber
                ("91" ++ Phone.dropLeadingZeros (Phone.digitsOnly phone)) = true).
  { intros L. apply PhoneFacts2.stored_shape.
    - now apply PhoneFacts2.allChars_91.
    - now rewrite PhoneFacts.length_append, L.
    - apply PhoneFacts.prefix91_append. }
  unfold Phone.schedulePhone.
  destruct (Nat.eqb_spec (String.length (Phone.dropLeadingZeros (Phone.digitsOnly phone))) 10)
    as [L | L]; cbn [negb].
  - rewrite (V L). cbn [negb]. split; [discriminate|]. split.
    + intros accepted [= <-]. split; [reflexivity | exact (V L)].
    + intros Valid. apply PhoneFacts.isValidPhoneNumber_spec in Valid as [L12 P].
      rewrite (PhoneFacts.dropLeadingZeros_91 _ P) in L. lia.
  - split; [discriminate|]. split; [discriminate | reflexivity].
Qed.

Lemma schedule_route_phone_check_witness :
  Phone.schedulePhone "919876543210" = Phone.NotTenDigits
  /\ Phone.isValidPhoneNumber "919876543210" = true.
Proof.
  destruct (schedule_route_phone_check "919876543210") as (_ & _ & H).
  destruct (schedule_route_phone_check "98765 43210") as (_ & H2 & _).
  split; [apply H; reflexivity|].
  apply (H2 "919876543210"). reflexivity.
Defined.

(** ** Trimming *)

Module TrimFacts.

Lemma trimStart_startsBlack s : startsBlack (trimStart s) = true.
Proof.
  induction s as [|c s IH]; [reflexivity|].
  cbn [trimStart]. destruct (isWhiteSpace c) eqn:W; [exact IH|].
  cbn. now rewrite W.
Qed.

Lemma trimStart_fixed s : startsBlack s = true -> trimStart s = s.
Proof.
  destruct s as [|c s]; [reflexivity|]. cbn. intros H.
  apply negb_true_iff in H. now rewrite H.
Qed.

Lemma trimEnd_startsBlack s : startsBlack s = true -> startsBlack (trimEnd s) = true.
Proof.
  destruct s as [|c s]; [reflexivity|]. cbn [trimEnd startsBlack]. intros H.
  destruct (trimEnd s); [|exact H].
  apply negb_true_iff in H. rewrite H. cbn. now rewrite H.
Qed.

Lemma trimEnd_idempotent s : trimEnd (trimEnd s) = trimEnd s.
Proof.
  induction s as [|c s IH]; [reflexivity|].
  cbn [trimEnd]. destruct (trimEnd s) as [|d t] eqn:E.
  - destruct (isWhiteSpace c) eqn:W; [reflexivity|]. cbn. now rewrite W.
  - cbn [trimEnd]. cbn [trimEnd] in IH. rewrite IH. reflexivity.
Qed.

Lemma trim_idempotent s : trim (trim s) = trim s.
Proof.
  unfold trim.
  rewrite (trimStart_fixed (trimEnd (trimStart s))).
  - apply trimEnd_idempotent.
  - apply trimEnd_startsBlack, trimStart_startsBlack.
Qed.

End TrimFacts.

(** ** The schedule [POST /api/schedule] stores *)

Lemma toStr_throws : forall v e, toStr v = Throw e -> e = TypeError.
Proof.
  fix IH 1. intros v e. destruct v as [ | | b | n | s | items | fields]; cbn [toStr];
    try discriminate.
  - induction items as [|x rest IHrest]; [discriminate|].
    assert (Hx : forall e', (match x with JUndef | JNull => Ok EmptyString | _ => toStr x end)
                            = Throw e' -> e' = TypeError).
    { intros e'. pose proof (IH x e') as Hx. destruct x; try discriminate; exact Hx. }
    destruct (match x with JUndef | JNull => Ok EmptyString | _ => toStr x end)
      as [sx | e' | ]; cbn [bind].
    + destruct rest as [|y rest']; [discriminate|].
      match goal with |- bind ?j _ = _ -> _ => destruct j as [sr | e' | ] end;
        cbn [bind]; [discriminate | | discriminate].
      intros [= <-]. now apply IHrest.
    + intros [= <-]. now apply Hx.
    + discriminate.
  - destruct (hasKey "toString" fields); [|discriminate]. now intros [= <-].
Qed.

Module SaveScheduleFacts.
Import SaveSchedule.

Lemma cleanText_cases v :
  (exists s, cleanText v = Ok s /\ trim s = s) \/ cleanText v = Throw TypeError.
Proof.
  unfold cleanText.
  pose proof (toStr_defined (orElse v (JStr EmptyString))) as D.
  pose proof (toStr_throws (orElse v (JStr EmptyString))) as T.
  destruct (toStr (orElse v (JStr EmptyString))) as [s | e | ]; cbn [bind].
  - left. exists (trim s). split; [reflexivity | apply TrimFacts.trim_idempotent].
  - right. now rewrite (T e eq_refl).
  - contradiction.
Qed.

Lemma cleanText_scalar v : isScalar v = true -> exists s, cleanText v = Ok s.
Proof.
  unfold cleanText, orElse.
  destruct v as [ | | b | n | s | items | fields]; try discriminate;
    intros _; cbn [truthy];
    repeat match goal with
           | |- context [if ?c then _ else _] => destruct c
           end; cbn [toStr bind]; eexists; reflexivity.
Qed.

Lemma cleanText_trimmed h : trim h = h -> cleanText (JStr h) = Ok h.
Proof.
  intros H. unfold cleanText, orElse. cbn [truthy].
  destruct h as [|c h]; [reflexivity|]. cbn [nonEmpty toStr bind]. now rewrite H.
Qed.

Lemma mapM_cases {A B} (f : A -> result B) (P : B -> Prop) l :
  (forall x, In x l -> (exists y, f x = Ok y /\ P y) \/ f x = Throw TypeError) ->
  (exists ys, mapM f l = Ok ys /\ Forall P ys /\ List.length ys = List.length l)
  \/ mapM f l = Throw TypeError.
Proof.
  induction l as [|x l IH]; intros H.
  - left. exists []. repeat split. constructor.
  - cbn [mapM]. destruct (H x (or_introl eq_refl)) as [(y & -> & Py) | ->];
      [|now right].
    cbn [bind]. destruct IH as [(ys & -> & Pys & L) | ->].
    + intros z Hz. apply H. now right.
    + left. exists (y :: ys). cbn [bind List.length]. repeat split; [|now rewrite L].
      now constructor.
    + now right.
Qed.

Lemma mapM_ok {A B} (f : A -> result B) l :
  (forall x, In x l -> exists y, f x = Ok y) -> exists ys, mapM f l = Ok ys.
Proof.
  induction l as [|x l IH]; intros H; [now exists []|].
  cbn [mapM]. destruct (H x (or_introl eq_refl)) as (y & ->).
  destruct IH as (ys & ->); [intros z Hz; apply H; now right|].
  now exists (y :: ys).
Qed.

Lemma flatMapM_cases {A B} (f : A -> result (list B)) (P : B -> Prop) l :
  (forall x, In x l -> (exists ys, f x = Ok ys /\ Forall P ys) \/ f x = Throw TypeError) ->
  (exists ys, flatMapM f l = Ok ys /\ Forall P ys) \/ flatMapM f l = Throw TypeError.
Proof.
  induction l as [|x l IH]; intros H.
  - left. exists []. split; [reflexivity | constructor].
  - cbn [flatMapM]. destruct (H x (or_introl eq_refl)) as [(ys & -> & Pys) | ->];
      [|now right].
    cbn [bind]. destruct IH as [(more & -> & Pmore) | ->].
    + intros z Hz. apply H. now right.
    + left. exists (ys ++ more)%list. split; [reflexivity|].
      apply Forall_app. now split.
    + now right.
Qed.

Lemma flatMapM_app {A B} (f : A -> result (list B)) l1 l2 :
  flatMapM f (l1 ++ l2)
  = (a <- flatMapM f l1 ;; b <- flatMapM f l2 ;; Ok (a ++ b)%list).
Proof.
  induction l1 as [|x l1 IH]; cbn [flatMapM app bind].
  - destruct (flatMapM f l2); reflexivity.
  - destruct (f x) as [ys | e | ]; cbn [bind]; try reflexivity.
    rewrite IH. destruct (flatMapM f l1) as [a | e | ]; cbn [bind]; try reflexivity.
    destruct (flatMapM f l2) as [b | e | ]; cbn [bind]; try reflexivity.
    now rewrite app_assoc.
Qed.

Lemma flatMapM_nothing {A B} (f : A -> result (list B)) l :
  (forall x, In x l -> f x = Ok []) -> flatMapM f l = Ok [].
Proof.
  induction l as [|x l IH]; intros H; [reflexivity|].
  cbn [flatMapM]. rewrite (H x (or_introl eq_refl)). cbn [bind].
  rewrite IH by (intros z Hz; apply H; now right). reflexivity.
Qed.

Lemma days_nonEmpty d : In d days -> nonEmpty d = true.
Proof. intros H. repeat (destruct H as [<- | H]; [reflexivity|]). destruct H. Qed.

Lemma days_dayOfKey d :
  In d days -> exists w, ScheduleTasks.dayOfKey (capitalize d) = Some w
                         /\ ScheduleTasks.dayOfKey d = Some w.
Proof.
  intros H. repeat (destruct H as [<- | H]; [eexists; split; reflexivity|]). destruct H.
Qed.

Lemma cellEntry_cases headers d cell :
  In d days ->
  (exists e, cellEntry headers d cell = Ok e
             /\ (nonEmpty (task e) = true -> wellFormedEntry headers e))
  \/ cellEntry headers d cell = Throw TypeError.
Proof.
  intros Hd. destruct cell as [colIndex v]. unfold cellEntry.
  destruct (cleanText_cases v) as [(s & -> & Ts) | ->]; [|now right].
  left. eexists. split; [reflexivity|]. cbn [task]. intros Hs.
  repeat split; cbn [day task time]; try assumption.
  destruct (nth_in_or_default colIndex headers EmptyString) as [Hin | ->];
    [now right | now left].
Qed.

Lemma rowEntries_cases headers entry :
  (exists es, rowEntries headers entry = Ok es /\ Forall (wellFormedEntry headers) es)
  \/ rowEntries headers entry = Throw TypeError.
Proof.
  destruct entry as [rowIndex row]. unfold rowEntries.
  destruct (nth_error days rowIndex) as [d|] eqn:Ed;
    [|left; exists []; split; [reflexivity | constructor]].
  apply nth_error_In in Ed.
  destruct row as [ | | b | n | s | cells | fields]; try now right.
  destruct (mapM_cases (cellEntry headers d)
              (fun e => nonEmpty (task e) = true -> wellFormedEntry headers e)
              (indexed cells)) as [(items & -> & Pitems & _) | ->].
  - intros cell _. now apply cellEntry_cases.
  - left. eexists. split; [reflexivity|].
    apply Forall_forall. intros e He. apply filter_In in He as [He Hne].
    rewrite Forall_forall in Pitems. now apply Pitems.
  - now right.
Qed.

Lemma transformedHeaders_cases schedule :
  truthy schedule = true ->
  (exists hs, transformedHeaders schedule = Ok hs /\ Forall (fun h => trim h = h) hs)
  \/ transformedHeaders schedule = Throw TypeError.
Proof.
  intros T. unfold transformedHeaders.
  assert (G : exists h, getField schedule "headers" = Ok h)
    by (destruct schedule; try discriminate; eexists; reflexivity).
  destruct G as (h & ->). cbn [bind].
  destruct h as [ | | b | n | s | items | fields];
    try (left; exists []; split; [reflexivity | constructor]).
  destruct (mapM_cases cleanText (fun h => trim h = h) items) as [(hs & -> & P & _) | ->].
  - intros v _. apply cleanText_cases.
  - left. now exists hs.
  - now right.
Qed.

Lemma transformedRows_cases headers schedule :
  truthy schedule = true ->
  (exists es, transformedRows headers schedule = Ok es
              /\ Forall (wellFormedEntry headers) es)
  \/ transformedRows headers schedule = Throw TypeError.
Proof.
  intros T. unfold transformedRows.
  assert (G : exists r, getField schedule "rows" = Ok r)
    by (destruct schedule; try discriminate; eexists; reflexivity).
  destruct G as (r & ->). cbn [bind].
  destruct r as [ | | b | n | s | items | fields];
    try (left; exists []; split; [reflexivity | constructor]).
  apply flatMapM_cases. intros entry _. apply rowEntries_cases.
Qed.

(** The outcome of the transformation: the answer 400, a stored schedule
    with well-formed headers and rows, or a TypeError. *)
Lemma transformedSchedule_cases schedule :
  transformedSchedule schedule = Ok None
  \/ (exists hs es, transformedSchedule schedule = Ok (Some (scheduleValue hs es))
                    /\ Forall (fun h => trim h = h) hs
                    /\ Forall (wellFormedEntry hs) es)
  \/ transformedSchedule schedule = Throw TypeError.
Proof.
  unfold transformedSchedule. destruct (truthy schedule) eqn:T; cbn [negb]; [|now left].
  right. destruct (transformedHeaders_cases schedule T) as [(hs & -> & Phs) | ->];
    [|now right].
  cbn [bind]. destruct (transformedRows_cases hs schedule T) as [(es & -> & Pes) | ->];
    [|now right].
  left. now exists hs, es.
Qed.

Lemma transformedSchedule_stored schedule stored :
  transformedSchedule schedule = Ok (Some stored) ->
  exists hs es, stored = scheduleValue hs es
                /\ Forall (fun h => trim h = h) hs
                /\ Forall (wellFormedEntry hs) es.
Proof.
  intros H. destruct (transformedSchedule_cases schedule)
    as [E | [(hs & es & E & P) | E]]; rewrite E in H; try discriminate.
  injection H as <-. now exists hs, es.
Qed.

End SaveScheduleFacts.

(** X7.  What [POST /api/schedule] stores.  Whatever the request holds,
    the stored schedule has headers that are trimmed strings, and rows that
    are records of a day of the week, a task that is not empty and is
    trimmed, and a time that is one of the stored headers or the empty
    string. *)
Theorem transformedSchedule_well_formed (schedule stored : jsval) :
  SaveSchedule.transformedSchedule schedule = Ok (Some stored) ->
  exists headers rows,
    stored = SaveSchedule.scheduleValue headers rows
    /\ Forall (fun h => trim h = h) headers
    /\ Forall (wellFormedEntry headers) rows.
Proof. apply SaveScheduleFacts.transformedSchedule_stored. Qed.

Lemma transformedSchedule_well_formed_witness :
  exists headers rows,
    JObj [("headers", JArr [JStr "9:00 AM"]);
          ("rows", JArr [JObj [("day", JStr "Monday"); ("time", JStr "9:00 AM");
                               ("task", JStr "Gym")];
                         JObj [("day", JStr "Tuesday"); ("time", JStr EmptyString);
                               ("task", JStr "7")]])]
    = SaveSchedule.scheduleValue headers rows
    /\ Forall (fun h => trim h = h) headers
    /\ Forall (wellFormedEntry headers) rows.
Proof.
  apply (transformedSchedule_well_formed
           (JObj [("headers", JArr [JStr " 9:00 AM "]);
                  ("rows", JArr [JArr [JStr " Gym "; JStr "  "];
                                 JArr [JNull; JNum 7]])])).
  reflexivity.
Defined.

Module SaveScheduleFacts2.
Import SaveSchedule SaveScheduleFacts.

Lemma combine_append {A B} (a b : list A) (c d : list B) :
  List.length a = List.length c ->
  combine (a ++ b) (c ++ d) = (combine a c ++ combine b d)%list.
Proof.
  revert c. induction a as [|x a IH]; intros [|y c] H; try discriminate; [reflexivity|].
  cbn [app combine]. rewrite IH by (cbn in H; lia). reflexivity.
Qed.

Lemma indexed_from {A} (l1 l2 : list A) :
  indexed (l1 ++ l2) = (indexed l1 ++ combine (seq (List.length l1) (List.length l2)) l2)%list.
Proof.
  unfold indexed. rewrite length_app, seq_app. cbn [Nat.add].
  rewrite combine_append by now rewrite length_seq. reflexivity.
Qed.

Lemma rowEntries_beyond headers i row :
  (7 <= i)%nat -> rowEntries headers (i, row) = Ok [].
Proof.
  intros H. unfold rowEntries.
  destruct (nth_error days i) eqn:E; [|reflexivity].
  assert (B : (i < List.length days)%nat) by (apply nth_error_Some; congruence).
  cbn in B. lia.
Qed.

Lemma rows_beyond_seven headers rows extra :
  List.length rows = 7%nat ->
  flatMapM (rowEntries headers) (indexed (rows ++ extra))
  = flatMapM (rowEntries headers) (indexed rows).
Proof.
  intros L. rewrite indexed_from, flatMapM_app.
  rewrite (flatMapM_nothing _ (combine (seq (List.length rows) (List.length extra)) extra)).
  - destruct (flatMapM (rowEntries headers) (indexed rows)) as [a | e | ]; cbn [bind];
      try reflexivity. now rewrite app_nil_r.
  - intros [i row] Hin. apply in_combine_l in Hin. apply in_seq in Hin.
    apply rowEntries_beyond. lia.
Qed.

End SaveScheduleFacts2.

(** X8.  [POST /api/schedule] reads seven rows, Monday to Sunday.  Rows
    after the seventh add nothing to the stored schedule and are not looked
    at: the outcome is the same as for the request without them, whatever
    they are. *)
Theorem transformedSchedule_seven_rows (fields shorter : list (string * jsval))
        (rows extra : list jsval) :
  lookup "headers" shorter = lookup "headers" fields ->
  lookup "rows" fields = JArr (rows ++ extra) ->
  lookup "rows" shorter = JArr rows ->
  List.length rows = 7%nat ->
  SaveSchedule.transformedSchedule (JObj fields)
  = SaveSchedule.transformedSchedule (JObj shorter).
Proof.
  intros H R R' L. unfold SaveSchedule.transformedSchedule. cbn [truthy negb].
  unfold SaveSchedule.transformedHeaders, SaveSchedule.transformedRows. cbn [getField bind].
  rewrite H, R, R'.
  destruct (match lookup "headers" fields with
            | JArr items => SaveSchedule.mapM SaveSchedule.cleanText items
            | _ => Ok []
            end) as [hs | e | ]; cbn [bind]; try reflexivity.
  now rewrite (SaveScheduleFacts2.rows_beyond_seven hs rows extra L).
Qed.

Lemma transformedSchedule_seven_rows_witness :
  SaveSchedule.transformedSchedule
    (JObj [("headers", JArr [JStr "9:00"]);
           ("rows", JArr [JArr [JStr "a"]; JArr []; JArr []; JArr []; JArr []; JArr [];
                          JArr [JStr "g"]; JArr [JStr "h"]; JNull])])
  = SaveSchedule.transformedSchedule
      (JObj [("headers", JArr [JStr "9:00"]);
             ("rows", JArr [JArr [JStr "a"]; JArr []; JArr []; JArr []; JArr []; JArr [];
                            JArr [JStr "g"]])]).
Proof.
  apply (transformedSchedule_seven_rows _ _
           [JArr [JStr "a"]; JArr []; JArr []; JArr []; JArr []; JArr []; JArr [JStr "g"]]
           [JArr [JStr "h"]; JNull]); reflexivity.
Defined.

Module SaveScheduleFacts3.
Import SaveSchedule SaveScheduleFacts SaveScheduleFacts2.

Lemma flatMapM_ok {A B} (f : A -> result (list B)) l :
  (forall x, In x l -> exists ys, f x = Ok ys) -> exists ys, flatMapM f l = Ok ys.
Proof.
  induction l as [|x l IH]; intros H; [now exists []|].
  cbn [flatMapM]. destruct (H x (or_introl eq_refl)) as (ys & ->).
  destruct IH as (more & ->); [intros z Hz; apply H; now right|].
  now exists (ys ++ more)%list.
Qed.

Lemma rowEntries_scalar headers i row :
  isScalarRow row = true -> exists es, rowEntries headers (i, row) = Ok es.
Proof.
  intros S. unfold rowEntries. destruct (nth_error days i) as [d|]; [|now exists []].
  destruct row as [ | | b | n | s | cells | fields]; try discriminate.
  cbn [isScalarRow] in S. rewrite forallb_forall in S.
  destruct (mapM_ok (cellEntry headers d) (indexed cells)) as (items & ->).
  - intros [colIndex v] Hin. apply in_combine_r in Hin. unfold cellEntry.
    destruct (cleanText_scalar v (S v Hin)) as (s & ->). eexists. reflexivity.
  - eexists. reflexivity.
Qed.

Lemma scalar_rows_ok headers rows :
  forallb isScalarRow (firstn 7 rows) = true ->
  exists es, flatMapM (rowEntries headers) (indexed rows) = Ok es.
Proof.
  intros S.
  assert (G : exists es, flatMapM (rowEntries headers) (indexed (firstn 7 rows)) = Ok es).
  { apply flatMapM_ok. intros [i row] Hin. apply in_combine_r in Hin.
    rewrite forallb_forall in S. now apply rowEntries_scalar, S. }
  destruct (Nat.le_gt_cases 7 (List.length rows)) as [L | L].
  - destruct G as (es & G). exists es. rewrite <- G.
    rewrite <- (rows_beyond_seven headers (firstn 7 rows) (skipn 7 rows))
      by (rewrite length_firstn; lia).
    now rewrite firstn_skipn.
  - now rewrite firstn_all2 in G by lia.
Qed.

Lemma bad_row_throws headers before bad after :
  (List.length before < 7)%nat -> isArray bad = false ->
  flatMapM (rowEntries headers) (indexed (before ++ bad :: after)) = Throw TypeError.
Proof.
  intros L B. rewrite indexed_from, flatMapM_app.
  assert (E : rowEntries headers (List.length before, bad) = Throw TypeError).
  { unfold rowEntries. destruct (nth_error days (List.length before)) eqn:Ed.
    - destruct bad; try reflexivity. discriminate.
    - apply nth_error_None in Ed. cbn in Ed. lia. }
  destruct (flatMapM_cases (rowEntries headers) (fun _ => True) (indexed before))
    as [(es & -> & _) | ->].
  - intros entry _. destruct (rowEntries_cases headers entry) as [(es & -> & _) | ->];
      [left; exists es; split; [reflexivity | now apply Forall_forall] | now right].
  - cbn [bind List.length seq combine flatMapM]. now rewrite E.
  - reflexivity.
Qed.

End SaveScheduleFacts3.

(** X9.  How [POST /api/schedule] can fail on its schedule.  The
    transformation ends in one of three ways: the answer 400, exactly when
    the schedule of the request is missing or falsy; a stored schedule; or
    a TypeError, which the route answers with 500.  When one of the first
    seven rows is not an array, it is the TypeError, and nothing is stored.
    When the headers and the cells of the first seven rows are strings,
    numbers, booleans or null, a schedule is stored. *)
Theorem transformedSchedule_outcomes :
  (forall schedule,
      SaveSchedule.transformedSchedule schedule = Ok None <-> truthy schedule = false)
  /\ (forall schedule e,
         SaveSchedule.transformedSchedule schedule = Throw e -> e = TypeError)
  /\ (forall schedule, SaveSchedule.transformedSchedule schedule <> Beyond)
  /\ (forall fields headers before bad after,
         SaveSchedule.transformedHeaders (JObj fields) = Ok headers ->
         lookup "rows" fields = JArr (before ++ bad :: after) ->
         (List.length before < 7)%nat -> isArray bad = false ->
         SaveSchedule.transformedSchedule (JObj fields) = Throw TypeError)
  /\ (forall fields headers rows,
         lookup "headers" fields = JArr headers -> lookup "rows" fields = JArr rows ->
         forallb SaveSchedule.isScalar headers = true ->
         forallb SaveSchedule.isScalarRow (firstn 7 rows) = true ->
         exists stored, SaveSchedule.transformedSchedule (JObj fields) = Ok (Some stored)).
Proof.
  split; [|split; [|split; [|split]]].
  - intros schedule. unfold SaveSchedule.transformedSchedule.
    destruct (truthy schedule); cbn [negb]; [|now split].
    split; [|discriminate].
    destruct (SaveSchedule.transformedHeaders schedule) as [hs | e | ]; cbn [bind];
      try discriminate.
    destruct (SaveSchedule.transformedRows hs schedule); discriminate.
  - intros schedule e. destruct (SaveScheduleFacts.transformedSchedule_cases schedule)
      as [E | [(hs & es & E & _) | E]]; rewrite E; congruence.
  - intros schedule. destruct (SaveScheduleFacts.transformedSchedule_cases schedule)
      as [E | [(hs & es & E & _) | E]]; rewrite E; discriminate.
  - intros fields headers before bad after H R L B.
    unfold SaveSchedule.transformedSchedule. cbn [truthy negb]. rewrite H. cbn [bind].
    unfold SaveSchedule.transformedRows. cbn [getField bind]. rewrite R.
    now rewrite (SaveScheduleFacts3.bad_row_throws headers before bad after L B).
  - intros fields headers rows H R Sh Sr.
    unfold SaveSchedule.transformedSchedule, SaveSchedule.transformedHeaders,
      SaveSchedule.transformedRows. cbn [truthy negb getField bind]. rewrite H, R.
    destruct (SaveScheduleFacts.mapM_ok SaveSchedule.cleanText headers) as (hs & ->).
    { intros v Hv. rewrite forallb_forall in Sh.
      apply SaveScheduleFacts.cleanText_scalar. now apply Sh. }
    cbn [bind].
    destruct (SaveScheduleFacts3.scalar_rows_ok hs rows Sr) as (es & ->).
    eexists. reflexivity.
Qed.

Lemma transformedSchedule_outcomes_witness :
  SaveSchedule.transformedSchedule
    (JObj [("headers", JArr [JStr "9:00"]); ("rows", JArr [JArr [JStr "a"]; JStr "b"])])
  = Throw TypeError
  /\ exists stored,
      SaveSchedule.transformedSchedule
        (JObj [("headers", JArr [JStr "9:00"; JNull]);
               ("rows", JArr [JArr [JStr "a"; JNum 2]; JArr [JBool true]])])
      = Ok (Some stored).
Proof.
  destruct transformedSchedule_outcomes as (_ & _ & _ & H1 & H2). split.
  - apply (H1 _ ["9:00"] [JArr [JStr "a"]] (JStr "b") []); try reflexivity. cbn. lia.
  - apply (H2 _ [JStr "9:00"; JNull] [JArr [JStr "a"; JNum 2]; JArr [JBool true]]);
      reflexivity.
Defined.

(** ** Stored schedules and the routes and the job that read them *)

Section LoopReminders.

Variable send : option string -> string -> bool.
Variable clock : Clock.

(** A call of the sender in a run of the dispatch loop is a call of the
    round of one of its users. *)
Lemma dispatchLoop_reminders_in us r :
  In r (reminders (fst (dispatchLoop send clock us))) ->
  exists u, In u us /\ In r (reminders (fst (processUser send clock u))).
Proof.
  induction us as [|u us IH]; [intros []|].
  destruct (processUser_cases send clock u) as [[tr E] | [tr E]].
  - rewrite (dispatchLoop_cons send clock u us tr E). cbn [fst].
    rewrite reminders_app. intros H. apply in_app_or in H as [H | H].
    + exists u. split; [now left | now rewrite E].
    + destruct (IH H) as (v & Hv & Hr). exists v. split; [now right | exact Hr].
  - unfold dispatchLoop. cbn [forOf]. unfold andThen. rewrite E. cbn [fst].
    intros H. exists u. split; [now left | now rewrite E].
Qed.

(** A call of the sender in a run of the job is a call of the round of a
    user the job found eligible. *)
Lemma reminderJob_reminders_in allUsers r :
  In r (reminders (fst (reminderJob send clock allUsers))) ->
  exists u, In u allUsers /\ hasPhone u = true /\ isVerified u = true
            /\ whatsappEnabled u = true
            /\ In r (reminders (fst (processUser send clock u))).
Proof.
  destruct (reminderJob_cases send clock allUsers) as [(users & E & ->) | [-> | (e & ->)]].
  - intros H. apply dispatchLoop_reminders_in in H as (u & Hu & Hr).
    apply (eligibleUsers_In _ _ E) in Hu as (Hin & P & V & W & _).
    exists u. repeat split; assumption.
  - intros [].
  - intros [].
Qed.

End LoopReminders.

Module SavedFacts.
Import SaveSchedule SaveScheduleFacts.

Lemma saved_shape u :
  savedByRoute u ->
  exists hs es, schedule u = scheduleValue hs es
                /\ Forall (fun h => trim h = h) hs
                /\ Forall (wellFormedEntry hs) es
                /\ workingSchedule u = scheduleValue hs es.
Proof.
  intros (W & request & H).
  destruct (transformedSchedule_stored _ _ H) as (hs & es & E & Phs & Pes).
  exists hs, es. repeat split; try assumption.
  unfold workingSchedule, orElse. now rewrite W.
Qed.

Lemma saved_processUser send clock u :
  savedByRoute u ->
  reminders (fst (processUser send clock u)) = []
  /\ snd (processUser send clock u) = Ok tt.
Proof.
  intros S. destruct (saved_shape u S) as (hs & es & _ & _ & _ & W).
  destruct es as [|e es].
  - unfold processUser, userBody, beforeSlots, coerceSchedule.
    change (orElse (weeklySchedule u) (schedule u)) with (workingSchedule u).
    rewrite W. now cbn.
  - rewrite (processUser_newFormat send clock u); [now split|].
    unfold newFormatUser. rewrite W. cbn [scheduleValue storedRows lookup String.eqb].
    cbn. apply forallb_forall. intros row Hrow.
    apply in_map_iff in Hrow as (e' & <- & _). reflexivity.
Qed.

Lemma newFormatRow_entry hs e :
  wellFormedEntry hs e ->
  ListSchedule.newFormatRow (entryValue e)
  = Ok match listedEntry e with
       | x :: _ => Some x
       | [] => None
       end.
Proof.
  intros (D & K & _ & _).
  destruct (days_dayOfKey _ D) as (w & Ew & Ew').
  unfold ListSchedule.newFormatRow, isCompleteRow, entryValue, listedEntry.
  cbn [getField lookup String.eqb Ascii.eqb Bool.eqb bind truthy].
  rewrite (days_nonEmpty _ D), K, Ew'.
  destruct (nonEmpty (time e)); [|reflexivity].
  cbn [bind asString toStr]. now rewrite Ew.
Qed.

Lemma collect_entries hs es :
  Forall (wellFormedEntry hs) es ->
  collect ListSchedule.newFormatRow (map entryValue es) = Ok (flat_map listedEntry es).
Proof.
  induction 1 as [|e es He Hes IH]; [reflexivity|].
  cbn [map collect flat_map]. rewrite (newFormatRow_entry hs e He), IH. cbn [bind].
  unfold listedEntry.
  destruct (ScheduleTasks.dayOfKey (day e)); [|reflexivity].
  destruct (nonEmpty (time e)); reflexivity.
Qed.

Lemma mapM_trimmed hs :
  Forall (fun h => trim h = h) hs -> mapM cleanText (map JStr hs) = Ok hs.
Proof.
  induction 1 as [|h hs Hh Hhs IH]; [reflexivity|].
  cbn [map mapM]. rewrite (cleanText_trimmed h Hh), IH. reflexivity.
Qed.

End SavedFacts.

(** X10.  No schedule saved through [POST /api/schedule] ever produces a
    reminder.  For a user document that holds, unchanged, a schedule the
    route computed (and has no [weeklySchedule]), a round of the dispatch
    loop calls the sender for no item, whatever the target time; a run of
    the per-minute job over such users sends nothing. *)
Theorem saved_schedule_never_reminded (send : option string -> string -> bool)
        (clock : Clock) :
  (forall u, savedByRoute u -> reminders (fst (processUser send clock u)) = [])
  /\ (forall allUsers,
         (forall u, In u allUsers -> savedByRoute u) ->
         reminders (fst (reminderJob send clock allUsers)) = []).
Proof.
  split.
  - intros u S. apply (SavedFacts.saved_processUser send clock u S).
  - intros allUsers S.
    destruct (reminders (fst (reminderJob send clock allUsers))) as [|r rest] eqn:E;
      [reflexivity|].
    destruct (reminderJob_reminders_in send clock allUsers r) as (u & Hu & _ & _ & _ & Hr).
    + rewrite E. now left.
    + destruct (SavedFacts.saved_processUser send clock u (S u Hu)) as [N _].
      rewrite N in Hr. destruct Hr.
Qed.

Lemma saved_schedule_never_reminded_witness :
  reminders (fst (reminderJob alwaysSent (mondayAt 9 0) [recordSchedule])) = [].
Proof.
  destruct (saved_schedule_never_reminded alwaysSent (mondayAt 9 0)) as [_ H].
  apply (H [recordSchedule]). intros u [<- | []]. split; [reflexivity|].
  exists (JObj [("headers", JArr [JStr "9:00 AM"]);
                ("rows", JArr [JArr [JStr "Standup"]])]).
  reflexivity.
Defined.

(** X11.  Saving and then listing.  For a user document that holds,
    unchanged, a schedule [POST /api/schedule] computed,
    [GET /api/schedule/tasks] finds exactly the stored rows whose time is
    not empty, each under its day with its time and task, in the stored
    order: a task entered in a column whose header is blank is stored but
    not listed. *)
Theorem saved_schedule_listing (u : User) :
  savedByRoute u ->
  exists headers rows,
    schedule u = SaveSchedule.scheduleValue headers rows
    /\ ListSchedule.scheduleTasks u = Ok (flat_map listedEntry rows).
Proof.
  intros Hs. destruct (SavedFacts.saved_shape u Hs) as (hs & es & E & _ & Pes & W).
  exists hs, es. split; [exact E|].
  unfold ListSchedule.scheduleTasks.
  change (orElse (weeklySchedule u) (schedule u)) with (workingSchedule u).
  rewrite W. cbn [SaveSchedule.scheduleValue truthy negb getField lookup String.eqb
                  Ascii.eqb Bool.eqb bind getLength].
  destruct es as [|e es]; [reflexivity|].
  cbn [map List.length ListSchedule.isZero]. 
  replace (Z.of_nat (S (List.length (map SaveSchedule.entryValue es))) =? 0) with false
    by (symmetry; apply Z.eqb_neq; lia).
  unfold isNewFormat. cbn [truthy getLength bind greaterThanZero List.length].
  replace (0 <? Z.of_nat (S (List.length (map SaveSchedule.entryValue es)))) with true
    by (symmetry; apply Z.ltb_lt; lia).
  cbn [getIndex nth typeofObject SaveSchedule.entryValue hasIn hasKey existsb fst
       String.eqb Ascii.eqb Bool.eqb orb bind].
  exact (SavedFacts.collect_entries hs (e :: es) Pes).
Qed.

Lemma saved_schedule_listing_witness :
  exists headers rows,
    schedule recordSchedule = SaveSchedule.scheduleValue headers rows
    /\ ListSchedule.scheduleTasks recordSchedule = Ok (flat_map listedEntry rows).
Proof.
  apply (saved_schedule_listing recordSchedule). split; [reflexivity|].
  exists (JObj [("headers", JArr [JStr "9:00 AM"]);
                ("rows", JArr [JArr [JStr "Standup"]])]).
  reflexivity.
Defined.

(** X12.  The stored schedule is not a request.  When the schedule
    [POST /api/schedule] computed is sent to the route again, as
    [GET /api/schedule] returns it, the transformation throws a TypeError
    as soon as there is one stored row, since the rows are now records, on
    which [row.map] does not exist; only a schedule without rows is
    transformed to itself. *)
Theorem transformedSchedule_again (schedule stored : jsval) :
  SaveSchedule.transformedSchedule schedule = Ok (Some stored) ->
  SaveSchedule.transformedSchedule stored
  = match getField stored "rows" with
    | Ok (JArr []) => Ok (Some stored)
    | _ => Throw TypeError
    end.
Proof.
  intros H.
  destruct (SaveScheduleFacts.transformedSchedule_stored _ _ H) as (hs & es & -> & Phs & _).
  unfold SaveSchedule.transformedSchedule, SaveSchedule.transformedHeaders,
    SaveSchedule.transformedRows.
  cbn [SaveSchedule.scheduleValue truthy negb getField lookup String.eqb Ascii.eqb
       Bool.eqb bind].
  rewrite (SavedFacts.mapM_trimmed hs Phs). cbn [bind].
  destruct es as [|e es]; reflexivity.
Qed.

Lemma transformedSchedule_again_witness :
  SaveSchedule.transformedSchedule (schedule recordSchedule) = Throw TypeError.
Proof.
  apply (transformedSchedule_again
           (JObj [("headers", JArr [JStr "9:00 AM"]);
                  ("rows", JArr [JArr [JStr "Standup"]])])
           (schedule recordSchedule)).
  reflexivity.
Defined.

(** ** What a run of the job can send *)

Lemma dueItems_text clock u t :
  In t (dueItems clock u) -> nonEmpty t = true /\ trim t = t.
Proof.
  unfold dueItems.
  destruct (beforeSlots clock u) as [[[[daySchedule headers] bound]|] | e | ];
    try (intros []).
  unfold dueTexts. intros H. apply in_flat_map in H as (c & _ & H).
  unfold dueText in H.
  destruct (getIndex headers c) as [[ | | | | s | | ] | | ]; try destruct H.
  destruct (parseTime s) as [[h m]|]; [|destruct H].
  destruct ((h =? targetHour clock) && (m =? targetMinute clock))%bool; [|destruct H].
  unfold cellText in H.
  destruct (callToString (orElse (nth c daySchedule JUndef) (JStr EmptyString)))
    as [x | e | ]; cbn [bind] in H; try destruct H.
  destruct (nonEmpty (trim x)) eqn:N; [|destruct H].
  destruct H as [<- | []]. split; [exact N | apply TrimFacts.trim_idempotent].
Qed.

(** X13.  What a run of the per-minute job can send.  Every call of the
    sender in a run goes to the phone number of a stored user who has a
    phone number that is not blank, is verified and has not switched
    WhatsApp off; its text is a due item of that user, is not empty and has
    no white space around it; and the answer recorded is the answer of the
    sender for that number and text. *)
Theorem reminderJob_sends_only (send : option string -> string -> bool) (clock : Clock)
        (allUsers : list User) (to : option string) (text : string) (success : bool) :
  In (to, text, success) (reminders (fst (reminderJob send clock allUsers))) ->
  exists u,
    In u allUsers /\ to = phone u /\ hasPhone u = true /\ isVerified u = true
    /\ whatsappEnabled u = true /\ In text (dueItems clock u)
    /\ nonEmpty text = true /\ trim text = text /\ success = send to text.
Proof.
  intros H. apply reminderJob_reminders_in in H as (u & Hu & P & V & W & Hr).
  apply reminders_in_due in Hr as (t & E & Ht).
  injection E as -> -> ->. destruct (dueItems_text clock u t Ht) as [N T].
  exists u. repeat split; assumption.
Qed.

Lemma reminderJob_sends_only_witness :
  exists u,
    In u [noSchedule; twoHeadersAtNine] /\ Some "919000000001" = phone u
    /\ hasPhone u = true /\ isVerified u = true /\ whatsappEnabled u = true
    /\ In "Standup" (dueItems (mondayAt 9 0) u)
    /\ nonEmpty "Standup" = true /\ trim "Standup" = "Standup"
    /\ true = alwaysSent (Some "919000000001") "Standup".
Proof.
  apply (reminderJob_sends_only alwaysSent (mondayAt 9 0) [noSchedule; twoHeadersAtNine]).
  right. left. reflexivity.
Defined.

(** ** More on the duplicate filter of the task listing *)

Module UniqueFacts.
Import TasksList TasksListFacts.

Lemma uniqueFrom_subset seen l t : In t (uniqueFrom seen l) -> In t l.
Proof.
  revert seen. induction l as [|x l IH]; intros seen H; [destruct H|].
  cbn [uniqueFrom] in H. destruct (existsb (String.eqb (key x)) seen).
  - right. now apply (IH seen).
  - destruct H as [<- | H]; [now left | right; now apply (IH (key x :: seen))].
Qed.

Lemma uniqueFrom_covers seen l t :
  In t l -> In (key t) seen \/ exists t', In t' (uniqueFrom seen l) /\ key t' = key t.
Proof.
  revert seen. induction l as [|x l IH]; intros seen H; [destruct H|].
  cbn [uniqueFrom]. destruct (existsb (String.eqb (key x)) seen) eqn:E.
  - destruct H as [<- | H]; [left; now apply existsb_key|]. now apply IH.
  - destruct H as [<- | H]; [right; exists x; split; [now left | reflexivity]|].
    destruct (IH (key x :: seen) H) as [[K | K] | (t' & Ht' & K)].
    + right. exists x. split; [now left | exact K].
    + now left.
    + right. exists t'. split; [now right | exact K].
Qed.

Lemma uniqueFrom_fixed seen l :
  (forall t, In t l -> ~ In (key t) seen) -> NoDup (map key l) -> uniqueFrom seen l = l.
Proof.
  revert seen. induction l as [|x l IH]; intros seen F N; [reflexivity|].
  cbn [uniqueFrom]. cbn [map] in N. apply NoDup_cons_iff in N as [Nx N].
  destruct (existsb (String.eqb (key x)) seen) eqn:E.
  - apply existsb_key in E. now elim (F x (or_introl eq_refl)).
  - f_equal. apply IH; [|exact N].
    intros t Ht [K | K].
    + apply Nx. rewrite K. now apply in_map.
    + now apply (F t (or_intror Ht)).
Qed.

Lemma uniqueFrom_length seen l :
  (List.length (uniqueFrom seen l) <= List.length l)%nat.
Proof.
  revert seen. induction l as [|x l IH]; intros seen; [reflexivity|].
  cbn [uniqueFrom]. destruct (existsb (String.eqb (key x)) seen); cbn [List.length].
  - specialize (IH seen). lia.
  - specialize (IH (key x :: seen)). lia.
Qed.

End UniqueFacts.

(** X14.  The duplicate filter of [/api/tasks/list] loses no slot and
    invents no task: every task it keeps is a task of the input, every task
    of the input has its slot key kept, it never returns more tasks than it
    was given, a list without two tasks of one slot passes unchanged, and
    filtering a second time changes nothing. *)
Theorem uniqueTasks_keeps_every_slot (allTasks : list TasksList.ListedTask) :
  (forall t, In t (TasksList.uniqueTasks allTasks) -> In t allTasks)
  /\ (forall t, In t allTasks ->
                exists kept, In kept (TasksList.uniqueTasks allTasks)
                             /\ TasksList.key kept = TasksList.key t)
  /\ (List.length (TasksList.uniqueTasks allTasks) <= List.length allTasks)%nat
  /\ (NoDup (map TasksList.key allTasks) -> TasksList.uniqueTasks allTasks = allTasks)
  /\ TasksList.uniqueTasks (TasksList.uniqueTasks allTasks) = TasksList.uniqueTasks allTasks.
Proof.
  unfold TasksList.uniqueTasks. split; [|split; [|split; [|split]]].
  - intros t. apply UniqueFacts.uniqueFrom_subset.
  - intros t H. destruct (UniqueFacts.uniqueFrom_covers [] allTasks t H) as [[] | G].
    exact G.
  - apply UniqueFacts.uniqueFrom_length.
  - apply UniqueFacts.uniqueFrom_fixed. intros t _ [].
  - apply UniqueFacts.uniqueFrom_fixed; [intros t _ [] | apply TasksListFacts.uniqueFrom_NoDup].
Qed.

Lemma uniqueTasks_keeps_every_slot_witness :
  exists kept,
    In kept (TasksList.uniqueTasks [TasksList.standup; TasksList.review])
    /\ TasksList.key kept = TasksList.key TasksList.review.
Proof.
  destruct (uniqueTasks_keeps_every_slot [TasksList.standup; TasksList.review])
    as (_ & H & _).
  apply (H TasksList.review). right. now left.
Defined.

(** ** The schedule as [/api/tasks/list] reads it *)

Module ListTasksFacts.
Import ListTasks.

Lemma combine_map {A B} (g : A -> B) (ns : list nat) (l : list A) :
  combine ns (map g l) = map (fun p => (fst p, g (snd p))) (combine ns l).
Proof.
  revert ns. induction l as [|x l IH]; intros [|n ns]; try reflexivity.
  cbn [map combine fst snd]. now rewrite IH.
Qed.

Lemma indexed_map {A B} (g : A -> B) (l : list A) :
  indexed (map g l) = map (fun p => (fst p, g (snd p))) (indexed l).
Proof. unfold indexed. rewrite length_map. apply combine_map. Qed.

Lemma nth_of_error (hs : list string) c :
  nth c hs EmptyString
  = match nth_error hs c with Some h => h | None => EmptyString end.
Proof.
  revert c. induction hs as [|h hs IH]; intros [|c]; try reflexivity. apply IH.
Qed.

Lemma legacyCell_text hs rowIndex colIndex text :
  exists o, legacyCell (JArr (map JStr hs)) rowIndex (colIndex, JStr text) = Ok o
            /\ optionList o = foundAt hs rowIndex (colIndex, text).
Proof.
  unfold legacyCell, foundAt. cbn [truthy andb]. rewrite andb_true_r.
  destruct (nonEmpty text) eqn:N; cbn [andb]; [|now exists None].
  rewrite ScheduleTasksFacts.header_at, nth_of_error. cbn [bind].
  destruct (nth_error hs colIndex) as [h|]; cbn [truthy nonEmpty]; [|now exists None].
  destruct (nonEmpty h); [|now exists None].
  cbn [typeofObject bind truthy]. rewrite N. cbn [bind].
  unfold idOf. cbn [toStr bind]. eexists. split; reflexivity.
Qed.

Lemma legacyCells_text hs rowIndex (l : list (nat * string)) :
  collect (legacyCell (JArr (map JStr hs)) rowIndex)
          (map (fun p => (fst p, JStr (snd p))) l)
  = Ok (flat_map (foundAt hs rowIndex) l).
Proof.
  induction l as [|[c t] l IH]; [reflexivity|].
  cbn [map collect flat_map fst snd].
  destruct (legacyCell_text hs rowIndex c t) as (o & -> & <-).
  cbn [bind]. rewrite IH. cbn [bind]. now destruct o.
Qed.

Lemma legacyRow_text hs rowIndex (row : list string) :
  legacyRow (JArr (map JStr hs)) (rowIndex, JArr (map JStr row))
  = Ok (flat_map (foundAt hs rowIndex) (indexed row)).
Proof.
  cbv beta iota delta [legacyRow]. rewrite indexed_map. apply legacyCells_text.
Qed.

Lemma legacyRows_text hs (l : list (nat * list string)) :
  SaveSchedule.flatMapM (legacyRow (JArr (map JStr hs)))
    (map (fun p => (fst p, JArr (map JStr (snd p)))) l)
  = Ok (flat_map (fun entry => flat_map (foundAt hs (fst entry)) (indexed (snd entry))) l).
Proof.
  induction l as [|[r t] l IH]; [reflexivity|].
  cbn [map SaveSchedule.flatMapM flat_map fst snd].
  rewrite legacyRow_text. cbn [bind]. rewrite IH. reflexivity.
Qed.

End ListTasksFacts.

(** X15.  [/api/tasks/list] on a grid of texts.  The route pairs the cell
    at index c of a row with the header at the same index c and keeps the
    pairs in which neither is empty; it names the row at index r after
    [days[r % 7]] of a week that starts on Sunday.  The per-minute job reads
    the same grid with a week that starts on Monday: the row it reads on a
    day is the row this route lists under the day before. *)
Theorem tasks_list_grid (hs : list string) (grid : list (list string)) :
  ListTasks.scheduleTasks (ListTasks.gridValue hs grid)
  = Ok (flat_map (fun entry => flat_map (ListTasks.foundAt hs (fst entry))
                                        (indexed (snd entry)))
                 (indexed grid))
  /\ (forall d, ListTasks.dayOfRow (dayToRowIndex d) = dayName (ListTasks.dayBefore d)).
Proof.
  split; [|now intros []].
  unfold ListTasks.scheduleTasks, ListTasks.gridValue.
  cbn [truthy negb getField lookup String.eqb Ascii.eqb Bool.eqb bind getLength
       greaterThanZero].
  destruct grid as [|row grid]; [reflexivity|].
  rewrite length_map. cbn [List.length].
  replace (0 <? Z.of_nat (S (List.length grid))) with true
    by (symmetry; apply Z.ltb_lt; lia).
  cbn [bind negb map forallb ListTasks.isRecordRow andb].
  change (JArr (map JStr row) :: map (fun row0 => JArr (map JStr row0)) grid)
    with (map (fun row0 => JArr (map JStr row0)) (row :: grid)).
  rewrite ListTasksFacts.indexed_map. apply ListTasksFacts.legacyRows_text.
Qed.

(** ** The schedule page *)

Module ViewFacts.
Import ViewSchedule SaveSchedule SaveScheduleFacts.

Lemma viewRow_array cells : viewRow (JArr cells) = Ok None.
Proof. reflexivity. Qed.

Lemma collect_arrays rows :
  forallb isArray rows = true -> collect viewRow rows = Ok [].
Proof.
  induction rows as [|row rows IH]; [reflexivity|].
  cbn [forallb]. intros H. apply andb_true_iff in H as [A H].
  destruct row; try discriminate A.
  cbn [collect]. rewrite viewRow_array, (IH H). reflexivity.
Qed.

Lemma days_trimmed d : In d days -> trim d = d.
Proof. intros H. repeat (destruct H as [<- | H]; [reflexivity|]). destruct H. Qed.

Lemma time_trimmed hs e :
  Forall (fun h => trim h = h) hs -> wellFormedEntry hs e -> trim (time e) = time e.
Proof.
  intros Phs (_ & _ & _ & [-> | Hin]); [reflexivity|].
  rewrite Forall_forall in Phs. now apply Phs.
Qed.

Lemma orElse_text s rest : nonEmpty s = true -> orElse (JStr s) rest = JStr s.
Proof. intros H. unfold orElse. cbn [truthy]. now rewrite H. Qed.

Lemma viewRow_entry hs e :
  Forall (fun h => trim h = h) hs -> wellFormedEntry hs e ->
  viewRow (entryValue e)
  = Ok match viewedEntry e with
       | x :: _ => Some x
       | [] => None
       end.
Proof.
  intros Phs He. pose proof (time_trimmed hs e Phs He) as Tt.
  destruct He as (D & K & Tk & _).
  destruct (days_dayOfKey _ D) as (w & Ew & Ew').
  unfold viewRow, entryValue, viewedEntry.
  cbn [getField lookup String.eqb Ascii.eqb Bool.eqb bind].
  rewrite (orElse_text (day e) _ (days_nonEmpty _ D)), (orElse_text (task e) _ K).
  cbn [callToString toStr bind]. rewrite (days_trimmed _ D), Tk, Ew', Ew.
  rewrite (days_nonEmpty _ D), K. cbn [andb].
  destruct (nonEmpty (time e)) eqn:N.
  - rewrite (orElse_text (time e) _ N). cbn [callToString toStr bind].
    now rewrite Tt, N.
  - unfold orElse. cbn [truthy]. rewrite N. reflexivity.
Qed.

Lemma collect_viewed hs es :
  Forall (fun h => trim h = h) hs -> Forall (wellFormedEntry hs) es ->
  collect viewRow (map entryValue es) = Ok (flat_map viewedEntry es).
Proof.
  intros Phs. induction 1 as [|e es He Hes IH]; [reflexivity|].
  cbn [map collect flat_map]. rewrite (viewRow_entry hs e Phs He), IH. cbn [bind].
  unfold viewedEntry.
  destruct (ScheduleTasks.dayOfKey (day e)); [|reflexivity].
  destruct (nonEmpty (time e)); reflexivity.
Qed.

End ViewFacts.

(** X16.  What [GET /api/schedule/view] shows.  For a schedule whose rows
    are arrays, the grid of the legacy format, the page shows no task at
    all, whatever the cells hold: the route reads [day], [time] and [task]
    of each row, and an array has none.  For a user document that holds,
    unchanged, a schedule [POST /api/schedule] computed, it shows the
    stored rows that have a time, each under its day. *)
Theorem scheduleView_tasks :
  (forall u rows,
      storedRows (workingSchedule u) = Some rows -> forallb isArray rows = true ->
      ViewSchedule.scheduleView u = Ok (ViewSchedule.Tables []))
  /\ (forall u,
         savedByRoute u ->
         exists headers rows,
           schedule u = SaveSchedule.scheduleValue headers rows
           /\ ViewSchedule.scheduleView u
              = Ok (ViewSchedule.Tables (flat_map viewedEntry rows))).
Proof.
  split.
  - intros u rows R A. unfold ViewSchedule.scheduleView.
    change (orElse (weeklySchedule u) (schedule u)) with (workingSchedule u).
    unfold storedRows in R.
    destruct (workingSchedule u) as [ | | b | n | s | items | fields]; try discriminate.
    + injection R as ->. cbn [truthy negb]. now rewrite (ViewFacts.collect_arrays rows A).
    + cbn [truthy negb getField bind].
      destruct (lookup "rows" fields) as [ | | b | n | s | items | fs]; try discriminate.
      injection R as ->. now rewrite (ViewFacts.collect_arrays rows A).
  - intros u Hs. destruct (SavedFacts.saved_shape u Hs) as (hs & es & E & Phs & Pes & W).
    exists hs, es. split; [exact E|].
    unfold ViewSchedule.scheduleView.
    change (orElse (weeklySchedule u) (schedule u)) with (workingSchedule u).
    rewrite W. cbn [SaveSchedule.scheduleValue truthy negb getField lookup String.eqb
                    Ascii.eqb Bool.eqb bind].
    now rewrite (ViewFacts.collect_viewed hs es Phs Pes).
Qed.

Lemma scheduleView_tasks_witness :
  ViewSchedule.scheduleView twoHeadersAtNine = Ok (ViewSchedule.Tables [])
  /\ exists headers rows,
      schedule recordSchedule = SaveSchedule.scheduleValue headers rows
      /\ ViewSchedule.scheduleView recordSchedule
         = Ok (ViewSchedule.Tables (flat_map viewedEntry rows)).
Proof.
  destruct scheduleView_tasks as [H1 H2]. split.
  - apply (H1 twoHeadersAtNine [JArr [JStr "Gym"; JStr "Standup"]]); reflexivity.
  - apply (H2 recordSchedule). split; [reflexivity|].
    exists (JObj [("headers", JArr [JStr "9:00 AM"]);
                  ("rows", JArr [JArr [JStr "Standup"]])]).
    reflexivity.
Defined.

(** ** [validateAndFixSchedule] *)

Module FixFacts.
Import FixSchedule.

Lemma lookup_setField k v fields : lookup k (setField k v fields) = v.
Proof.
  induction fields as [|[k' v'] rest IH]; cbn [FixSchedule.setField lookup].
  - now rewrite String.eqb_refl.
  - destruct (String.eqb_spec k k') as [<- | N]; cbn [lookup].
    + now rewrite String.eqb_refl.
    + destruct (String.eqb_spec k k'); [contradiction | exact IH].
Qed.

Lemma lookup_setField_other k k' v fields :
  k <> k' -> lookup k' (FixSchedule.setField k v fields) = lookup k' fields.
Proof.
  intros N. induction fields as [|[k0 v0] rest IH]; cbn [FixSchedule.setField lookup].
  - destruct (String.eqb_spec k' k); [congruence | reflexivity].
  - destruct (String.eqb_spec k k0) as [<- | N0]; cbn [lookup].
    + destruct (String.eqb_spec k' k); [congruence | reflexivity].
    + destruct (String.eqb_spec k' k0); [reflexivity | exact IH].
Qed.

Lemma missingOrEmpty_false v :
  missingOrEmpty v = false -> exists x l, v = JArr (x :: l).
Proof.
  destruct v as [ | | b | n | s | [|x l] | fields]; try discriminate.
  intros _. now exists x, l.
Qed.

(** The fields of the schedule after the two repairs. *)
Lemma repaired fields :
  exists fixed,
    (let noHeaders := missingOrEmpty (lookup "headers" fields) in
     let fields1 :=
       if noHeaders then setField "headers" (JArr (map JStr defaultHeaders)) fields
       else fields in
     let noRows := missingOrEmpty (lookup "rows" fields1) in
     (if noRows then
        len <- getLength (lookup "headers" fields1) ;;
        width <- loopBound len ;;
        Ok (setField "rows" (emptyRows width) fields1)
      else Ok fields1)) = Ok fixed
    /\ missingOrEmpty (lookup "headers" fixed) = false
    /\ missingOrEmpty (lookup "rows" fixed) = false
    /\ (missingOrEmpty (lookup "headers" fields) = false ->
        missingOrEmpty (lookup "rows" fields) = false -> fixed = fields).
Proof.
  cbv zeta.
  set (fields1 := if missingOrEmpty (lookup "headers" fields)
                  then setField "headers" (JArr (map JStr defaultHeaders)) fields
                  else fields).
  assert (H1 : missingOrEmpty (lookup "headers" fields1) = false).
  { unfold fields1. destruct (missingOrEmpty (lookup "headers" fields)) eqn:E; [|exact E].
    now rewrite lookup_setField. }
  destruct (missingOrEmpty (lookup "rows" fields1)) eqn:R.
  - destruct (missingOrEmpty_false _ H1) as (x & l & E). rewrite E.
    cbn [getLength bind loopBound]. eexists. split; [reflexivity|].
    rewrite lookup_setField, (lookup_setField_other "rows" "headers") by discriminate.
    rewrite E. repeat split. intros H0 R0. exfalso. unfold fields1 in R.
    rewrite H0 in R. congruence.
  - exists fields1. repeat split; try assumption.
    intros H0 _. unfold fields1. now rewrite H0.
Qed.

End FixFacts.

(** X17.  [validateAndFixSchedule] on a user with a schedule object.
    When it returns, the schedule has headers and rows that are arrays
    and not empty, and WhatsApp reminders are switched on, also for a user
    who had switched them off; a schedule that already had headers and
    rows is left as it was; the function answers [false] only when saving
    failed; and a second call on the user it left finds nothing to repair
    and answers [true]. *)
Theorem validateAndFixSchedule_repairs (saved : bool) (user fixed : User) (answer : bool) :
  truthy (schedule user) = true ->
  FixSchedule.validateAndFixSchedule saved user = Ok (answer, fixed) ->
  FixSchedule.hasGrid (schedule fixed) = true
  /\ notificationSettings fixed = Some (mkSettings (Some true))
  /\ (FixSchedule.hasGrid (schedule user) = true -> schedule fixed = schedule user)
  /\ (answer = false -> saved = false)
  /\ (forall savedAgain,
         FixSchedule.validateAndFixSchedule savedAgain fixed = Ok (true, fixed)).
Proof.
  intros T. unfold FixSchedule.validateAndFixSchedule at 1. rewrite T. cbn [negb].
  destruct (schedule user) as [ | | b | n | s | items | fields] eqn:Es; try discriminate.
  destruct (FixFacts.repaired fields) as (fixedFields & E & H & R & Same).
  cbv zeta in E. rewrite E. cbn [bind]. intros Heq. injection Heq as Ha Hf.
  subst answer fixed.
  cbn [schedule notificationSettings FixSchedule.hasGrid].
  rewrite H, R. repeat split.
  - unfold FixSchedule.hasGrid. intros G. apply andb_true_iff in G as [G1 G2].
    apply negb_true_iff in G1, G2. now rewrite (Same G1 G2).
  - match goal with
    | |- (if ?c then _ else _) = false -> _ => destruct c; [trivial | discriminate]
    end.
  - intros savedAgain. unfold FixSchedule.validateAndFixSchedule.
    cbn [schedule truthy negb]. rewrite H. cbn [FixSchedule.whatsappNotOn
      notificationSettings whatsapp orb]. rewrite R. cbn [bind orb].
    reflexivity.
Qed.

Lemma validateAndFixSchedule_repairs_witness :
  FixSchedule.hasGrid
    (JObj [("headers", JArr (map JStr FixSchedule.defaultHeaders));
           ("rows", FixSchedule.emptyRows 9)]) = true.
Proof.
  destruct (validateAndFixSchedule_repairs true emptySchedule
              (mkUser 10 (Some "919000000010") (Some "Tara") true
                 (Some (mkSettings (Some true)))
                 (JObj [("headers", JArr (map JStr FixSchedule.defaultHeaders));
                        ("rows", FixSchedule.emptyRows 9)]) JUndef)
              true eq_refl eq_refl) as (H & _).
  exact H.
Defined.

(** ** [extractTime] is a normal form *)

Module ExtractFacts.

Lemma span_prefix p s a b : span p s = (a, b) -> allChars p a = true.
Proof.
  revert a b. induction s as [|c s IH]; intros a b; cbn [span].
  - now intros [= <- <-].
  - destruct (p c) eqn:Pc; [|now intros [= <- <-]].
    destruct (span p s) as [a' b'] eqn:E. intros [= <- <-].
    cbn [allChars]. now rewrite Pc, (IH a' b' eq_refl).
Qed.

Lemma digitChars_complete c : isDigit c = true -> In c digitChars.
Proof.
  destruct c as [[] [] [] [] [] [] [] []]; cbn; intros H;
    try discriminate H; tauto.
Qed.

Lemma digitValue_range c : isDigit c = true -> 0 <= digitValue c <= 9.
Proof.
  destruct c as [[] [] [] [] [] [] [] []]; intros H;
    try (vm_compute in H; discriminate H); vm_compute; split; discriminate.
Qed.

Lemma take2digits_shape r ms r1 :
  take2digits r = Some (ms, r1) ->
  exists a b, ms = String a (String b EmptyString)
              /\ isDigit a = true /\ isDigit b = true.
Proof.
  destruct r as [|a [|b r]]; cbn [take2digits]; try discriminate.
  destruct (isDigit a) eqn:Da, (isDigit b) eqn:Db; cbn [andb]; try discriminate.
  intros [= <- _]. now exists a, b.
Qed.

Lemma periodAtEnd_shape x p :
  periodAtEnd x = Some p ->
  p = None \/ exists pm : bool, toUpperCase (match p with Some t => t | None => EmptyString end)
                         = (if pm then "PM" else "AM") /\ p <> None.
Proof.
  destruct x as [|a [|m [|c r]]]; cbn [periodAtEnd]; try discriminate.
  - intros [= <-]. now left.
  - destruct ((Ascii.eqb a "a" || Ascii.eqb a "A" || Ascii.eqb a "p" || Ascii.eqb a "P")
              && isM m)%bool eqn:C; [|discriminate].
    intros [= <-]. right. apply andb_true_iff in C as [Ca Cm].
    destruct (isM_cases m Cm) as [-> | ->];
      repeat (apply orb_true_iff in Ca as [Ca | Ca]);
      apply Ascii.eqb_eq in Ca; subst a;
      first [exists true; split; [reflexivity | discriminate]
            | exists false; split; [reflexivity | discriminate]].
Qed.

Lemma timeMatch_shape s hs ms p :
  timeMatch s = Some (hs, ms, p) ->
  allChars isDigit hs = true
  /\ (String.length hs = 1%nat \/ String.length hs = 2%nat)
  /\ (exists a b, ms = String a (String b EmptyString)
                  /\ isDigit a = true /\ isDigit b = true)
  /\ (p = None \/ exists pm : bool,
         toUpperCase (match p with Some t => t | None => EmptyString end)
         = (if pm then "PM" else "AM") /\ p <> None).
Proof.
  unfold timeMatch. destruct (span isDigit s) as [hs0 rest] eqn:Sp.
  pose proof (span_prefix _ _ _ _ Sp) as D.
  assert (G : forall r,
             match take2digits r with
             | Some (ms0, r1) =>
                 match
                   periodAtEnd
                     (trimStart
                        match r1 with
                        | String ":" r' =>
                            match take2digits r' with
                            | Some (_, r'') => r''
                            | None => r1
                            end
                        | _ => r1
                        end)
                 with
                 | Some p0 => Some (hs0, ms0, p0)
                 | None => None
                 end
             | None => None
             end = Some (hs, ms, p) ->
             hs0 = hs
             /\ (exists a b, ms = String a (String b EmptyString)
                             /\ isDigit a = true /\ isDigit b = true)
             /\ (p = None \/ exists pm : bool,
                    toUpperCase (match p with Some t => t | None => EmptyString end)
                    = (if pm then "PM" else "AM") /\ p <> None)).
  { intros r. destruct (take2digits r) as [[ms0 r1]|] eqn:T2; [|discriminate].
    match goal with
    | |- match periodAtEnd ?x with _ => _ end = _ -> _ =>
        destruct (periodAtEnd x) as [p0|] eqn:P; [|discriminate]
    end.
    intros [= <- <- <-]. split; [reflexivity|]. split.
    - exact (take2digits_shape _ _ _ T2).
    - exact (periodAtEnd_shape _ _ P). }
  destruct (String.length hs0) as [|[|[|n]]] eqn:L; try discriminate;
    destruct rest as [|c r]; try discriminate;
    destruct c as [[] [] [] [] [] [] [] []]; try discriminate;
    intros H; destruct (G r H) as (<- & M & P); repeat split; auto.
Qed.

Lemma hours_value hs :
  allChars isDigit hs = true ->
  String.length hs = 1%nat \/ String.length hs = 2%nat ->
  exists h, parseInt hs = Some h /\ 0 <= h < 100.
Proof.
  intros D L. exists (decimalValue hs). split.
  - apply parseInt_digits; [|exact D]. destruct hs; [|discriminate].
    destruct L; discriminate.
  - destruct hs as [|a [|b [|c r]]]; cbn in L; try (destruct L; discriminate).
    + cbn in D. rewrite andb_true_r in D. pose proof (digitValue_range a D).
      unfold decimalValue. cbn [decimalAcc]. lia.
    + cbn in D. rewrite andb_true_r in D. apply andb_true_iff in D as [Da Db].
      pose proof (digitValue_range a Da). pose proof (digitValue_range b Db).
      unfold decimalValue. cbn [decimalAcc]. lia.
Qed.

(** The result of [extractTime] is its argument or a text it built. *)
Lemma extractTime_cases s :
  extractTime s = s
  \/ exists h a b pm,
      0 <= h < 100 /\ isDigit a = true /\ isDigit b = true
      /\ extractTime s = formattedTime h a b pm.
Proof.
  unfold extractTime. destruct s as [|c0 s0]; [now left|].
  cbn [nonEmpty negb].
  destruct (timeMatch (String c0 s0)) as [[[hs ms] p]|] eqn:TM; [|now left].
  destruct (timeMatch_shape _ _ _ _ TM) as (D & L & (a & b & -> & Da & Db) & P).
  destruct (hours_value hs D L) as (h & -> & Hh).
  right. destruct P as [-> | (pm & U & N)].
  - exists (if h mod 12 =? 0 then 12 else h mod 12), a, b, (12 <=? h).
    repeat split; try assumption.
    + destruct (h mod 12 =? 0); [lia|]. pose proof (Z.mod_pos_bound h 12). lia.
    + destruct (h mod 12 =? 0); [lia|]. pose proof (Z.mod_pos_bound h 12). lia.
    + unfold formattedTime. now destruct (12 <=? h).
  - destruct p as [t|]; [|contradiction]. exists h, a, b, pm.
    repeat split; try assumption; try lia.
    unfold formattedTime. now rewrite U.
Qed.

Lemma formatted_all_fixed :
  forallb (fun h =>
             forallb (fun a =>
                        forallb (fun b => (formattedFixed h a b true
                                           && formattedFixed h a b false)%bool)
                                digitChars)
                     digitChars)
          (zrange 100) = true.
Proof. vm_compute. reflexivity. Qed.

Lemma formattedTime_fixed h a b pm :
  0 <= h < 100 -> isDigit a = true -> isDigit b = true ->
  extractTime (formattedTime h a b pm) = formattedTime h a b pm.
Proof.
  intros Hh Da Db.
  pose proof (zrange_complete _ 100 formatted_all_fixed h Hh) as Fh. cbv beta in Fh.
  rewrite forallb_forall in Fh. specialize (Fh a (digitChars_complete a Da)).
  rewrite forallb_forall in Fh. specialize (Fh b (digitChars_complete b Db)).
  apply andb_true_iff in Fh as [Ft Ff]. unfold formattedFixed in *.
  destruct pm; now apply String.eqb_eq.
Qed.

End ExtractFacts.

(** X18.  [extractTime] gives a normal form.  Its result is either its
    argument, unchanged, or the text [H:MM AM] or [H:MM PM] it built from an
    hour below 100 and the two digits of the minutes; applied to its own
    result it changes nothing. *)
Theorem extractTime_idempotent (timeStr : string) :
  extractTime (extractTime timeStr) = extractTime timeStr
  /\ (extractTime timeStr = timeStr
      \/ exists h a b pm,
          0 <= h < 100 /\ isDigit a = true /\ isDigit b = true
          /\ extractTime timeStr = formattedTime h a b pm).
Proof.
  split; [|apply ExtractFacts.extractTime_cases].
  destruct (ExtractFacts.extractTime_cases timeStr) as [E | (h & a & b & pm & Hh & Da & Db & E)].
  - now rewrite E.
  - rewrite E. now apply ExtractFacts.formattedTime_fixed.
Qed.

(** ** The schedule listing on the grid of the per-minute job *)

Module ListScheduleFacts.
Import ScheduleTasks.

Lemma legacyRow_no_day timeSlots (row : list string) :
  startsWithTask row = true -> legacyRow timeSlots (JArr (map JStr row)) = Ok [].
Proof.
  destruct row as [|first [|second rest]]; try reflexivity.
  cbn [startsWithTask map legacyRow truthy]. intros H.
  destruct (nonEmpty first); [|reflexivity].
  cbn [toStr bind]. destruct (dayOfKey first); [discriminate|].
  apply negb_true_iff in H. now rewrite H.
Qed.

Lemma legacyRows_no_day timeSlots (grid : list (list string)) :
  forallb startsWithTask grid = true ->
  (fix each (l : list jsval) : result (list (weekday * (jsval * string))) :=
     match l with
     | [] => Ok []
     | row :: rest =>
         pushed <- legacyRow timeSlots row ;;
         more <- each rest ;;
         Ok (pushed ++ more)%list
     end) (map (fun row => JArr (map JStr row)) grid) = Ok [].
Proof.
  induction grid as [|row grid IH]; [reflexivity|].
  cbn [forallb map]. intros H. apply andb_true_iff in H as [Hr Hg].
  rewrite (legacyRow_no_day timeSlots row Hr). cbn [bind].
  rewrite (IH Hg). reflexivity.
Qed.

Lemma legacyTasks_no_day hs (grid : list (list string)) :
  forallb startsWithTask grid = true ->
  legacyTasks (ListTasks.gridValue hs grid) = Ok [].
Proof.
  intros G. unfold legacyTasks, ListTasks.gridValue.
  cbn [getField lookup String.eqb Ascii.eqb Bool.eqb bind].
  apply (legacyRows_no_day _ grid G).
Qed.

End ListScheduleFacts.

(** X19.  [GET /api/schedule/tasks] on the grid of the per-minute job.  The
    job reads a grid whose rows hold tasks only, the cell at index 0 being
    the task of the first header.  On such a grid of texts, in which no row
    starts with the name of a day, the listing finds no task at all: its
    legacy branch takes the first cell of a row as the day of the row and
    skips the row when it is not one. *)
Theorem schedule_listing_of_job_grid (u : User) (hs : list string)
        (grid : list (list string)) :
  truthy (weeklySchedule u) = false ->
  schedule u = ListTasks.gridValue hs grid ->
  forallb startsWithTask grid = true ->
  ListSchedule.scheduleTasks u = Ok [].
Proof.
  intros W E G. unfold ListSchedule.scheduleTasks, orElse. rewrite W, E.
  rewrite (ListScheduleFacts.legacyTasks_no_day hs grid G).
  unfold ListTasks.gridValue.
  cbn [truthy negb getField lookup String.eqb Ascii.eqb Bool.eqb bind getLength].
  rewrite length_map.
  destruct grid as [|row grid]; [reflexivity|].
  cbn [List.length ListSchedule.isZero].
  replace (Z.of_nat (S (List.length grid)) =? 0) with false
    by (symmetry; apply Z.eqb_neq; lia).
  unfold isNewFormat. cbn [truthy getLength bind greaterThanZero].
  rewrite length_map. cbn [List.length].
  replace (0 <? Z.of_nat (S (List.length grid))) with true
    by (symmetry; apply Z.ltb_lt; lia).
  reflexivity.
Qed.

Lemma schedule_listing_of_job_grid_witness :
  ListSchedule.scheduleTasks twoHeadersAtNine = Ok []
  /\ reminders (fst (processUser alwaysSent (mondayAt 9 0) twoHeadersAtNine))
     = [(Some "919000000001", "Gym", true); (Some "919000000001", "Standup", true)].
Proof.
  split; [|reflexivity].
  apply (schedule_listing_of_job_grid twoHeadersAtNine ["9:00 AM"; "9:00"]
           [["Gym"; "Standup"]]); reflexivity.
Defined.

(** ** The job on grids of texts *)

Module GridFacts.

Lemma forEach_ok {A} (f : A -> result unit) l :
  (forall x, In x l -> f x = Ok tt) -> forEach f l = Ok tt.
Proof.
  induction l as [|x l IH]; intros H; [reflexivity|].
  cbn [forEach]. rewrite (H x (or_introl eq_refl)). cbn [bind].
  apply IH. intros y Hy. apply H. now right.
Qed.

Lemma findM_total {A} (f : A -> result bool) l :
  (forall x, In x l -> exists b, f x = Ok b) ->
  findM f l = Ok None \/ exists x, In x l /\ findM f l = Ok (Some x).
Proof.
  induction l as [|x l IH]; intros H; [now left|].
  cbn [findM]. destruct (H x (or_introl eq_refl)) as (b & ->). cbn [bind].
  destruct b; [right; exists x; split; [now left | reflexivity]|].
  destruct IH as [E | (y & Hy & E)]; [intros y Hy; apply H; now right | now left |].
  right. exists y. split; [now right | exact E].
Qed.

Lemma collect_total {A B} (f : A -> result (option B)) l :
  (forall x, In x l -> exists o, f x = Ok o) -> exists r, collect f l = Ok r.
Proof.
  induction l as [|x l IH]; intros H; [now exists []|].
  cbn [collect]. destruct (H x (or_introl eq_refl)) as (o & ->). cbn [bind].
  destruct IH as (r & ->); [intros y Hy; apply H; now right|].
  cbn [bind]. eexists. reflexivity.
Qed.

Lemma filterM_total {A} (f : A -> result bool) l :
  (forall x, In x l -> exists b, f x = Ok b) -> exists r, filterM f l = Ok r.
Proof.
  induction l as [|x l IH]; intros H; [now exists []|].
  cbn [filterM]. destruct (H x (or_introl eq_refl)) as (b & ->). cbn [bind].
  destruct IH as (r & ->); [intros y Hy; apply H; now right|].
  cbn [bind]. eexists. reflexivity.
Qed.

Lemma firstn_subset {A} n (l : list A) x : In x (firstn n l) -> In x l.
Proof.
  revert l. induction n as [|n IH]; intros [|y l] H; try destruct H as [H | H];
    try contradiction; [now left | right; now apply IH].
Qed.

(** An element of a row of texts, or what is read beside it. *)
Lemma nth_text (cells : list string) i :
  nth i (map JStr cells) JUndef = JUndef
  \/ exists s, nth i (map JStr cells) JUndef = JStr s.
Proof.
  revert i. induction cells as [|c cells IH]; intros [|i]; cbn [map nth];
    try (now left); [right; now exists c | apply IH].
Qed.

Lemma orElse_of_text v fallback :
  v = JUndef \/ (exists s, v = JStr s) ->
  exists s, orElse v (JStr fallback) = JStr s.
Proof.
  intros [-> | (s & ->)]; unfold orElse; cbn [truthy]; [now exists fallback|].
  destruct (nonEmpty s); [now exists s | now exists fallback].
Qed.

Lemma in_rows (grid : list (list string)) row :
  In row (map (fun r => JArr (map JStr r)) grid) ->
  exists cells, row = JArr (map JStr cells).
Proof. intros H. apply in_map_iff in H as (cells & <- & _). now exists cells. Qed.

(** *** The pass that describes the users *)

Lemma describeUser_grid u : gridUser u -> describeUser u = Ok tt.
Proof.
  intros (_ & [F | (hs & grid & E)]); unfold describeUser.
  - now rewrite F.
  - rewrite E. unfold ListTasks.gridValue.
    cbn [truthy getField lookup String.eqb Ascii.eqb Bool.eqb bind optionalLength
         getLength]. unfold orElse. cbn [truthy].
    destruct (negb (Z.of_nat (List.length (map (fun r => JArr (map JStr r)) grid)) =? 0));
      cbn [toStr bind greaterThanZero].
    + destruct (0 <? Z.of_nat (List.length (map (fun r => JArr (map JStr r)) grid)));
        [|reflexivity].
      cbn [firstTwo bind]. apply forEach_ok. intros row Hrow.
      apply firstn_subset, in_rows in Hrow as (cells & ->). reflexivity.
    + destruct (0 <? Z.of_nat (List.length (map (fun r => JArr (map JStr r)) grid)));
        [|reflexivity].
      cbn [firstTwo bind]. apply forEach_ok. intros row Hrow.
      apply firstn_subset, in_rows in Hrow as (cells & ->). reflexivity.
Qed.

(** *** The filter *)

Lemma isNewFormat_grid (grid : list (list string)) :
  isNewFormat (JArr (map (fun r => JArr (map JStr r)) grid)) = Ok false.
Proof.
  unfold isNewFormat. cbn [truthy getLength bind greaterThanZero].
  destruct grid as [|row grid]; [reflexivity|].
  cbn [map List.length].
  replace (0 <? Z.of_nat (S (List.length (map (fun r => JArr (map JStr r)) grid))))
    with true by (symmetry; apply Z.ltb_lt; lia).
  reflexivity.
Qed.

Lemma hasValidSchedule_grid u :
  gridUser u -> exists b, hasValidSchedule u = Ok b.
Proof.
  intros (_ & [F | (hs & grid & E)]); unfold hasValidSchedule.
  - rewrite F. now exists false.
  - rewrite E. unfold ListTasks.gridValue.
    cbn [truthy negb getField lookup String.eqb Ascii.eqb Bool.eqb bind].
    rewrite isNewFormat_grid. cbn [bind]. eexists. reflexivity.
Qed.

Lemma hasValidSchedule_true u :
  gridUser u -> hasValidSchedule u = Ok true ->
  exists hs grid, schedule u = ListTasks.gridValue hs grid.
Proof.
  intros (_ & [F | G]) H; [|exact G].
  unfold hasValidSchedule in H. rewrite F in H. discriminate.
Qed.

End GridFacts.

Module GridFacts2.
Import GridFacts.

(** *** The pass that logs the tasks of the current day *)

Lemma rowDay_text cells : exists d, rowDay (JArr (map JStr cells)) = Ok d.
Proof.
  unfold rowDay. cbn [getIndex bind].
  destruct (orElse_of_text _ EmptyString (nth_text cells 0)) as (s & ->).
  cbn [callToString toStr bind]. eexists. reflexivity.
Qed.

Lemma isRowOfCurrentDay_text clock cells :
  exists b, isRowOfCurrentDay clock (JArr (map JStr cells)) = Ok b.
Proof.
  unfold isRowOfCurrentDay. destruct (rowDay_text cells) as (d & ->).
  cbn [bind]. eexists. reflexivity.
Qed.

Lemma cellOfCurrentDay_text cells colIndex h :
  exists o, cellOfCurrentDay (JArr (map JStr cells)) (colIndex, JStr h) = Ok o.
Proof.
  unfold cellOfCurrentDay. destruct (Nat.ltb 0 colIndex); [|now exists None].
  cbn [getIndex bind].
  destruct (nth_text cells colIndex) as [-> | (s & ->)]; cbn [truthy]; [now exists None|].
  destruct (nonEmpty s); [|now exists None]. cbn [toStr bind]. eexists. reflexivity.
Qed.

Lemma printGridLine_text hs cells i :
  printGridLine (JArr (map JStr hs)) (JArr (map JStr cells)) i = Ok tt.
Proof.
  unfold printGridLine. cbn [getIndex bind].
  destruct (orElse_of_text _ EmptyString (nth_text hs (i + 1))) as (s & ->).
  destruct (orElse_of_text _ EmptyString (nth_text cells (i + 1))) as (t & ->).
  reflexivity.
Qed.

Lemma findM_row clock (grid : list (list string)) :
  findM (isRowOfCurrentDay clock) (map (fun r => JArr (map JStr r)) grid) = Ok None
  \/ exists cells,
      findM (isRowOfCurrentDay clock) (map (fun r => JArr (map JStr r)) grid)
      = Ok (Some (JArr (map JStr cells))).
Proof.
  destruct (findM_total (isRowOfCurrentDay clock)
              (map (fun r => JArr (map JStr r)) grid)) as [E | (row & Hrow & E)].
  - intros row Hrow. apply in_rows in Hrow as (cells & ->).
    apply isRowOfCurrentDay_text.
  - now left.
  - right. apply in_rows in Hrow as (cells & ->). now exists cells.
Qed.

Lemma logCurrentDayTasks_grid clock u hs grid :
  schedule u = ListTasks.gridValue hs grid -> logCurrentDayTasks clock u = Ok tt.
Proof.
  intros E. unfold logCurrentDayTasks. rewrite E. unfold ListTasks.gridValue, orElse.
  cbn [truthy getField lookup String.eqb Ascii.eqb Bool.eqb bind].
  rewrite isNewFormat_grid. cbn [bind].
  destruct grid as [|row grid]; [reflexivity|].
  change (map (fun r => JArr (map JStr r)) (row :: grid))
    with (JArr (map JStr row) :: map (fun r => JArr (map JStr r)) grid) at 1.
  cbv beta iota.
  rewrite (forEach_ok (fun row0 => _ <- rowDay row0 ;; Ok tt)).
  2:{ intros r Hr. apply in_rows in Hr as (cells & ->).
      now destruct (rowDay_text cells) as (d & ->). }
  cbn [bind].
  destruct (findM_row clock (row :: grid)) as [-> | (cells & ->)]; [reflexivity|].
  cbn [bind].
  destruct (collect_total (cellOfCurrentDay (JArr (map JStr cells)))
              (indexed (map JStr hs))) as (tasks & ->).
  { intros [c v] Hin. apply in_combine_r, in_map_iff in Hin as (h & <- & _).
    apply cellOfCurrentDay_text. }
  cbn [bind]. destruct tasks as [|t tasks]; [reflexivity|].
  apply forEach_ok. intros i _. apply printGridLine_text.
Qed.

(** *** The pass that logs the week *)

Lemma describeCell_text hs taskIndex s :
  describeCell (JArr (map JStr hs)) (taskIndex, JStr s) = Ok tt.
Proof.
  unfold describeCell. cbn [truthy]. destruct (nonEmpty s); [|reflexivity].
  cbn [getIndex bind].
  destruct (nth_text hs taskIndex) as [-> | (h & ->)]; cbn [truthy toStr bind];
    [reflexivity|].
  now destruct (nonEmpty h).
Qed.

Lemma describeWeekRow_text hs cells :
  describeWeekRow (JArr (map JStr hs)) (JArr (map JStr cells)) = Ok tt.
Proof.
  unfold describeWeekRow. cbn [truthy negb getField bind andb].
  apply forEach_ok. intros [i v] Hin.
  apply in_combine_r, in_map_iff in Hin as (s & <- & _). apply describeCell_text.
Qed.

Lemma logWeek_grid u hs grid :
  schedule u = ListTasks.gridValue hs grid -> logWeek u = Ok tt.
Proof.
  intros E. unfold logWeek. rewrite E. unfold ListTasks.gridValue.
  cbn [truthy getField lookup String.eqb Ascii.eqb Bool.eqb bind].
  rewrite (forEach_ok groupByDay).
  2:{ intros r Hr. apply in_rows in Hr as (cells & ->). reflexivity. }
  cbn [bind]. apply forEach_ok. intros r Hr. apply in_rows in Hr as (cells & ->).
  apply describeWeekRow_text.
Qed.

End GridFacts2.

Module GridFacts3.
Import GridFacts GridFacts2.

(** *** The rounds of the dispatch loop *)

Lemma forEach_defined {A} (f : A -> result unit) l :
  (forall x, In x l -> f x <> Beyond) -> forEach f l <> Beyond.
Proof.
  induction l as [|x l IH]; intros H; [discriminate|].
  cbn [forEach]. pose proof (H x (or_introl eq_refl)) as Hx.
  destruct (f x) as [[] | e | ]; cbn [bind]; [|discriminate | contradiction].
  apply IH. intros y Hy. apply H. now right.
Qed.

Lemma collectRow_text cells : collectRow (JArr (map JStr cells)) <> Beyond.
Proof.
  unfold collectRow. cbn [getField getIndex bind].
  replace (orElse JUndef (orElse JUndef (orElse JUndef (orElse JUndef
             (orElse (nth 2 (map JStr cells) JUndef) (JStr EmptyString))))))
    with (orElse (nth 2 (map JStr cells) JUndef) (JStr EmptyString)) by reflexivity.
  replace (orElse JUndef (orElse JUndef
             (orElse (nth 0 (map JStr cells) JUndef) (JStr EmptyString))))
    with (orElse (nth 0 (map JStr cells) JUndef) (JStr EmptyString)) by reflexivity.
  replace (orElse JUndef (orElse JUndef
             (orElse (nth 1 (map JStr cells) JUndef) (JStr EmptyString))))
    with (orElse (nth 1 (map JStr cells) JUndef) (JStr EmptyString)) by reflexivity.
  destruct (orElse_of_text _ EmptyString (nth_text cells 2)) as (k & ->).
  destruct (orElse_of_text _ EmptyString (nth_text cells 0)) as (d & ->).
  destruct (orElse_of_text _ EmptyString (nth_text cells 1)) as (t & ->).
  destruct (truthy (JStr d) && truthy (JStr t) && truthy (JStr k))%bool; [|discriminate].
  cbn [callToString toStr bind]. destruct (inherited (capitalize d)); discriminate.
Qed.

Lemma chosen_row i (row : list string) (grid : list (list string)) :
  exists cells,
    orElse (nth i (map (fun r => JArr (map JStr r)) (row :: grid)) JUndef)
           (nth 0 (map (fun r => JArr (map JStr r)) (row :: grid)) JUndef)
    = JArr (map JStr cells).
Proof.
  destruct (nth_in_or_default i (map (fun r => JArr (map JStr r)) (row :: grid)) JUndef)
    as [Hin | ->].
  - apply in_rows in Hin as (cells & ->). now exists cells.
  - now exists row.
Qed.

Lemma beforeSlots_grid clock u hs grid :
  truthy (weeklySchedule u) = false -> schedule u = ListTasks.gridValue hs grid ->
  beforeSlots clock u <> Beyond.
Proof.
  intros W E. unfold beforeSlots, coerceSchedule, orElse at 1 2. rewrite W, E.
  unfold ListTasks.gridValue. cbn [truthy negb lookup String.eqb Ascii.eqb Bool.eqb].
  destruct grid as [|row grid]; [discriminate|].
  change (map (fun r => JArr (map JStr r)) (row :: grid))
    with (JArr (map JStr row) :: map (fun r => JArr (map JStr r)) grid) at 1.
  cbv beta iota. cbn [bind].
  change (JArr (map JStr row) :: map (fun r => JArr (map JStr r)) grid)
    with (map (fun r => JArr (map JStr r)) (row :: grid)).
  destruct (chosen_row (getDay (targetDay clock)) row grid) as (cells & ->).
  replace (isRecordRow (JArr (map JStr cells))) with (@Ok bool false) by reflexivity.
  cbn [bind].
  rewrite (forEach_ok objectKeys).
  2:{ intros r Hr. apply in_rows in Hr as (c & ->). reflexivity. }
  cbn [bind].
  pose proof (forEach_defined collectRow (map (fun r => JArr (map JStr r)) (row :: grid)))
    as D.
  destruct (forEach collectRow (map (fun r => JArr (map JStr r)) (row :: grid)))
    as [[] | e | ]; cbn [bind].
  - destruct (Nat.leb _ _); [discriminate|].
    destruct (nth (dayToRowIndex (targetDay clock))
                  (map (fun r => JArr (map JStr r)) (row :: grid)) JUndef);
      discriminate.
  - discriminate.
  - exfalso. apply D; [|reflexivity].
    intros r Hr. apply in_rows in Hr as (c & ->). apply collectRow_text.
Qed.

Lemma processUser_grid send clock u hs grid :
  truthy (weeklySchedule u) = false -> schedule u = ListTasks.gridValue hs grid ->
  snd (processUser send clock u) = Ok tt.
Proof.
  intros W E. apply processUser_ok. exact (beforeSlots_grid clock u hs grid W E).
Qed.

(** Headers that are strings can all be written. *)
Lemma printableHeaders_texts (hs : list string) bound :
  printableHeaders (JArr (map JStr hs)) bound = true.
Proof.
  unfold printableHeaders. apply forallb_forall. intros col _. cbn [getIndex].
  now destruct (nth_text hs col) as [-> | (s & ->)].
Qed.

Lemma beforeSlots_grid_headers clock u hs grid ds headers bound :
  truthy (weeklySchedule u) = false -> schedule u = ListTasks.gridValue hs grid ->
  beforeSlots clock u = Ok (Some (ds, headers, bound)) ->
  headers = JArr (map JStr hs).
Proof.
  intros W E. unfold beforeSlots, coerceSchedule, orElse at 1 2. rewrite W, E.
  unfold ListTasks.gridValue. cbn [truthy negb lookup String.eqb Ascii.eqb Bool.eqb].
  destruct grid as [|row grid]; [discriminate|].
  change (map (fun r => JArr (map JStr r)) (row :: grid))
    with (JArr (map JStr row) :: map (fun r => JArr (map JStr r)) grid) at 1.
  cbv beta iota. cbn [bind].
  intros H.
  repeat match type of H with
         | bind ?c _ = _ => destruct c; cbn [bind] in H; try discriminate H
         | (if ?b then _ else _) = _ => destruct b; try discriminate H
         | match ?x with _ => _ end = _ => destruct x; try discriminate H
         end.
  now injection H as _ <- _.
Qed.

(** On a grid of texts the round sends what is due. *)
Lemma reachesSend_grid clock u hs grid :
  truthy (weeklySchedule u) = false -> schedule u = ListTasks.gridValue hs grid ->
  (if reachesSend clock u then dueItems clock u else []) = dueItems clock u.
Proof.
  intros W E. unfold reachesSend, dueItems.
  destruct (beforeSlots clock u) as [[[[ds headers] bound]|] | e | ] eqn:B;
    try reflexivity.
  rewrite (beforeSlots_grid_headers clock u hs grid ds headers bound W E B).
  now rewrite printableHeaders_texts.
Qed.

Lemma reminderJob_is_loop send clock allUsers users :
  forEach describeUser allUsers = Ok tt ->
  eligibleUsers (verifiedUsers allUsers) = Ok users ->
  forEach (logCurrentDayTasks clock) users = Ok tt ->
  forEach logWeek users = Ok tt ->
  reminderJob send clock allUsers = dispatchLoop send clock users.
Proof.
  intros H1 H H2 H3. unfold reminderJob.
  rewrite H1, andThen_lift_Ok, H, andThen_lift_Ok.
  destruct users as [|u users]; [reflexivity|].
  rewrite H2, andThen_lift_Ok, H3, andThen_lift_Ok.
  pose proof (dispatchLoop_never_throws send clock (u :: users)) as N.
  destruct (dispatchLoop send clock (u :: users)) as [tr [[] | e | ]]; cbn [tryCatch];
    [reflexivity | now elim (N e) | reflexivity].
Qed.

Lemma loop_reminders send clock users :
  (forall u, In u users ->
             truthy (weeklySchedule u) = false
             /\ exists hs grid, schedule u = ListTasks.gridValue hs grid) ->
  reminders (fst (dispatchLoop send clock users)) = dueCalls send clock users.
Proof.
  intros G. rewrite (dispatchLoop_trace send clock users).
  2:{ intros u Hu. destruct (G u Hu) as (W & hs & grid & E).
      exact (processUser_grid send clock u hs grid W E). }
  cbn [fst]. unfold dueCalls. induction users as [|u users IH]; [reflexivity|].
  cbn [flat_map]. rewrite reminders_app, reminders_of_user.
  destruct (G u (or_introl eq_refl)) as (W & hs & grid & E).
  rewrite (reachesSend_grid clock u hs grid W E).
  now rewrite IH by (intros v Hv; apply G; now right).
Qed.

End GridFacts3.

(** X20.  The job on grids of texts.  When every stored user has no
    [weeklySchedule] and either no schedule or a grid of texts (headers
    that are strings, rows that are arrays of strings), a run of the
    per-minute job never reaches its outer error handler: the logging passes
    end normally, the run is the dispatch loop over the users found
    eligible, it ends normally, and the calls of the sender are the due
    items of these users, user by user, each call with the text of one
    item. *)
Theorem reminderJob_on_grids (send : option string -> string -> bool) (clock : Clock)
        (allUsers : list User) :
  (forall u, In u allUsers -> gridUser u) ->
  exists users,
    eligibleUsers (verifiedUsers allUsers) = Ok users
    /\ reminderJob send clock allUsers = dispatchLoop send clock users
    /\ snd (reminderJob send clock allUsers) = Ok tt
    /\ reminders (fst (reminderJob send clock allUsers)) = dueCalls send clock users.
Proof.
  intros G.
  assert (H1 : forEach describeUser allUsers = Ok tt).
  { apply GridFacts.forEach_ok. intros u Hu. apply GridFacts.describeUser_grid, G, Hu. }
  destruct (GridFacts.filterM_total
              (fun user => valid <- hasValidSchedule user ;;
                           Ok (whatsappEnabled user && valid)%bool)
              (verifiedUsers allUsers)) as (users & H).
  { intros u Hu. apply filter_In in Hu as [Hu _].
    destruct (GridFacts.hasValidSchedule_grid u (G u Hu)) as (b & ->).
    eexists. reflexivity. }
  fold (eligibleUsers (verifiedUsers allUsers)) in H.
  assert (Hgrid : forall u, In u users ->
                    truthy (weeklySchedule u) = false
                    /\ exists hs grid, schedule u = ListTasks.gridValue hs grid).
  { intros u Hu. apply (eligibleUsers_In _ _ H) in Hu as (Hin & _ & _ & _ & V).
    split; [apply (G u Hin)|]. exact (GridFacts.hasValidSchedule_true u (G u Hin) V). }
  assert (H2 : forEach (logCurrentDayTasks clock) users = Ok tt).
  { apply GridFacts.forEach_ok. intros u Hu. destruct (Hgrid u Hu) as (_ & hs & grid & E).
    exact (GridFacts2.logCurrentDayTasks_grid clock u hs grid E). }
  assert (H3 : forEach logWeek users = Ok tt).
  { apply GridFacts.forEach_ok. intros u Hu. destruct (Hgrid u Hu) as (_ & hs & grid & E).
    exact (GridFacts2.logWeek_grid u hs grid E). }
  assert (H4 : forall u, In u users -> snd (processUser send clock u) = Ok tt).
  { intros u Hu. destruct (Hgrid u Hu) as (W & hs & grid & E).
    exact (GridFacts3.processUser_grid send clock u hs grid W E). }
  exists users. split; [exact H|].
  rewrite (GridFacts3.reminderJob_is_loop send clock allUsers users H1 H H2 H3).
  split; [reflexivity|]. split.
  - now rewrite (dispatchLoop_trace send clock users H4).
  - apply GridFacts3.loop_reminders, Hgrid.
Qed.

Lemma reminderJob_on_grids_witness :
  exists users,
    eligibleUsers (verifiedUsers [noSchedule; twoHeadersAtNine; eveningGrid]) = Ok users
    /\ reminderJob alwaysSent (mondayAt 9 0) [noSchedule; twoHeadersAtNine; eveningGrid]
       = dispatchLoop alwaysSent (mondayAt 9 0) users
    /\ snd (reminderJob alwaysSent (mondayAt 9 0) [noSchedule; twoHeadersAtNine; eveningGrid])
       = Ok tt
    /\ reminders (fst (reminderJob alwaysSent (mondayAt 9 0)
                         [noSchedule; twoHeadersAtNine; eveningGrid]))
       = dueCalls alwaysSent (mondayAt 9 0) users.
Proof.
  apply (reminderJob_on_grids alwaysSent (mondayAt 9 0)
           [noSchedule; twoHeadersAtNine; eveningGrid]).
  intros u [<- | [<- | [<- | []]]]; (split; [reflexivity|]).
  - now left.
  - right. exists ["9:00 AM"; "9:00"], [["Gym"; "Standup"]]. reflexivity.
  - right. exists ["5:00 PM"], [["Gym"]]. reflexivity.
Defined.

(* ===================================================================== *)
(** * Part IV. The calls of a run, its users, and the pairing of a grid  *)
(* ===================================================================== *)

(** ** One call of the sender per due item *)

Module PrintableFacts.

Lemma join_printable items :
  forallb printable items = true -> exists s, toStr (JArr items) = Ok s.
Proof.
  cbn [toStr]. induction items as [|x rest IH]; intros H; [now exists EmptyString|].
  cbn [forallb] in H. apply andb_true_iff in H as [Hx Hr].
  assert (Ex : exists sx, match x with
                          | JUndef | JNull => Ok EmptyString
                          | _ => toStr x
                          end = Ok sx).
  { unfold printable in Hx. destruct (toStr x) as [sx | e | ] eqn:T; try discriminate Hx.
    destruct x; try (now exists sx); now exists EmptyString. }
  destruct Ex as (sx & ->). cbn [bind].
  destruct rest as [|y rest']; [now exists sx|].
  destruct (IH Hr) as (sr & ->). cbn [bind]. eexists. reflexivity.
Qed.

Lemma printable_cases v :
  match v with
  | JObj fields => printable v = negb (hasKey "toString" fields)
  | JArr items => forallb printable items = true -> printable v = true
  | _ => printable v = true
  end.
Proof.
  destruct v as [ | | b | n | s | items | fields]; try reflexivity.
  - intros H. unfold printable. now destruct (join_printable items H) as (s & ->).
  - unfold printable. cbn [toStr]. now destruct (hasKey "toString" fields).
Qed.

End PrintableFacts.

Lemma C3_counterexample : ~ singleDispatch alwaysSent (mondayAt 9 0) twoHeadersAtNine.
Proof.
  unfold singleDispatch. intros H.
  assert (E : reminders (fst (processUser alwaysSent (mondayAt 9 0) twoHeadersAtNine))
              = [(Some "919000000001", "Gym", true);
                 (Some "919000000001", "Standup", true)]) by reflexivity.
  rewrite E in H. cbn [List.length] in H. lia.
Qed.

(** C3 (amended).  In a round of the dispatch loop that gets as far as the
    loop that sends, the scheduler calls the sender once for each due item
    of the user - each header column whose time is the target time and
    whose cell is not empty - in column order, and each call carries the
    text of that single item; no combined message is built.  A round that
    an error ends before (any error before the headers are read, or a
    header that can not be written into the log line of the handler of its
    column) makes no call.  A header can be written unless it is an object
    with a [toString] property of its own, or an array that holds a value
    that can not be written; headers that are strings always can.  The
    calls of a run of the loop are the calls of its users one after the
    other.  The statements are about rounds the embedding covers, those
    that do not end in [Beyond]. *)
Theorem C3_one_call_per_due_item send clock :
  (forall u,
      snd (processUser send clock u) = Ok tt ->
      reminders (fst (processUser send clock u))
      = map (fun t => (phone u, t, send (phone u) t))
            (if reachesSend clock u then dueItems clock u else []))
  /\ (forall u daySchedule headers bound,
         beforeSlots clock u = Ok (Some (daySchedule, headers, bound)) ->
         printableHeaders headers bound = true ->
         reminders (fst (processUser send clock u))
         = map (fun t => (phone u, t, send (phone u) t))
               (flat_map (fun col => optionList (dueText clock daySchedule headers col))
                         (seq 0 bound)))
  /\ (forall us,
         (forall u, In u us -> snd (processUser send clock u) = Ok tt) ->
         reminders (fst (dispatchLoop send clock us))
         = flat_map (fun u => map (fun t => (phone u, t, send (phone u) t))
                                  (if reachesSend clock u then dueItems clock u else []))
                    us)
  /\ (forall v,
         match v with
         | JObj fields => printable v = negb (hasKey "toString" fields)
         | JArr items => forallb printable items = true -> printable v = true
         | _ => printable v = true
         end)
  /\ (forall (hs : list string) bound, printableHeaders (JArr (map JStr hs)) bound = true)
  /\ processUser send (mondayAt 9 0) unprintableHeader
     = ([UserError (Some "919000000011") TypeError], Ok tt)
  /\ dueItems (mondayAt 9 0) unprintableHeader = ["b"].
Proof.
  split; [intros u _; apply reminders_of_user|].
  split.
  { intros u ds headers bound B P.
    now destruct (processUser_reminders send clock u ds headers bound B P). }
  split.
  { intros us H. rewrite (dispatchLoop_trace send clock us H). cbn [fst].
    clear H. induction us as [|u us IH]; [reflexivity|].
    cbn [flat_map]. now rewrite reminders_app, reminders_of_user, IH. }
  split; [exact PrintableFacts.printable_cases|].
  split; [exact GridFacts3.printableHeaders_texts|].
  split; reflexivity.
Qed.

Lemma C3_one_call_per_due_item_witness :
  reminders (fst (processUser alwaysSent (mondayAt 9 0) twoHeadersAtNine))
  = [(Some "919000000001", "Gym", true); (Some "919000000001", "Standup", true)]
  /\ reminders (fst (dispatchLoop alwaysSent (mondayAt 9 0)
                       [unprintableHeader; twoHeadersAtNine]))
     = [(Some "919000000001", "Gym", true); (Some "919000000001", "Standup", true)].
Proof.
  destruct (C3_one_call_per_due_item alwaysSent (mondayAt 9 0)) as (H1 & _ & H3 & _).
  split.
  - rewrite (H1 twoHeadersAtNine); reflexivity.
  - rewrite (H3 [unprintableHeader; twoHeadersAtNine]).
    + reflexivity.
    + intros u [<- | [<- | []]]; reflexivity.
Defined.

(** ** The users of the dispatch loop *)

Module EligibilityFacts.

Lemma nonEmpty_spec s : nonEmpty s = true <-> s <> EmptyString.
Proof. destruct s; cbn; split; congruence. Qed.

Lemma hasPhone_spec u :
  hasPhone u = true <-> exists p, phone u = Some p /\ trim p <> EmptyString.
Proof.
  unfold hasPhone. destruct (phone u) as [p|].
  - rewrite andb_true_iff, !nonEmpty_spec. split.
    + intros [_ T]. now exists p.
    + intros (q & [= <-] & T). split; [|exact T]. intros ->. now apply T.
  - split; [discriminate | intros (p & E & _); discriminate].
Qed.

Lemma whatsappEnabled_spec u :
  whatsappEnabled u = false
  <-> exists s, notificationSettings u = Some s /\ whatsapp s = Some false.
Proof.
  unfold whatsappEnabled. destruct (notificationSettings u) as [s|].
  - destruct (whatsapp s) as [[|]|] eqn:W.
    + split; [discriminate | intros (s' & [= <-] & W'); congruence].
    + split; [intros _; now exists s | reflexivity].
    + split; [discriminate | intros (s' & [= <-] & W'); congruence].
  - split; [discriminate | intros (s & E & _); discriminate].
Qed.

Lemma isCompleteRow_record row :
  isRecord row = true -> isCompleteRow row = Ok (completeRecord row).
Proof.
  destruct row as [ | | b | n | s | items | fields]; try discriminate. intros _.
  unfold isCompleteRow, completeRecord. cbn [getField bind].
  destruct (truthy (lookup "day" fields)); [|reflexivity].
  destruct (truthy (lookup "time" fields)); reflexivity.
Qed.

Lemma filterM_records rows :
  forallb isRecord rows = true ->
  filterM isCompleteRow rows = Ok (filter completeRecord rows).
Proof.
  induction rows as [|row rows IH]; [reflexivity|].
  cbn [forallb filterM filter]. intros H. apply andb_true_iff in H as [Hr Hs].
  rewrite (isCompleteRow_record row Hr), (IH Hs). cbn [bind].
  now destruct (completeRecord row).
Qed.

Lemma some_kept {A} (p : A -> bool) l :
  negb (Nat.eqb (List.length (filter p l)) 0) = existsb p l.
Proof.
  induction l as [|x l IH]; [reflexivity|].
  cbn [filter existsb]. destruct (p x); [reflexivity | exact IH].
Qed.

Lemma hasValidSchedule_absent u :
  truthy (schedule u) = false -> hasValidSchedule u = Ok false.
Proof. intros H. unfold hasValidSchedule. now rewrite H. Qed.

Lemma hasValidSchedule_no_rows u fields :
  schedule u = JObj fields -> lookup "rows" fields = JArr [] ->
  hasValidSchedule u = Ok false.
Proof.
  intros E R. unfold hasValidSchedule. rewrite E. cbn [truthy negb getField bind].
  rewrite R. reflexivity.
Qed.

Lemma hasValidSchedule_legacy u fields cells rows :
  schedule u = JObj fields -> lookup "rows" fields = JArr (JArr cells :: rows) ->
  hasValidSchedule u = Ok true.
Proof.
  intros E R. unfold hasValidSchedule. rewrite E. cbn [truthy negb getField bind].
  rewrite R. unfold isNewFormat.
  cbn [truthy getLength bind greaterThanZero List.length].
  replace (0 <? Z.of_nat (S (List.length rows))) with true
    by (symmetry; apply Z.ltb_lt; lia).
  reflexivity.
Qed.

Lemma hasValidSchedule_records u fields row rows :
  schedule u = JObj fields -> lookup "rows" fields = JArr (row :: rows) ->
  forallb isRecord (row :: rows) = true ->
  hasValidSchedule u = Ok (existsb completeRecord (row :: rows)).
Proof.
  intros E R H. unfold hasValidSchedule. rewrite E. cbn [truthy negb getField bind].
  rewrite R. unfold isNewFormat.
  cbn [truthy getLength bind greaterThanZero List.length].
  replace (0 <? Z.of_nat (S (List.length rows))) with true
    by (symmetry; apply Z.ltb_lt; lia).
  cbn [getIndex nth bind].
  assert (Hr : isRecord row = true)
    by (cbn [forallb] in H; now apply andb_true_iff in H as [Hr _]).
  destruct row as [ | | b | n | s | items | fs]; try discriminate Hr.
  cbn [typeofObject hasIn]. cbn [isRecord] in Hr. rewrite Hr. cbn [bind].
  rewrite (filterM_records _ H). cbn [bind]. now rewrite some_kept.
Qed.

(** A run of the job is the dispatch loop over the users the filters
    keep, or the line of the outer handler and nothing else, or it leaves
    the embedding before any event. *)
Lemma reminderJob_outcomes send clock allUsers :
  (exists users, eligibleUsers (verifiedUsers allUsers) = Ok users /\
                 reminderJob send clock allUsers = dispatchLoop send clock users)
  \/ (exists e, reminderJob send clock allUsers = ([JobError e], Ok tt))
  \/ reminderJob send clock allUsers = ([], Beyond).
Proof.
  unfold reminderJob.
  destruct (forEach describeUser allUsers) as [[] | e | ];
    [ | right; left; now exists e | right; now right ].
  rewrite andThen_lift_Ok.
  destruct (eligibleUsers (verifiedUsers allUsers)) as [users | e | ];
    [ | right; left; now exists e | right; now right ].
  rewrite andThen_lift_Ok.
  destruct users as [|u users]; [left; exists []; split; reflexivity|].
  destruct (forEach (logCurrentDayTasks clock) (u :: users)) as [[] | e | ];
    [ | right; left; now exists e | right; now right ].
  rewrite andThen_lift_Ok.
  destruct (forEach logWeek (u :: users)) as [[] | e | ];
    [ | right; left; now exists e | right; now right ].
  rewrite andThen_lift_Ok.
  left. exists (u :: users). split; [reflexivity|].
  pose proof (dispatchLoop_never_throws send clock (u :: users)) as N.
  destruct (dispatchLoop send clock (u :: users)) as [tr [[] | e | ]]; cbn [tryCatch];
    [reflexivity | now elim (N e) | reflexivity].
Qed.

(** Every call of a run is made in the round of a user the filters
    keep. *)
Lemma calls_of_eligible send clock allUsers to text success :
  In (to, text, success) (reminders (fst (reminderJob send clock allUsers))) ->
  exists u, In u allUsers /\ to = phone u /\ hasPhone u = true /\ isVerified u = true
            /\ whatsappEnabled u = true /\ hasValidSchedule u = Ok true
            /\ In text (dueItems clock u).
Proof.
  destruct (reminderJob_outcomes send clock allUsers)
    as [(users & E & ->) | [(e & ->) | ->]]; try (intros []; fail).
  intros H. apply dispatchLoop_reminders_in in H as (u & Hu & Hr).
  apply (eligibleUsers_In _ _ E) in Hu as (Hin & P & V & W & S).
  apply reminders_in_due in Hr as (t & Er & Ht). injection Er as -> -> _.
  exists u. repeat split; assumption.
Qed.

End EligibilityFacts.

Lemma C6_counterexample : ~ processedIffVerifiedAndEnabled [emptySchedule].
Proof.
  intros H. specialize (H [] eq_refl emptySchedule (or_introl eq_refl)).
  destruct H as [_ H]. apply H. split; reflexivity.
Qed.

(** C6 (amended).  In every run of the per-minute job one of three things
    happens: the run is the dispatch loop over the users the filters keep;
    or one of the passes that come before the loop throws, the outer handler
    writes its line and no user at all is processed; or the run leaves the
    embedding before any event.  In the first case a stored user is
    processed - is one of the users of the loop - if and only if the user
    has a phone that is not blank, is verified, has the WhatsApp setting not
    explicitly false (an absent setting counts as enabled), and has a
    schedule the job accepts as valid; the first case is the one that
    happens when the three passes that write the log succeed.  In every run,
    every call of the sender is made for a stored user who meets the four
    conditions, with a due item of that user: a user whose WhatsApp setting
    is explicitly false, verified and with a schedule or not, gets no
    reminder.  A phone is not blank when it is there and is not empty after
    trimming.  A schedule is valid when its rows start with an array (the
    legacy grid; the rows are then not empty) or are all records with a
    [day] of which at least one has a truthy [day], [time] and [task]; a
    user without schedule or with no rows has no valid schedule. *)
Theorem C6_eligibility send clock allUsers :
  ((exists users,
       eligibleUsers (verifiedUsers allUsers) = Ok users
       /\ reminderJob send clock allUsers = dispatchLoop send clock users
       /\ forall u, In u users <->
                    In u allUsers /\ hasPhone u = true /\ isVerified u = true /\
                    whatsappEnabled u = true /\ hasValidSchedule u = Ok true)
   \/ (exists e, reminderJob send clock allUsers = ([JobError e], Ok tt))
   \/ reminderJob send clock allUsers = ([], Beyond))
  /\ (forall users,
         forEach describeUser allUsers = Ok tt ->
         eligibleUsers (verifiedUsers allUsers) = Ok users ->
         forEach (logCurrentDayTasks clock) users = Ok tt ->
         forEach logWeek users = Ok tt ->
         reminderJob send clock allUsers = dispatchLoop send clock users)
  /\ (forall to text success,
         In (to, text, success) (reminders (fst (reminderJob send clock allUsers))) ->
         exists u, In u allUsers /\ to = phone u /\ hasPhone u = true
                   /\ isVerified u = true /\ whatsappEnabled u = true
                   /\ hasValidSchedule u = Ok true /\ In text (dueItems clock u))
  /\ (forall u, hasPhone u = true <-> exists p, phone u = Some p /\ trim p <> EmptyString)
  /\ (forall u, whatsappEnabled u = false
                <-> exists s, notificationSettings u = Some s /\ whatsapp s = Some false)
  /\ (forall u, truthy (schedule u) = false -> hasValidSchedule u = Ok false)
  /\ (forall u fields,
         schedule u = JObj fields -> lookup "rows" fields = JArr [] ->
         hasValidSchedule u = Ok false)
  /\ (forall u fields cells rows,
         schedule u = JObj fields -> lookup "rows" fields = JArr (JArr cells :: rows) ->
         hasValidSchedule u = Ok true)
  /\ (forall u fields row rows,
         schedule u = JObj fields -> lookup "rows" fields = JArr (row :: rows) ->
         forallb isRecord (row :: rows) = true ->
         hasValidSchedule u = Ok (existsb completeRecord (row :: rows))).
Proof.
  split.
  { destruct (EligibilityFacts.reminderJob_outcomes send clock allUsers)
      as [(users & E & R) | [H | H]]; [left | right; now left | right; now right].
    exists users. split; [exact E|]. split; [exact R|]. exact (eligibleUsers_In _ _ E). }
  split; [exact (GridFacts3.reminderJob_is_loop send clock allUsers)|].
  split; [exact (EligibilityFacts.calls_of_eligible send clock allUsers)|].
  split; [exact EligibilityFacts.hasPhone_spec|].
  split; [exact EligibilityFacts.whatsappEnabled_spec|].
  split; [exact EligibilityFacts.hasValidSchedule_absent|].
  split; [exact EligibilityFacts.hasValidSchedule_no_rows|].
  split; [exact EligibilityFacts.hasValidSchedule_legacy|].
  exact EligibilityFacts.hasValidSchedule_records.
Qed.

Lemma C6_eligibility_witness :
  reminderJob alwaysSent (mondayAt 9 0) [noSchedule; twoHeadersAtNine]
  = dispatchLoop alwaysSent (mondayAt 9 0) [twoHeadersAtNine]
  /\ hasValidSchedule twoHeadersAtNine = Ok true
  /\ hasValidSchedule recordSchedule = Ok true.
Proof.
  destruct (C6_eligibility alwaysSent (mondayAt 9 0) [noSchedule; twoHeadersAtNine])
    as (_ & H & _ & _ & _ & _ & _ & L & R).
  split; [apply (H [twoHeadersAtNine]); reflexivity|].
  split.
  - exact (L twoHeadersAtNine _ _ _ eq_refl eq_refl).
  - exact (R recordSchedule _ _ _ eq_refl eq_refl eq_refl).
Defined.

(** ** The pairing of cells and headers: the listing and the job *)

Module PairingFacts.
Import ScheduleTasks ScheduleTasksFacts.

(** *** The legacy branch of the listing *)

Lemma dayOfKey_name k d : dayOfKey k = Some d -> k = dayName d.
Proof.
  unfold dayOfKey.
  repeat match goal with
         | |- (if String.eqb ?a ?b then _ else _) = _ -> _ =>
             destruct (String.eqb_spec a b) as [-> | _];
             [intros [= <-]; reflexivity|]
         end.
  discriminate.
Qed.

Lemma inherited_not_day k : inherited k = true -> dayOfKey k = None.
Proof.
  intros H. destruct (dayOfKey k) as [d|] eqn:E; [|reflexivity].
  apply dayOfKey_name in E. subst k. destruct d; discriminate H.
Qed.

Lemma collect_paired d hs (cells : list string) l :
  (forall i, In i l -> (i < List.length cells)%nat) ->
  exists pushed,
    collect (legacyCell (JArr (map JStr hs)) (map JStr cells)) l = Ok pushed
    /\ map (pair d) pushed = flat_map (pairedAt d hs cells) l.
Proof.
  intros H. eexists. split.
  - apply (collect_pure _
             (fun i => match nth_error hs (i - 1) with
                       | Some h =>
                           if (nonEmpty (trim (nth i cells EmptyString)) && nonEmpty h)%bool
                           then Some (JStr h, nth i cells EmptyString)
                           else None
                       | None => None
                       end)).
    intros i Hi. apply legacyCell_texts. now apply H.
  - clear H. induction l as [|i l IH]; [reflexivity|].
    cbn [flat_map map]. rewrite map_app, IH. f_equal.
    unfold pairedAt. destruct (nth_error hs (i - 1)); [|reflexivity].
    now destruct (nonEmpty (trim (nth i cells EmptyString)) && nonEmpty s)%bool.
Qed.

(** A row whose first cell names a property every object inherits passes
    the test of the day; the first push then fails. *)
Lemma legacyRow_inherited hs first second (rest : list string) :
  inherited first = true ->
  legacyRow (JArr (map JStr hs)) (JArr (map JStr (first :: second :: rest)))
  = match flat_map (pairedAt Monday hs (first :: second :: rest))
                   (seq 1 (S (List.length rest))) with
    | [] => Ok []
    | _ :: _ => Throw TypeError
    end.
Proof.
  intros H. cbn [map legacyRow truthy].
  destruct first as [|c first]; [discriminate H|].
  cbn [nonEmpty toStr bind]. rewrite (inherited_not_day _ H), H.
  change (JStr (String c first) :: JStr second :: map JStr rest)
    with (map JStr (String c first :: second :: rest)).
  rewrite length_map. cbn [List.length Nat.sub]. rewrite ?Nat.sub_0_r.
  destruct (collect_paired Monday hs (String c first :: second :: rest)
              (seq 1 (S (List.length rest)))) as (pushed & -> & <-).
  { intros i Hi. apply in_seq in Hi. cbn [List.length]. lia. }
  cbn [bind]. now destruct pushed.
Qed.

(** *** The row and the columns of the job *)

Lemma beforeSlots_row clock u daySchedule headers bound :
  beforeSlots clock u = Ok (Some (daySchedule, headers, bound)) ->
  exists rows len,
    coerceSchedule u = Ok (Some (rows, headers))
    /\ nth_error rows (dayToRowIndex (targetDay clock)) = Some (JArr daySchedule)
    /\ getLength headers = Ok len /\ loopBound len = Ok bound.
Proof.
  unfold beforeSlots.
  destruct (coerceSchedule u) as [[[rows hd]|] | e | ]; cbn [bind]; try discriminate.
  destruct (isRecordRow _) as [[|] | e | ]; cbn [bind]; try discriminate.
  destruct (forEach objectKeys rows) as [[] | e | ]; cbn [bind]; try discriminate.
  destruct (forEach collectRow rows) as [[] | e | ]; cbn [bind]; try discriminate.
  destruct (Nat.leb (List.length rows) (dayToRowIndex (targetDay clock))) eqn:L;
    try discriminate.
  destruct (nth (dayToRowIndex (targetDay clock)) rows JUndef) eqn:N; try discriminate.
  destruct (getLength hd) as [len | e | ] eqn:G; cbn [bind]; try discriminate.
  destruct (loopBound len) as [b | e | ] eqn:B; cbn [bind]; try discriminate.
  intros [= <- <- <-]. exists rows, len. repeat split; try assumption.
  apply Nat.leb_gt in L. rewrite (nth_error_nth' rows JUndef L). now rewrite N.
Qed.

Lemma coerceSchedule_stored u fields row rows :
  truthy (weeklySchedule u) = false -> schedule u = JObj fields ->
  lookup "rows" fields = JArr (row :: rows) ->
  coerceSchedule u = Ok (Some (row :: rows, lookup "headers" fields)).
Proof.
  intros W E R. unfold coerceSchedule, orElse. rewrite W, E. cbn [truthy negb].
  now rewrite R.
Qed.

Lemma orElse_nth_text (cells : list string) i :
  orElse (nth i (map JStr cells) JUndef) (JStr EmptyString)
  = JStr (nth i cells EmptyString).
Proof.
  revert i. induction cells as [|c cells IH]; intros [|i]; cbn [map nth];
    try reflexivity; [now destruct c | apply IH].
Qed.

Lemma cellText_texts (row : list string) col :
  cellText (map JStr row) col = Ok (trim (nth col row EmptyString)).
Proof. unfold cellText. now rewrite orElse_nth_text. Qed.

Lemma dueText_texts clock (hs row : list string) col :
  optionList (dueText clock (map JStr row) (JArr (map JStr hs)) col)
  = dueAt clock hs row col.
Proof.
  unfold dueText, dueAt. rewrite header_at, cellText_texts.
  destruct (nth_error hs col) as [h|]; [|reflexivity].
  destruct (parseTime h) as [[hours minutes]|]; [|reflexivity].
  destruct ((hours =? targetHour clock) && (minutes =? targetMinute clock))%bool;
    [|reflexivity].
  now destruct (nonEmpty (trim (nth col row EmptyString))).
Qed.

Lemma collectRow_plain (cells : list string) :
  plainRow cells = true -> collectRow (JArr (map JStr cells)) = Ok tt.
Proof.
  intros H. unfold collectRow. cbn [getField getIndex bind].
  replace (orElse JUndef (orElse JUndef (orElse JUndef (orElse JUndef
             (orElse (nth 2 (map JStr cells) JUndef) (JStr EmptyString))))))
    with (orElse (nth 2 (map JStr cells) JUndef) (JStr EmptyString)) by reflexivity.
  replace (orElse JUndef (orElse JUndef
             (orElse (nth 0 (map JStr cells) JUndef) (JStr EmptyString))))
    with (orElse (nth 0 (map JStr cells) JUndef) (JStr EmptyString)) by reflexivity.
  replace (orElse JUndef (orElse JUndef
             (orElse (nth 1 (map JStr cells) JUndef) (JStr EmptyString))))
    with (orElse (nth 1 (map JStr cells) JUndef) (JStr EmptyString)) by reflexivity.
  rewrite !orElse_nth_text.
  destruct (truthy (JStr (nth 0 cells EmptyString))
            && truthy (JStr (nth 1 cells EmptyString))
            && truthy (JStr (nth 2 cells EmptyString)))%bool; [|reflexivity].
  cbn [callToString toStr bind]. unfold plainRow in H. apply negb_true_iff in H.
  now rewrite H.
Qed.

(** On a grid of texts the round reaches the loop over the headers with
    the row at the index of the target day, when there is one. *)
Lemma beforeSlots_texts clock u hs grid :
  truthy (weeklySchedule u) = false -> schedule u = ListTasks.gridValue hs grid ->
  forallb plainRow grid = true ->
  beforeSlots clock u
  = Ok match nth_error grid (dayToRowIndex (targetDay clock)) with
       | Some row => Some (map JStr row, JArr (map JStr hs), List.length hs)
       | None => None
       end.
Proof.
  intros W E P. unfold beforeSlots, coerceSchedule, orElse at 1 2. rewrite W, E.
  unfold ListTasks.gridValue. cbn [truthy negb lookup String.eqb Ascii.eqb Bool.eqb].
  destruct grid as [|row grid]; [now destruct (dayToRowIndex (targetDay clock))|].
  change (map (fun r => JArr (map JStr r)) (row :: grid))
    with (JArr (map JStr row) :: map (fun r => JArr (map JStr r)) grid) at 1.
  cbv beta iota. cbn [bind].
  change (JArr (map JStr row) :: map (fun r => JArr (map JStr r)) grid)
    with (map (fun r => JArr (map JStr r)) (row :: grid)).
  destruct (GridFacts3.chosen_row (getDay (targetDay clock)) row grid) as (cells & ->).
  replace (isRecordRow (JArr (map JStr cells))) with (@Ok bool false) by reflexivity.
  cbn [bind].
  rewrite (GridFacts.forEach_ok objectKeys).
  2:{ intros r Hr. apply GridFacts.in_rows in Hr as (c & ->). reflexivity. }
  cbn [bind].
  rewrite (GridFacts.forEach_ok collectRow).
  2:{ intros r Hr. apply in_map_iff in Hr as (c & <- & Hc).
      apply collectRow_plain. rewrite forallb_forall in P. now apply P. }
  cbn [bind]. rewrite length_map.
  generalize (dayToRowIndex (targetDay clock)). intros idx.
  destruct (Nat.leb (List.length (row :: grid)) idx) eqn:L.
  - apply Nat.leb_le in L. apply nth_error_None in L. now rewrite L.
  - apply Nat.leb_gt in L.
    rewrite (nth_indep _ JUndef (JArr (map JStr [])))
      by now rewrite length_map.
    rewrite (map_nth (fun r => JArr (map JStr r))).
    rewrite (nth_error_nth' (row :: grid) [] L).
    cbn [getLength bind loopBound]. now rewrite length_map, Nat2Z.id.
Qed.

(** The calls of a round on a grid of texts: the cell at index [col] of
    the row of the target day with the header at index [col]. *)
Lemma processUser_texts send clock u hs grid :
  truthy (weeklySchedule u) = false -> schedule u = ListTasks.gridValue hs grid ->
  forallb plainRow grid = true ->
  reminders (fst (processUser send clock u))
  = map (fun t => (phone u, t, send (phone u) t))
        (flat_map (dueAt clock hs (nth (dayToRowIndex (targetDay clock)) grid []))
                  (seq 0 (List.length hs))).
Proof.
  intros W E P. pose proof (beforeSlots_texts clock u hs grid W E P) as B.
  destruct (nth_error grid (dayToRowIndex (targetDay clock))) as [row|] eqn:N.
  - destruct (processUser_reminders send clock u _ _ _ B
                (GridFacts3.printableHeaders_texts hs _)) as [_ ->].
    rewrite (nth_error_nth _ _ [] N). unfold dueTexts. f_equal.
    apply flat_map_ext. intros col. apply dueText_texts.
  - rewrite (processUser_no_slots send clock u) by (rewrite B; discriminate).
    apply nth_error_None in N. rewrite (nth_overflow _ _ N).
    assert (Z : forall l, flat_map (dueAt clock hs []) l = []).
    { induction l as [|col l IH]; [reflexivity|]. cbn [flat_map]. rewrite IH.
      unfold dueAt. destruct (nth_error hs col) as [h|]; [|reflexivity].
      destruct (parseTime h) as [[hours minutes]|]; [|reflexivity].
      destruct ((hours =? targetHour clock) && (minutes =? targetMinute clock))%bool;
        [|reflexivity].
      now destruct col. }
    now rewrite Z.
Qed.

End PairingFacts.

Lemma C1_counterexample : ~ formatAScenario.
Proof.
  unfold formatAScenario, dueOnMonday. intros (H & _).
  vm_compute in H. discriminate H.
Qed.

(** C1 (amended).  In the schedule listing ([/api/schedule/tasks]) a row of
    texts that starts with one of the day names Monday to Sunday has its
    cell at index i (i >= 1) paired with the time string headers[i-1];
    cells that are empty after trimming and cells with no (or an empty)
    header are skipped.  Every other row of texts adds nothing: a row of a
    single cell, a row whose first cell is not a day name - except that a
    first cell naming a property every object inherits makes the route
    throw at its first push.  For the grid with headers 9:00 AM, 10:00 AM
    and the row Monday, Standup, Review the listing holds Standup at 9:00 AM
    and Review at 10:00 AM.

    The per-minute job has no column for the day.  A round that reaches the
    loop over the headers reads the row at the index of the target day,
    Monday 0 to Sunday 6, and visits the columns from 0 to the length of
    the headers; when every header can be written, its calls are the due
    items of that row, the cell at index i going with headers[i].  On a grid
    of texts the calls are exactly these.  For the grid above it sends the
    text of cell 0 (Monday) at Monday 9:00, Standup at 10:00 and nothing at
    11:00; on a grid of two rows it sends the task of the second row on
    Tuesday. *)
Theorem C1_grid_pairing :
  (forall d hs cells,
      cells <> [] ->
      ScheduleTasks.legacyRow (JArr (map JStr hs)) (JArr (map JStr (dayName d :: cells)))
      = Ok (flat_map (ScheduleTasks.pairedAt d hs (dayName d :: cells))
                     (seq 1 (List.length cells))))
  /\ (forall k d, ScheduleTasks.dayOfKey k = Some d -> k = dayName d)
  /\ (forall timeSlots row,
         startsWithTask row = true ->
         ScheduleTasks.legacyRow timeSlots (JArr (map JStr row)) = Ok [])
  /\ (forall timeSlots cell, ScheduleTasks.legacyRow timeSlots (JArr [cell]) = Ok [])
  /\ (forall hs first second rest,
         inherited first = true ->
         ScheduleTasks.legacyRow (JArr (map JStr hs))
           (JArr (map JStr (first :: second :: rest)))
         = match flat_map (ScheduleTasks.pairedAt Monday hs (first :: second :: rest))
                          (seq 1 (S (List.length rest))) with
           | [] => Ok []
           | _ :: _ => Throw TypeError
           end)
  /\ ScheduleTasks.legacyTasks (schedule dayNameGrid)
     = Ok [(Monday, (JStr "9:00 AM", "Standup")); (Monday, (JStr "10:00 AM", "Review"))]
  /\ (forall clock u daySchedule headers bound,
         beforeSlots clock u = Ok (Some (daySchedule, headers, bound)) ->
         exists rows len,
           coerceSchedule u = Ok (Some (rows, headers))
           /\ nth_error rows (dayToRowIndex (targetDay clock)) = Some (JArr daySchedule)
           /\ getLength headers = Ok len /\ loopBound len = Ok bound)
  /\ (forall u fields row rows,
         truthy (weeklySchedule u) = false -> schedule u = JObj fields ->
         lookup "rows" fields = JArr (row :: rows) ->
         coerceSchedule u = Ok (Some (row :: rows, lookup "headers" fields)))
  /\ map dayToRowIndex [Monday; Tuesday; Wednesday; Thursday; Friday; Saturday; Sunday]
     = seq 0 7
  /\ (forall send clock u daySchedule headers bound,
         beforeSlots clock u = Ok (Some (daySchedule, headers, bound)) ->
         printableHeaders headers bound = true ->
         reminders (fst (processUser send clock u))
         = map (fun t => (phone u, t, send (phone u) t))
               (flat_map (fun col => optionList (dueText clock daySchedule headers col))
                         (seq 0 bound)))
  /\ (forall clock daySchedule hs col,
         dueText clock daySchedule (JArr hs) col
         = match nth col hs JUndef with
           | JStr s =>
               match parseTime s with
               | Some (h, m) =>
                   if ((h =? targetHour clock) && (m =? targetMinute clock))%bool
                   then match cellText daySchedule col with
                        | Ok t => if nonEmpty t then Some t else None
                        | _ => None
                        end
                   else None
               | None => None
               end
           | _ => None
           end)
  /\ (forall send clock u hs grid,
         truthy (weeklySchedule u) = false -> schedule u = ListTasks.gridValue hs grid ->
         forallb plainRow grid = true ->
         reminders (fst (processUser send clock u))
         = map (fun t => (phone u, t, send (phone u) t))
               (flat_map (dueAt clock hs (nth (dayToRowIndex (targetDay clock)) grid []))
                         (seq 0 (List.length hs))))
  /\ dueOnMonday 9 0 ["Monday"] /\ dueOnMonday 10 0 ["Standup"] /\ dueOnMonday 11 0 []
  /\ reminders (fst (reminderJob alwaysSent (mkClock Tuesday Tuesday 9 0) [twoDayGrid]))
     = [(Some "919000000012", "Swim", true)].
Proof.
  split; [exact ScheduleTasksFacts.legacyRow_texts|].
  split; [exact PairingFacts.dayOfKey_name|].
  split; [exact ListScheduleFacts.legacyRow_no_day|].
  split; [reflexivity|].
  split; [exact PairingFacts.legacyRow_inherited|].
  split; [reflexivity|].
  split; [exact PairingFacts.beforeSlots_row|].
  split; [exact PairingFacts.coerceSchedule_stored|].
  split; [reflexivity|].
  split.
  { intros send clock u ds headers bound B P.
    now destruct (processUser_reminders send clock u ds headers bound B P). }
  split; [reflexivity|].
  split; [exact PairingFacts.processUser_texts|].
  repeat split.
Qed.

Lemma C1_grid_pairing_witness :
  ScheduleTasks.legacyRow (JArr (map JStr ["9:00 AM"; "10:00 AM"]))
    (JArr (map JStr (dayName Monday :: ["Standup"; ""; "Late"])))
  = Ok [(Monday, (JStr "9:00 AM", "Standup"))]
  /\ reminders (fst (processUser alwaysSent (mkClock Tuesday Tuesday 9 0) twoDayGrid))
     = [(Some "919000000012", "Swim", true)]
  /\ reminders (fst (processUser alwaysSent (mkClock Monday Monday 10 0) twoDayGrid))
     = [(Some "919000000012", "Read", true)].
Proof.
  destruct C1_grid_pairing as (H & _ & _ & _ & _ & _ & _ & _ & _ & _ & _ & G & _).
  split; [|split].
  - rewrite (H Monday ["9:00 AM"; "10:00 AM"] ["Standup"; ""; "Late"]);
      [reflexivity | discriminate].
  - rewrite (G alwaysSent (mkClock Tuesday Tuesday 9 0) twoDayGrid
               ["9:00 AM"; "10:00 AM"] [["Gym"; "Read"]; ["Swim"; ""]]);
      reflexivity.
  - rewrite (G alwaysSent (mkClock Monday Monday 10 0) twoDayGrid
               ["9:00 AM"; "10:00 AM"] [["Gym"; "Read"]; ["Swim"; ""]]);
      reflexivity.
Defined.
